(** * Channels DVR support module: program classification and library matching

    A shallow embedding of [CDVR_Support.py] (classes [ChannelsDVRServer]
    and [Program]) and the properties of its classification and
    library-deduplication logic.

    The records handled by the module are the JSON values returned by the
    server, so the embedding works on a JSON value type with the Python
    operations the module applies to them (subscript, [dict.get],
    truthiness, [==], [in], iteration, [str.lower]), each with the
    exceptions Python raises.  Numbers are integers (the numeric fields of
    the API are), an object is the association list of its (distinct)
    keys, and a string is the sequence of its characters; the text of
    every example is ASCII.  [str.lower], which follows Unicode, is not
    computed on other text: it is the function [Py.lower_string] of the
    class [Py.Lower], of which only its value on ASCII text is given. *)

From Stdlib Require Import String Ascii List ZArith Bool Lia.
Import ListNotations.
Local Open Scope string_scope.
Set Warnings "-register-all".

(** ** JSON values *)

Inductive json : Type :=
| JNull : json
| JBool : bool -> json
| JNum  : Z -> json
| JStr  : string -> json
| JArr  : list json -> json
| JObj  : list (string * json) -> json.

(** ** Exceptions and results *)

Inductive exn : Type :=
| KeyError
| IndexError
| TypeError
| AttributeError
| RuntimeError
| RequestException.

Inductive res (A : Type) : Type :=
| Ok : A -> res A
| Raise : exn -> res A.

Arguments Ok {A} _.
Arguments Raise {A} _.

Definition bind {A B : Type} (m : res A) (k : A -> res B) : res B :=
  match m with
  | Ok a => k a
  | Raise e => Raise e
  end.

Notation "x <- m ;; k" := (bind m (fun x => k))
  (at level 61, m at next level, right associativity).

(** Code that prints: the values written to standard output, in order,
    with the result. *)
Definition io (A : Type) : Type := (list json * res A)%type.

Definition io_ret {A : Type} (r : res A) : io A := ([], r).

Definition io_bind {A B : Type} (m : io A) (k : A -> io B) : io B :=
  match m with
  | (out, Ok a) => let (out', r) := k a in ((out ++ out')%list, r)
  | (out, Raise e) => (out, Raise e)
  end.

(** ** Python operations on JSON values *)

Module Py.

(** [dict] lookup by key. *)
Fixpoint lookup (k : string) (o : list (string * json)) : option json :=
  match o with
  | [] => None
  | (k', v) :: o' => if String.eqb k k' then Some v else lookup k o'
  end.

(** [bool(x)]. *)
Definition truthy (x : json) : bool :=
  match x with
  | JNull => false
  | JBool b => b
  | JNum z => negb (Z.eqb z 0)
  | JStr s => negb (String.eqb s "")
  | JArr l => match l with [] => false | _ => true end
  | JObj o => match o with [] => false | _ => true end
  end.

(** [x[k]] for a string constant [k]. *)
Definition getitem (x : json) (k : string) : res json :=
  match x with
  | JObj o => match lookup k o with
              | Some v => Ok v
              | None => Raise KeyError
              end
  | _ => Raise TypeError
  end.

(** [x[0]]. *)
Definition getitem0 (x : json) : res json :=
  match x with
  | JArr l => match l with
              | v :: _ => Ok v
              | [] => Raise IndexError
              end
  | JStr s => match s with
              | String c _ => Ok (JStr (String c EmptyString))
              | EmptyString => Raise IndexError
              end
  | JObj _ => Raise KeyError
  | _ => Raise TypeError
  end.

(** [x.get(k, None)]. *)
Definition get (x : json) (k : string) : res json :=
  match x with
  | JObj o => match lookup k o with
              | Some v => Ok v
              | None => Ok JNull
              end
  | _ => Raise AttributeError
  end.

(** [x == y]: [True == 1], lists are compared element by element, dicts
    key by key whatever the order of the keys. *)
Fixpoint eq (x y : json) {struct x} : bool :=
  match x, y with
  | JNull, JNull => true
  | JBool a, JBool b => Bool.eqb a b
  | JBool a, JNum n => Z.eqb (if a then 1 else 0) n
  | JNum n, JBool b => Z.eqb n (if b then 1 else 0)
  | JNum n, JNum m => Z.eqb n m
  | JStr s, JStr t => String.eqb s t
  | JArr l, JArr l' =>
      (fix eq_list (l l' : list json) {struct l} : bool :=
         match l, l' with
         | [], [] => true
         | a :: r, b :: r' => eq a b && eq_list r r'
         | _, _ => false
         end) l l'
  | JObj o, JObj o' =>
      Nat.eqb (length o) (length o') &&
      (fix eq_items (o : list (string * json)) {struct o} : bool :=
         match o with
         | [] => true
         | (k, v) :: r =>
             match lookup k o' with
             | Some v' => eq v v' && eq_items r
             | None => false
             end
         end) o
  | _, _ => false
  end.

(** [sub in s] on strings. *)
Fixpoint substring (sub s : string) : bool :=
  String.prefix sub s ||
  match s with
  | EmptyString => false
  | String _ s' => substring sub s'
  end.

(** [x in c]: membership in a list, substring of a string, key of a
    dict; a list or dict is not hashable and cannot be looked up in a
    dict. *)
Definition contains (x c : json) : res bool :=
  match c with
  | JArr l => Ok (existsb (eq x) l)
  | JStr s => match x with
              | JStr sub => Ok (substring sub s)
              | _ => Raise TypeError
              end
  | JObj o => match x with
              | JStr k => Ok (match lookup k o with Some _ => true | None => false end)
              | JArr _ | JObj _ => Raise TypeError
              | _ => Ok false
              end
  | _ => Raise TypeError
  end.

(** [for v in x]: the elements of a list, the keys of a dict, the
    characters of a string. *)
Fixpoint chars (s : string) : list json :=
  match s with
  | EmptyString => []
  | String c s' => JStr (String c EmptyString) :: chars s'
  end.

Definition iter (x : json) : res (list json) :=
  match x with
  | JArr l => Ok l
  | JObj o => Ok (map (fun kv => JStr (fst kv)) o)
  | JStr s => Ok (chars s)
  | _ => Raise TypeError
  end.

(** [str.lower()] follows the Unicode case mapping, which the embedding
    does not compute: a lowered string may be longer than the string it
    comes from (the capital I with a dot above lowers to two code
    points), and a capital sigma lowers according to its position.  The
    lowering function is therefore a parameter, the class [Lower], with
    the two facts the development relies on: on ASCII text it replaces
    the letters [A]..[Z] by [a]..[z] and keeps every other character,
    and its result holds no ASCII capital. *)
Definition lower_ascii (c : ascii) : ascii :=
  let n := nat_of_ascii c in
  if (65 <=? n)%nat && (n <=? 90)%nat then ascii_of_nat (n + 32) else c.

Fixpoint lower_ascii_string (s : string) : string :=
  match s with
  | EmptyString => EmptyString
  | String c s' => String (lower_ascii c) (lower_ascii_string s')
  end.

(** No character of [s] satisfies [p]. *)
Fixpoint none_of (p : ascii -> bool) (s : string) : bool :=
  match s with
  | EmptyString => true
  | String c s' => negb (p c) && none_of p s'
  end.

Definition is_upper (c : ascii) : bool :=
  let n := nat_of_ascii c in (65 <=? n)%nat && (n <=? 90)%nat.

Definition is_not_ascii (c : ascii) : bool := (128 <=? nat_of_ascii c)%nat.

Definition is_ascii (s : string) : bool := none_of is_not_ascii s.

Class Lower : Type := {
  lower_string : string -> string;
  lower_string_ascii :
    forall s, is_ascii s = true -> lower_string s = lower_ascii_string s;
  lower_string_no_upper :
    forall s, none_of is_upper (lower_string s) = true
}.

(** [x.lower()]. *)
Definition lower `{Lower} (x : json) : res json :=
  match x with
  | JStr s => Ok (JStr (lower_string s))
  | _ => Raise AttributeError
  end.

End Py.

(** The lowering of ASCII text.  Every lowering agrees with it on ASCII
    text; the closed examples, whose text is ASCII, are evaluated with
    it. *)
#[global] Instance ascii_lower : Py.Lower.
Proof.
  refine {| Py.lower_string := Py.lower_ascii_string;
            Py.lower_string_ascii := fun s _ => eq_refl;
            Py.lower_string_no_upper := _ |}.
  intros s. induction s as [|c s IH]; [reflexivity|].
  cbn [Py.lower_ascii_string Py.none_of]. rewrite IH, andb_true_r.
  destruct c as [[] [] [] [] [] [] [] []]; reflexivity.
Defined.

(** ** The server ([ChannelsDVRServer])

    The module reads the server through two requests; a server is what it
    answers to them (the parsed JSON body, or the exception raised by the
    transport). *)

Record ChannelsDVRServer : Type := {
  dvr_jobs  : res json;   (* GET /dvr/jobs *)
  dvr_files : res json    (* GET /dvr/files *)
}.

Definition None_ : json := JNull.

Section Server.

Variable dvr : ChannelsDVRServer.

Definition get_all_scheduled_recordings : res json := dvr_jobs dvr.

Definition get_all_programs_from_library : res json := dvr_files dvr.

(** The snapshot the filters work on: [library_files] unless it is
    falsy, in which case the library is requested from the server. *)
Definition snapshot (library_files : json) : res json :=
  if negb (Py.truthy library_files)
  then get_all_programs_from_library
  else Ok library_files.

Fixpoint movies_loop (fs : list json) : res (list json) :=
  match fs with
  | [] => Ok []
  | f :: fs' =>
      airing <- Py.getitem f "Airing" ;;
      categories <- Py.get airing "Categories" ;;
      if negb (Py.truthy categories) then movies_loop fs'
      else
        is_movie <- Py.contains (JStr "Movie") categories ;;
        movies <- movies_loop fs' ;;
        Ok (if is_movie then f :: movies else movies)
  end.

Definition get_all_movies_from_library (library_files : json) : res (list json) :=
  library_files <- snapshot library_files ;;
  fs <- Py.iter library_files ;;
  movies_loop fs.

Fixpoint series_loop (fs : list json) : res (list json) :=
  match fs with
  | [] => Ok []
  | f :: fs' =>
      airing <- Py.getitem f "Airing" ;;
      categories <- Py.get airing "Categories" ;;
      if negb (Py.truthy categories) then series_loop fs'
      else
        airing' <- Py.getitem f "Airing" ;;
        categories' <- Py.getitem airing' "Categories" ;;
        is_series <- Py.contains (JStr "Series") categories' ;;
        series <- series_loop fs' ;;
        Ok (if is_series then f :: series else series)
  end.

Definition get_all_series_from_library (library_files : json) : res (list json) :=
  library_files <- snapshot library_files ;;
  fs <- Py.iter library_files ;;
  series_loop fs.

(** The title [get_one_movie_from_library] reads from a library movie. *)
Definition library_movie_title (m : json) : res json :=
  airing <- Py.getitem m "Airing" ;;
  raw_data <- Py.get airing "Raw" ;;
  if Py.truthy raw_data then
    airing' <- Py.getitem m "Airing" ;;
    raw <- Py.getitem airing' "Raw" ;;
    Py.get raw "title"
  else Ok None_.

Fixpoint one_movie_loop (movie_title : json) (all_movies : list json) : res json :=
  match all_movies with
  | [] => Ok None_
  | m :: ms =>
      t <- library_movie_title m ;;
      if Py.eq t movie_title then Ok m else one_movie_loop movie_title ms
  end.

Definition get_one_movie_from_library (movie_title library_files : json) : res json :=
  all_movies <- get_all_movies_from_library library_files ;;
  one_movie_loop movie_title all_movies.

(** The title [get_all_episodes_of_one_series_from_library] reads from a
    library series. *)
Definition library_series_title (s : json) : res json :=
  airing <- Py.getitem s "Airing" ;;
  raw_data <- Py.get airing "Raw" ;;
  if Py.truthy raw_data then
    airing' <- Py.getitem s "Airing" ;;
    raw <- Py.getitem airing' "Raw" ;;
    program_info <- Py.get raw "program" ;;
    if negb (Py.truthy program_info) then
      airing'' <- Py.getitem s "Airing" ;;
      Py.getitem airing'' "Title"
    else Py.getitem program_info "title"
  else
    airing' <- Py.getitem s "Airing" ;;
    Py.getitem airing' "Title".

Fixpoint episodes_loop (series_title : json) (all_series : list json) : res (list json) :=
  match all_series with
  | [] => Ok []
  | s :: ss =>
      t <- library_series_title s ;;
      series_episodes <- episodes_loop series_title ss ;;
      Ok (if Py.eq t series_title then s :: series_episodes else series_episodes)
  end.

Definition get_all_episodes_of_one_series_from_library
    (series_title library_files : json) : res (list json) :=
  all_series <- get_all_series_from_library library_files ;;
  episodes_loop series_title all_series.

Fixpoint one_episode_loop (season_number episode_number : json)
    (all_episodes : list json) : res json :=
  match all_episodes with
  | [] => Ok None_
  | library_episode :: es =>
      airing <- Py.getitem library_episode "Airing" ;;
      ep_season_num <- Py.get airing "SeasonNumber" ;;
      if Py.eq ep_season_num season_number then
        airing' <- Py.getitem library_episode "Airing" ;;
        ep_num <- Py.get airing' "EpisodeNumber" ;;
        if Py.eq ep_num episode_number then Ok library_episode
        else one_episode_loop season_number episode_number es
      else one_episode_loop season_number episode_number es
  end.

Definition get_one_episode_of_one_series_from_library
    (series_title season_number episode_number library_files : json) : res json :=
  all_episodes <- get_all_episodes_of_one_series_from_library series_title library_files ;;
  one_episode_loop season_number episode_number all_episodes.

Fixpoint non_skipped_loop (jobs : list json) : res (list json) :=
  match jobs with
  | [] => Ok []
  | job :: jobs' =>
      skipped <- Py.getitem job "Skipped" ;;
      rest <- non_skipped_loop jobs' ;;
      Ok (if negb (Py.truthy skipped) then job :: rest else rest)
  end.

Definition get_non_skipped_scheduled_recordings : res (list json) :=
  jobs <- dvr_jobs dvr ;;
  jobs <- Py.iter jobs ;;
  non_skipped_loop jobs.

End Server.

(** ** One program ([Program]) *)

Record Program : Type := {
  program        : json;
  director       : json;
  episode_number : json;
  episode_title  : json;
  release_year   : json;
  season_number  : json;
  title          : json
}.

Definition _get_director_from_json (program : json) : res json :=
  airing <- Py.getitem program "Airing" ;;
  directors <- Py.get airing "Directors" ;;
  if Py.truthy directors then Py.getitem0 directors else Ok None_.

Definition _get_episode_number_from_json (program : json) : res json :=
  airing <- Py.getitem program "Airing" ;;
  Py.get airing "EpisodeNumber".

Definition _get_episode_title_from_json (program : json) : res json :=
  airing <- Py.getitem program "Airing" ;;
  Py.get airing "EpisodeTitle".

Definition _get_release_year_from_json (program : json) : res json :=
  airing <- Py.getitem program "Airing" ;;
  Py.get airing "ReleaseYear".

Definition _get_season_number_from_json (program : json) : res json :=
  airing <- Py.getitem program "Airing" ;;
  Py.get airing "SeasonNumber".

Definition _get_title (program : json) : res json :=
  airing <- Py.getitem program "Airing" ;;
  raw_info <- Py.get airing "Raw" ;;
  if negb (Py.truthy raw_info) then
    airing' <- Py.getitem program "Airing" ;;
    Py.getitem airing' "Title"
  else
    program_info <- Py.get raw_info "program" ;;
    if negb (Py.truthy program_info) then
      airing' <- Py.getitem program "Airing" ;;
      Py.getitem airing' "Title"
    else Py.getitem program_info "title".

(** [Program(program_json)]. *)
Definition Program_init (program_json : json) : res Program :=
  director       <- _get_director_from_json program_json ;;
  episode_number <- _get_episode_number_from_json program_json ;;
  episode_title  <- _get_episode_title_from_json program_json ;;
  release_year   <- _get_release_year_from_json program_json ;;
  season_number  <- _get_season_number_from_json program_json ;;
  title          <- _get_title program_json ;;
  Ok {| program := program_json;
        director := director;
        episode_number := episode_number;
        episode_title := episode_title;
        release_year := release_year;
        season_number := season_number;
        title := title |}.

Definition is_an_episode (self : Program) : res bool :=
  airing <- Py.getitem (program self) "Airing" ;;
  categories <- Py.get airing "Categories" ;;
  if Py.truthy categories then
    is_ep <- Py.contains (JStr "Episode") categories ;;
    if is_ep then Ok true
    else
      is_series <- Py.contains (JStr "Series") categories ;;
      Ok (is_series
          && negb (Py.eq (season_number self) None_)
          && negb (Py.eq (episode_number self) None_))
  else
    airing' <- Py.getitem (program self) "Airing" ;;
    episode_title <- Py.get airing' "EpisodeTitle" ;;
    Ok (Py.truthy episode_title).

Definition is_a_movie (self : Program) : res bool :=
  airing <- Py.getitem (program self) "Airing" ;;
  categories <- Py.get airing "Categories" ;;
  if Py.truthy categories then Py.contains (JStr "Movie") categories
  else Ok false.

(** Returns ["Episode"], ["Movie"] or [None]. *)
Definition get_program_type (self : Program) : res json :=
  let program_type := None_ in
  is_ep <- is_an_episode self ;;
  let program_type := if is_ep then JStr "Episode" else program_type in
  is_mv <- is_a_movie self ;;
  let program_type := if is_mv then JStr "Movie" else program_type in
  Ok program_type.

Definition is_recording_in_progress (self : Program) : res bool :=
  file_id <- Py.getitem (program self) "FileID" ;;
  Ok (Py.truthy file_id).

Section Matching.

(** The module-level server instance the matchers call, and the
    lowering of [str.lower]. *)
Variable dvr : ChannelsDVRServer.
Context `{Py.Lower}.

Definition is_movie_in_library (self : Program) (library_files : json) : res bool :=
  library_movie <- get_one_movie_from_library dvr (title self) library_files ;;
  if Py.truthy library_movie then
    airing <- Py.getitem library_movie "Airing" ;;
    year <- Py.getitem airing "ReleaseYear" ;;
    let has_same_release_year := Py.eq year (release_year self) in
    airing' <- Py.getitem library_movie "Airing" ;;
    directors <- Py.getitem airing' "Directors" ;;
    has_same_director <- Py.contains (director self) directors ;;
    Ok (has_same_release_year && has_same_director)
  else Ok false.

(** The comparison inside the [try] block. *)
Definition same_episode_title (library_episode self : Program) : res bool :=
  a <- Py.lower (episode_title library_episode) ;;
  b <- Py.lower (episode_title self) ;;
  Ok (Py.eq a b).

Definition is_episode_in_library (self : Program) (library_files : json) : io bool :=
  match get_one_episode_of_one_series_from_library dvr
          (title self) (season_number self) (episode_number self) library_files with
  | Raise e => ([], Raise e)
  | Ok library_episode =>
      if Py.truthy library_episode then
        match Program_init library_episode with
        | Raise e => ([], Raise e)
        | Ok library_episode =>
            if Py.truthy (episode_title library_episode) then
              match same_episode_title library_episode self with
              | Ok has_same_episode_title => ([], Ok has_same_episode_title)
              | Raise _ =>
                  ([title self; episode_title self; episode_title library_episode],
                   Raise RuntimeError)
              end
            else ([], Ok false)
        end
      else ([], Ok false)
  end.

Definition is_in_library (self : Program) (library_files : json) : io bool :=
  io_bind (io_ret (is_a_movie self)) (fun is_mv =>
  io_bind (if is_mv then io_ret (is_movie_in_library self library_files)
           else io_ret (Ok false)) (fun in_library =>
  io_bind (io_ret (is_an_episode self)) (fun is_ep =>
  if is_ep then
    io_bind (is_episode_in_library self library_files) (fun found =>
    io_ret (Ok (if found then true else in_library)))
  else io_ret (Ok in_library)))).

(** The dispatch as the specification words it: the matcher is chosen
    by the single classification [get_program_type] returns, and an
    unclassified record is not in the library.  It is compared with
    [is_in_library] below. *)
Definition is_in_library_by_classify (self : Program) (library_files : json) : io bool :=
  match get_program_type self with
  | Raise e => ([], Raise e)
  | Ok (JStr "Movie") => io_ret (is_movie_in_library self library_files)
  | Ok (JStr "Episode") => is_episode_in_library self library_files
  | Ok _ => ([], Ok false)
  end.

End Matching.

(** ** Optional fields *)

(** The value of an optional field of an object: [None] when the key is
    missing. *)
Definition field (o : list (string * json)) (k : string) : json :=
  match Py.lookup k o with
  | Some v => v
  | None => None_
  end.

(** A field is present when it is not [None]. *)
Definition present (v : json) : bool := negb (Py.eq v None_).

(** ** Concrete records used in the examples below *)

Module Sample.

Definition record (airing : list (string * json)) : json :=
  JObj [("ID", JStr "42"); ("Airing", JObj airing)].

Definition server (files : list json) : ChannelsDVRServer :=
  {| dvr_jobs := Ok (JArr []); dvr_files := Ok (JArr files) |}.

(** The movie of the scenario "library contains one movie Dune". *)
Definition dune : json :=
  record [("Title", JStr "Dune"); ("Categories", JArr [JStr "Movie"]);
          ("ReleaseYear", JNum 1984); ("Directors", JArr [JStr "David Lynch"])].

Definition dune_program : Program :=
  {| program := dune; director := JStr "David Lynch";
     episode_number := None_; episode_title := None_;
     release_year := JNum 1984; season_number := None_;
     title := JStr "Dune" |}.

(** The same movie as a library file carrying provider metadata. *)
Definition dune_raw : json :=
  record [("Title", JStr "Dune"); ("Categories", JArr [JStr "Movie"]);
          ("ReleaseYear", JNum 1984); ("Directors", JArr [JStr "David Lynch"]);
          ("Raw", JObj [("title", JStr "Dune")])].

(** ... and without its release year. *)
Definition dune_raw_no_year : json :=
  record [("Title", JStr "Dune"); ("Categories", JArr [JStr "Movie"]);
          ("Directors", JArr [JStr "David Lynch"]);
          ("Raw", JObj [("title", JStr "Dune")])].

(** The library episode of the scenario "Show, season 2, episode 5". *)
Definition finale : json :=
  record [("Title", JStr "Show"); ("Categories", JArr [JStr "Series"]);
          ("SeasonNumber", JNum 2); ("EpisodeNumber", JNum 5);
          ("EpisodeTitle", JStr "Finale")].

Definition finale_program : Program :=
  {| program := finale; director := None_;
     episode_number := JNum 5; episode_title := JStr "Finale";
     release_year := None_; season_number := JNum 2;
     title := JStr "Show" |}.

(** The same library episode without its episode title. *)
Definition untitled : json :=
  record [("Title", JStr "Show"); ("Categories", JArr [JStr "Series"]);
          ("SeasonNumber", JNum 2); ("EpisodeNumber", JNum 5)].

Definition untitled_program : Program :=
  {| program := untitled; director := None_;
     episode_number := JNum 5; episode_title := None_;
     release_year := None_; season_number := JNum 2;
     title := JStr "Show" |}.

(** Another library file with the same series title and numbers. *)
Definition premiere : json :=
  record [("Title", JStr "Show"); ("Categories", JArr [JStr "Series"]);
          ("SeasonNumber", JNum 2); ("EpisodeNumber", JNum 5);
          ("EpisodeTitle", JStr "Premiere")].

Definition premiere_program : Program :=
  {| program := premiere; director := None_;
     episode_number := JNum 5; episode_title := JStr "Premiere";
     release_year := None_; season_number := JNum 2;
     title := JStr "Show" |}.

(** A scheduled airing of that episode, upper-case episode title. *)
Definition candidate : json :=
  record [("Title", JStr "Show"); ("Categories", JArr [JStr "Series"]);
          ("SeasonNumber", JNum 2); ("EpisodeNumber", JNum 5);
          ("EpisodeTitle", JStr "FINALE")].

Definition candidate_program : Program :=
  {| program := candidate; director := None_;
     episode_number := JNum 5; episode_title := JStr "FINALE";
     release_year := None_; season_number := JNum 2;
     title := JStr "Show" |}.

(** A record tagged both as a movie and as an episode. *)
Definition both : json :=
  record [("Title", JStr "Show"); ("Categories", JArr [JStr "Movie"; JStr "Episode"]);
          ("SeasonNumber", JNum 2); ("EpisodeNumber", JNum 5);
          ("EpisodeTitle", JStr "FINALE")].

Definition both_program : Program :=
  {| program := both; director := None_;
     episode_number := JNum 5; episode_title := JStr "FINALE";
     release_year := None_; season_number := JNum 2;
     title := JStr "Show" |}.

(** A record with neither categories nor an episode title. *)
Definition bare : json := record [("Title", JStr "News")].

Definition bare_program : Program :=
  {| program := bare; director := None_;
     episode_number := None_; episode_title := None_;
     release_year := None_; season_number := None_;
     title := JStr "News" |}.

(** A library movie whose provider metadata carries the title of the
    program, and no title of its own. *)
Definition dune_provider : json :=
  record [("Title", JStr "Dune"); ("Categories", JArr [JStr "Movie"]);
          ("ReleaseYear", JNum 1984); ("Directors", JArr [JStr "David Lynch"]);
          ("Raw", JObj [("program", JObj [("title", JStr "Dune")])])].

(** A library series whose provider metadata carries the title. *)
Definition provider_titled : json :=
  record [("Title", JStr "Show (rerun)"); ("Categories", JArr [JStr "Series"]);
          ("Raw", JObj [("program", JObj [("title", JStr "Show")])])].

(** A scheduled job that has not been bound to a file, and one that has. *)
Definition pending_job : json :=
  JObj [("ID", JStr "7"); ("FileID", JStr ""); ("Skipped", JBool false);
        ("Airing", JObj [("Title", JStr "News")])].

Definition running_job : json :=
  JObj [("ID", JStr "8"); ("FileID", JStr "1234"); ("Skipped", JBool true);
        ("Airing", JObj [("Title", JStr "News")])].

(** A record without categories that carries an episode title. *)
Definition pilot : json := record [("Title", JStr "Show"); ("EpisodeTitle", JStr "Pilot")].

Definition pilot_program : Program :=
  {| program := pilot; director := None_;
     episode_number := None_; episode_title := JStr "Pilot";
     release_year := None_; season_number := None_;
     title := JStr "Show" |}.

(** A program over a value that is not a record. *)
Definition broken_program : Program :=
  {| program := None_; director := None_;
     episode_number := None_; episode_title := None_;
     release_year := None_; season_number := None_;
     title := None_ |}.

Definition running_program : Program :=
  {| program := running_job; director := None_;
     episode_number := None_; episode_title := None_;
     release_year := None_; season_number := None_;
     title := JStr "News" |}.

End Sample.

(** ** Library files as the server lists them *)

(** [has_category c f]: the categories of the file [f] are a list that
    holds [c]. *)
Definition has_category (c : string) (f : json) : bool :=
  match Py.getitem f "Airing" with
  | Ok (JObj airing) =>
      match field airing "Categories" with
      | JArr categories => existsb (Py.eq (JStr c)) categories
      | _ => false
      end
  | _ => false
  end.

(** A library file of the expected shape: an object with an airing
    object whose categories, when given, are a list and whose raw
    metadata, when given, is an object. *)
Definition is_library_file (f : json) : bool :=
  match Py.getitem f "Airing" with
  | Ok (JObj airing) =>
      match field airing "Categories" with
      | JNull | JArr _ => true
      | _ => false
      end &&
      match field airing "Raw" with
      | JNull | JObj _ => true
      | _ => false
      end
  | _ => false
  end.

(** A file the two library filters can read: an object with an airing
    object whose categories, when given, are a list.  The filters do not
    look at the raw metadata. *)
Definition has_listed_categories (f : json) : bool :=
  match Py.getitem f "Airing" with
  | Ok (JObj airing) =>
      match field airing "Categories" with
      | JNull | JArr _ => true
      | _ => false
      end
  | _ => false
  end.

(** The raw metadata of the library file is absent, or an object without
    a title (no "title" key, or a null one). *)
Definition lacks_raw_title (f : json) : bool :=
  match Py.getitem f "Airing" with
  | Ok (JObj airing) =>
      match field airing "Raw" with
      | JNull => true
      | JObj raw => match field raw "title" with
                    | JNull => true
                    | _ => false
                    end
      | _ => false
      end
  | _ => false
  end.

(** The library file [m] is a movie whose title, as the movie lookup reads
    it, equals [t]. *)
Definition is_movie_titled (t m : json) : bool :=
  has_category "Movie" m &&
  match library_movie_title m with
  | Ok t' => Py.eq t' t
  | Raise _ => false
  end.

(** The library file [e] is an episode of the series titled [t] with the
    given season and episode numbers, as the episode lookup reads them. *)
Definition is_episode_numbered (t season episode e : json) : bool :=
  has_category "Series" e &&
  match library_series_title e with
  | Ok t' => Py.eq t' t
  | Raise _ => false
  end &&
  match _get_season_number_from_json e with
  | Ok n => Py.eq n season
  | Raise _ => false
  end &&
  match _get_episode_number_from_json e with
  | Ok n => Py.eq n episode
  | Raise _ => false
  end.

(** The library file has a title the series lookup can read. *)
Definition has_title (f : json) : bool :=
  match library_series_title f with
  | Ok _ => true
  | Raise _ => false
  end.

(** The title of the library file [s], as the series lookup reads it,
    equals [t]. *)
Definition has_series_title (t s : json) : bool :=
  match library_series_title s with
  | Ok t' => Py.eq t' t
  | Raise _ => false
  end.

(** ** Further methods of [Program] and [ChannelsDVRServer] *)

(** True when the "ID" of the program, or else its "JobID", contains
    "-ch". *)
Definition is_a_manual_recording (self : Program) : res bool :=
  id <- Py.getitem (program self) "ID" ;;
  scheduled_manually <- Py.contains (JStr "-ch") id ;;
  if negb scheduled_manually then
    job_id <- Py.get (program self) "JobID" ;;
    if Py.truthy job_id then Py.contains (JStr "-ch") job_id
    else Ok scheduled_manually
  else Ok scheduled_manually.

(** [sub] occurs in [s]. *)
Definition occurs (sub s : string) : Prop :=
  exists before after, s = before ++ sub ++ after.

Definition get_file_id (library_program : json) : res json :=
  Py.getitem library_program "ID".

Section Media.

(** What the server answers to GET /dvr/files/{id}/mediainfo.json, by
    file id. *)
Variable mediainfo : json -> res json.

Definition get_media_info (library_program : json) : res json :=
  file_id <- Py.getitem library_program "ID" ;;
  mediainfo file_id.

Definition get_file_name (library_program : json) : io json :=
  let file_name := JStr "" in
  match get_media_info library_program with
  | Raise e => ([], Raise e)
  | Ok media_info =>
      match Py.get media_info "format" with
      | Raise e => ([], Raise e)
      | Ok program_format =>
          if Py.truthy program_format then
            ([], format <- Py.getitem media_info "format" ;;
                 Py.getitem format "filename")
          else ([media_info], Ok file_name)
      end
  end.

End Media.

(** ** The address of the server ([ChannelsDVRServer] attributes)

    The attributes of a [ChannelsDVRServer] object and the URLs its
    methods request.  The address and the port are strings, as the
    defaults of the module and the entries of the form are. *)

Module Address.

Record t : Type := {
  ip_address  : string;
  port_number : string;
  url         : string
}.

Definition LOOPBACK_ADDRESS : string := "127.0.0.1".
Definition DEFAULT_PORT_NUMBER : string := "8089".

(** [ChannelsDVRServer(ip_address, port_number)]. *)
Definition init (ip_address port_number : string) : t :=
  {| ip_address := ip_address;
     port_number := port_number;
     url := "http://" ++ ip_address ++ ":" ++ port_number |}.

Definition get_url (self : t) : string := url self.

Definition set_ip_address (self : t) (ip_address : string) : t :=
  {| ip_address := ip_address;
     port_number := port_number self;
     url := url self |}.

Definition set_port_number (self : t) (port_number : string) : t :=
  {| ip_address := ip_address self;
     port_number := port_number;
     url := url self |}.

(** The URL requested by [get_all_scheduled_recordings] and
    [get_non_skipped_scheduled_recordings]. *)
Definition url_jobs (self : t) : string := url self ++ "/dvr/jobs".

(** The URL requested by [get_all_programs_from_library]. *)
Definition url_files (self : t) : string := url self ++ "/dvr/files".

(** The URL requested by [check_pre_release]. *)
Definition url_check (self : t) : string := url self ++ "/updater/check/prerelease".

(** The URL requested by [get_channels]. *)
Definition url_devices (self : t) : string :=
  "http://" ++ ip_address self ++ ":" ++ port_number self ++ "/devices".

(** The URL attribute is the one of the address and port attributes. *)
Definition consistent (self : t) : Prop :=
  url self = "http://" ++ ip_address self ++ ":" ++ port_number self.

End Address.

(** ** The saved server settings (manual_recording_gui.py)

    The settings file holds the address and the port of the last server
    that answered.  It is opened in text mode, with the newline handling
    of [open]: on writing, a line feed becomes the line separator of the
    platform; on reading, a carriage return, alone or followed by a line
    feed, becomes a line feed.  The text is taken to be ASCII, so that
    the encoding of the file plays no part. *)

Module Settings.

(** ['sep'.join]'s inverse: [s.split(sep)] for a one-character
    separator. *)
Fixpoint split (sep : ascii) (s : string) : list string :=
  match s with
  | EmptyString => [EmptyString]
  | String c s' =>
      let parts := split sep s' in
      if Ascii.eqb c sep then EmptyString :: parts
      else match parts with
           | part :: parts' => String c part :: parts'
           | [] => [String c EmptyString]
           end
  end.

(** The two global variables and the characters of the settings file
    ([None] when the file does not exist). *)
Record state : Type := {
  server_ip_address  : option string;
  server_port_number : option string;
  settings_file      : option string
}.

(** [xs[i]] on a list of strings. *)
Definition item (xs : list string) (i : nat) : res string :=
  match nth_error xs i with
  | Some x => Ok x
  | None => Raise IndexError
  end.

Definition LF : ascii := ascii_of_nat 10.
Definition CR : ascii := ascii_of_nat 13.

(** [os.linesep]. *)
Inductive platform : Type := Posix | Windows.

Definition linesep (p : platform) : string :=
  match p with
  | Posix => String LF EmptyString
  | Windows => String CR (String LF EmptyString)
  end.

(** What [f.write(text)] leaves in a file opened with [open(name, 'w')]. *)
Fixpoint write_text (p : platform) (text : string) : string :=
  match text with
  | EmptyString => EmptyString
  | String c text' =>
      if Ascii.eqb c LF then (linesep p ++ write_text p text')%string
      else String c (write_text p text')
  end.

(** What [f.read()] returns for a file opened with [open(name, 'r')]. *)
Fixpoint read_text (file : string) : string :=
  match file with
  | EmptyString => EmptyString
  | String c file' =>
      if Ascii.eqb c CR then
        String LF (match file' with
                   | String c' file'' =>
                       if Ascii.eqb c' LF then read_text file'' else read_text file'
                   | EmptyString => EmptyString
                   end)
      else String c (read_text file')
  end.

(** The state after the call, and the exception raised, if any. *)
Definition read_default_server_settings_from_file (s : state) : state * res unit :=
  match settings_file s with
  | None => (s, Ok tt)
  | Some file =>
      let default := read_text file in
      match item (split ":" default) 0 with
      | Raise e => (s, Raise e)
      | Ok ip =>
          let s := {| server_ip_address := Some ip;
                      server_port_number := server_port_number s;
                      settings_file := settings_file s |} in
          match item (split ":" default) 1 with
          | Raise e => (s, Raise e)
          | Ok port =>
              ({| server_ip_address := server_ip_address s;
                  server_port_number := Some port;
                  settings_file := settings_file s |}, Ok tt)
          end
      end
  end.

Definition save_default_server_settings_to_file (p : platform) (s : state)
    (ip port : string) : state :=
  {| server_ip_address := server_ip_address s;
     server_port_number := server_port_number s;
     settings_file := Some (write_text p (ip ++ ":" ++ port)) |}.

(** [c] does not occur in [s]. *)
Fixpoint free_of (c : ascii) (s : string) : bool :=
  match s with
  | EmptyString => true
  | String c' s' => negb (Ascii.eqb c' c) && free_of c s'
  end.

End Settings.

(** ** Dates, times and durations of the form (manual_recording_gui.py)

    The date and time widgets hold integers (their drop-down lists are
    ranges of integers); [datetime] and [timedelta] are the ones of the
    Python library, without microseconds and time zones, which the form
    does not use. *)

Module Gui.

Local Open Scope Z_scope.

Inductive error : Type := KeyError | ValueError | OverflowError.

Inductive outcome (A : Type) : Type :=
| Returns : A -> outcome A
| Raises : error -> outcome A.

Arguments Returns {A} _.
Arguments Raises {A} _.

Definition and_then {A B : Type} (m : outcome A) (k : A -> outcome B) : outcome B :=
  match m with
  | Returns a => k a
  | Raises e => Raises e
  end.

(** What [DateWidget.get_date] and [TimeWidget.get_time] return. *)
Record date : Type := { year : Z; month : Z; day : Z }.
Record time : Type := { hour : Z; minutes : Z; seconds : Z }.

(** The global dictionary [widgets]: a widget is there or not. *)
Record widgets : Type := {
  start_date : option date;
  start_time : option time;
  duration   : option time;
  stop_date  : option date;
  stop_time  : option time
}.

(** [widgets[key]]. *)
Definition widget {A : Type} (w : option A) : outcome A :=
  match w with
  | Some x => Returns x
  | None => Raises KeyError
  end.

Definition convert_seconds_to_hms (seconds : Z) : Z * Z * Z :=
  let hours := seconds / 3600 in
  let seconds := seconds mod 3600 in
  let minutes := seconds / 60 in
  let seconds := seconds mod 60 in
  (hours, minutes, seconds).

(** *** [datetime] *)

Definition MINYEAR : Z := 1.
Definition MAXYEAR : Z := 9999.

Definition is_leap (y : Z) : bool :=
  (y mod 4 =? 0) && (negb (y mod 100 =? 0) || (y mod 400 =? 0)).

Definition days_in_month (y m : Z) : Z :=
  if (m =? 2) && is_leap y then 29
  else nth (Z.to_nat m) [-1; 31; 28; 31; 30; 31; 30; 31; 31; 30; 31; 30; 31] 0.

Definition days_before_year (y : Z) : Z :=
  let y := y - 1 in
  y * 365 + y / 4 - y / 100 + y / 400.

Definition days_before_month (y m : Z) : Z :=
  nth (Z.to_nat m) [-1; 0; 31; 59; 90; 120; 151; 181; 212; 243; 273; 304; 334] 0
  + (if (2 <? m) && is_leap y then 1 else 0).

Definition ymd2ord (y m d : Z) : Z :=
  days_before_year y + days_before_month y m + d.

Definition valid_date (d : date) : bool :=
  (MINYEAR <=? year d) && (year d <=? MAXYEAR) &&
  (1 <=? month d) && (month d <=? 12) &&
  (1 <=? day d) && (day d <=? days_in_month (year d) (month d)).

Definition valid_time (t : time) : bool :=
  (0 <=? hour t) && (hour t <=? 23) &&
  (0 <=? minutes t) && (minutes t <=? 59) &&
  (0 <=? seconds t) && (seconds t <=? 59).

Record datetime : Type := { on : date; at_ : time }.

(** The arguments of [datetime] are converted to C integers first. *)
Definition is_c_int (n : Z) : bool := (- 2147483648 <=? n) && (n <=? 2147483647).

(** [datetime(year=, month=, day=, hour=, minute=, second=)]. *)
Definition datetime_ (d : date) (t : time) : outcome datetime :=
  if forallb is_c_int [year d; month d; day d; hour t; minutes t; seconds t] then
    if valid_date d && valid_time t then Returns {| on := d; at_ := t |}
    else Raises ValueError
  else Raises OverflowError.

Definition toordinal (dt : datetime) : Z :=
  ymd2ord (year (on dt)) (month (on dt)) (day (on dt)).

Definition seconds_of_day (t : time) : Z :=
  seconds t + minutes t * 60 + hour t * 3600.

(** *** [timedelta] *)

Record timedelta : Type := { td_days : Z; td_seconds : Z }.

(** [timedelta(days, seconds)], normalized: the seconds are brought
    into a day, and the number of days is bounded. *)
Definition timedelta_ (days seconds : Z) : outcome timedelta :=
  let d := days + seconds / 86400 in
  let s := seconds mod 86400 in
  if 999999999 <? Z.abs d then Raises OverflowError
  else Returns {| td_days := d; td_seconds := s |}.

(** [stop - start] on two [datetime]s. *)
Definition datetime_sub (stop start : datetime) : outcome timedelta :=
  timedelta_ (toordinal stop - toordinal start)
             (seconds_of_day (at_ stop) - seconds_of_day (at_ start)).

(** *** The functions of the form *)

Definition get_start_info (w : widgets) : outcome (date * time) :=
  and_then (widget (start_date w)) (fun start_date =>
  and_then (widget (start_time w)) (fun start_time =>
  Returns (start_date, start_time))).

Definition get_stop_info (w : widgets) : outcome (date * time) :=
  and_then (widget (stop_date w)) (fun stop_date =>
  and_then (widget (stop_time w)) (fun stop_time =>
  Returns (stop_date, stop_time))).

Definition get_start_dt (w : widgets) : outcome datetime :=
  and_then (get_start_info w) (fun start => datetime_ (fst start) (snd start)).

Definition get_stop_dt (w : widgets) : outcome datetime :=
  and_then (get_stop_info w) (fun stop => datetime_ (fst stop) (snd stop)).

Definition get_duration_in_seconds (w : widgets) : outcome Z :=
  and_then (get_start_dt w) (fun start_dt =>
  and_then (get_stop_dt w) (fun stop_dt =>
  and_then (datetime_sub stop_dt start_dt) (fun delta =>
  Returns (td_seconds delta)))).

(** The widgets after [update_duration]. *)
Definition update_duration (w : widgets) : outcome widgets :=
  and_then (get_duration_in_seconds w) (fun duration_in_seconds =>
  let '(hours, minutes, seconds) := convert_seconds_to_hms duration_in_seconds in
  and_then (widget (duration w)) (fun _ =>
  Returns {| start_date := start_date w;
             start_time := start_time w;
             duration := Some {| hour := hours; minutes := minutes; seconds := seconds |};
             stop_date := stop_date w;
             stop_time := stop_time w |})).

(** *** [datetime + timedelta] *)

Definition MAXORDINAL : Z := 3652059.

(** The month and the day of the month of the day number [n] of a year,
    counted from 0. *)
Definition month_day (leapyear : bool) (n : Z) : Z * Z :=
  let month := Z.shiftr (n + 50) 5 in
  let preceding :=
    nth (Z.to_nat month) [-1; 0; 31; 59; 90; 120; 151; 181; 212; 243; 273; 304; 334] 0
    + (if (2 <? month) && leapyear then 1 else 0) in
  if n <? preceding then
    let month := month - 1 in
    let preceding :=
      preceding
      - (nth (Z.to_nat month) [-1; 31; 28; 31; 30; 31; 30; 31; 31; 30; 31; 30; 31] 0
         + (if (month =? 2) && leapyear then 1 else 0)) in
    (month, n - preceding + 1)
  else (month, n - preceding + 1).

(** [date.fromordinal(n)]: year, month and day of the day number [n],
    counted from 1 on the first of January of the year 1. *)
Definition ord2ymd (n : Z) : date :=
  let n := n - 1 in
  let n400 := n / 146097 in
  let n := n mod 146097 in
  let year := n400 * 400 + 1 in
  let n100 := n / 36524 in
  let n := n mod 36524 in
  let n4 := n / 1461 in
  let n := n mod 1461 in
  let n1 := n / 365 in
  let n := n mod 365 in
  let year := year + n100 * 100 + n4 * 4 + n1 in
  if (n1 =? 4) || (n100 =? 4) then {| year := year - 1; month := 12; day := 31 |}
  else
    let leapyear := (n1 =? 3) && (negb (n4 =? 24) || (n100 =? 3)) in
    let '(month, day) := month_day leapyear n in
    {| year := year; month := month; day := day |}.

(** [timedelta(hours=, minutes=, seconds=)]. *)
Definition timedelta_of (t : time) : outcome timedelta :=
  timedelta_ 0 (hour t * 3600 + minutes t * 60 + seconds t).

(** [start + delta]. *)
Definition datetime_add (start : datetime) (delta : timedelta) : outcome datetime :=
  and_then (timedelta_ (toordinal start) (seconds_of_day (at_ start))) (fun here =>
  and_then (timedelta_ (td_days here + td_days delta)
                       (td_seconds here + td_seconds delta)) (fun sum =>
  let hour := td_seconds sum / 3600 in
  let rem := td_seconds sum mod 3600 in
  let minute := rem / 60 in
  let second := rem mod 60 in
  if (0 <? td_days sum) && (td_days sum <=? MAXORDINAL) then
    Returns {| on := ord2ymd (td_days sum);
               at_ := {| hour := hour; minutes := minute; seconds := second |} |}
  else Raises OverflowError)).

(** The widgets after [update_stop_date_and_time]: nothing is done
    unless the five widgets are there. *)
Definition update_stop_date_and_time (w : widgets) : outcome widgets :=
  match start_date w, start_time w, duration w, stop_date w, stop_time w with
  | Some start_date_, Some start_time_, Some duration_, Some _, Some _ =>
      and_then (datetime_ start_date_ start_time_) (fun start_dt =>
      and_then (timedelta_of duration_) (fun duration_dt =>
      and_then (datetime_add start_dt duration_dt) (fun stop_dt =>
      Returns {| start_date := start_date w;
                 start_time := start_time w;
                 duration := duration w;
                 stop_date := Some (on stop_dt);
                 stop_time := Some (at_ stop_dt) |})))
  | _, _, _, _, _ => Returns w
  end.

(** *** The name of the payload file ([save_json_payload_to_file]) *)

(** [s.replace(' ', '_')]. *)
Fixpoint replace_spaces (s : string) : string :=
  match s with
  | EmptyString => EmptyString
  | String c s' =>
      String (if Ascii.eqb c " " then "_"%char else c) (replace_spaces s')
  end.

Definition payload_file_name `{Py.Lower} (program_name episode_name : string) : string :=
  let title := replace_spaces (Py.lower_string program_name) in
  let episode_title := replace_spaces (Py.lower_string episode_name) in
  (title ++ "_" ++ episode_title ++ ".json")%string.

Definition is_space (c : ascii) : bool := Ascii.eqb c " ".

End Gui.

(** ** The channel listing ([ChannelsDVRServer.get_channels])

    The two indexes are Python dictionaries, kept as association lists
    in insertion order.  The built-in [int] and the formatting of a value
    inside an f-string are parameters: [int_] gives the integer, or
    nothing when [int] raises, and [str_] the text.  A result of [None]
    stands for any exception raised. *)

Module Channels.

Section Dict.

Context {K V : Type} (eqb : K -> K -> bool).

(** [d[k] = v]: the value of an existing key is replaced where it
    stands, a new key goes to the end. *)
Fixpoint dict_set (k : K) (v : V) (d : list (K * V)) : list (K * V) :=
  match d with
  | [] => [(k, v)]
  | (k', v') :: d' =>
      if eqb k k' then (k', v) :: d' else (k', v') :: dict_set k v d'
  end.

(** [d.get(k)]. *)
Fixpoint dict_get (k : K) (d : list (K * V)) : option V :=
  match d with
  | [] => None
  | (k', v') :: d' => if eqb k k' then Some v' else dict_get k d'
  end.

End Dict.

(** The dictionary returned: [all_channels['numbers']] and
    [all_channels['names']]. *)
Record all_channels : Type := {
  numbers : list (Z * string);
  names   : list (string * Z)
}.

Definition ok {A : Type} (r : res A) : option A :=
  match r with
  | Ok a => Some a
  | Raise _ => None
  end.

Definition then_ {A B : Type} (m : option A) (k : A -> option B) : option B :=
  match m with
  | Some a => k a
  | None => None
  end.

Section Builtins.

Variable int_ : json -> option Z.
Variable str_ : json -> string.

(** The name of a channel: its guide name and, in brackets, its
    source. *)
Definition channel_name (guide_name source : json) : string :=
  str_ guide_name ++ " (" ++ str_ source ++ ")".

(** One more channel in the two indexes. *)
Definition add_channel (acc : all_channels) (channel : Z * string) : all_channels :=
  {| numbers := dict_set Z.eqb (fst channel) (snd channel) (numbers acc);
     names := dict_set String.eqb (snd channel) (fst channel) (names acc) |}.

Fixpoint channels_loop (source : json) (channels : list json) (acc : all_channels)
  : option all_channels :=
  match channels with
  | [] => Some acc
  | channel :: channels' =>
      then_ (ok (Py.getitem channel "GuideNumber")) (fun guide_number =>
      then_ (int_ guide_number) (fun number =>
      then_ (ok (Py.getitem channel "GuideName")) (fun guide_name =>
      let name := channel_name guide_name source in
      channels_loop source channels' (add_channel acc (number, name)))))
  end.

Fixpoint providers_loop (devices : list json) (acc : all_channels)
  : option all_channels :=
  match devices with
  | [] => Some acc
  | provider :: devices' =>
      then_ (ok (Py.getitem provider "DeviceID")) (fun source =>
      then_ (ok (Py.getitem provider "Channels")) (fun channels =>
      then_ (ok (Py.iter channels)) (fun channels =>
      then_ (channels_loop source channels acc) (fun acc =>
      providers_loop devices' acc))))
  end.

(** [get_channels], on the answer of the server to GET /devices. *)
Definition get_channels (devices : res json) : option all_channels :=
  then_ (ok devices) (fun devices =>
  then_ (ok (Py.iter devices)) (fun devices =>
  providers_loop devices {| numbers := []; names := [] |})).

(** The channels of the listing, number and name, in the order of the
    two loops. *)
Fixpoint channels_of (source : json) (channels : list json) : option (list (Z * string)) :=
  match channels with
  | [] => Some []
  | channel :: channels' =>
      then_ (ok (Py.getitem channel "GuideNumber")) (fun guide_number =>
      then_ (int_ guide_number) (fun number =>
      then_ (ok (Py.getitem channel "GuideName")) (fun guide_name =>
      then_ (channels_of source channels') (fun rest =>
      Some ((number, channel_name guide_name source) :: rest)))))
  end.

Fixpoint channels_of_providers (devices : list json) : option (list (Z * string)) :=
  match devices with
  | [] => Some []
  | provider :: devices' =>
      then_ (ok (Py.getitem provider "DeviceID")) (fun source =>
      then_ (ok (Py.getitem provider "Channels")) (fun channels =>
      then_ (ok (Py.iter channels)) (fun channels =>
      then_ (channels_of source channels) (fun here =>
      then_ (channels_of_providers devices') (fun rest =>
      Some (here ++ rest)%list)))))
  end.

Definition channel_list (devices : res json) : option (list (Z * string)) :=
  then_ (ok devices) (fun devices =>
  then_ (ok (Py.iter devices)) (fun devices =>
  channels_of_providers devices)).

End Builtins.

(** The two indexes of a list of channels. *)
Definition index (channels : list (Z * string)) : all_channels :=
  fold_left add_channel channels {| numbers := []; names := [] |}.

(** [int] on a number and on a string of decimal digits, and the text of
    a string: enough of the two built-ins for the listings of the
    examples. *)
Fixpoint digits (s : string) (acc : Z) : option Z :=
  match s with
  | EmptyString => Some acc
  | String c s' =>
      let n := Z.of_nat (nat_of_ascii c) in
      if (48 <=? n)%Z && (n <=? 57)%Z then digits s' (acc * 10 + (n - 48))%Z
      else None
  end.

Definition int_of_digits (x : json) : option Z :=
  match x with
  | JNum n => Some n
  | JStr (String c s) => digits (String c s) 0
  | _ => None
  end.

Definition text_of (x : json) : string :=
  match x with
  | JStr s => s
  | _ => ""
  end.

End Channels.

(** Each index refers to keys of the other. *)
Definition cross_referenced (c : Channels.all_channels) : Prop :=
  (forall name n,
      Channels.dict_get String.eqb name (Channels.names c) = Some n ->
      exists name', Channels.dict_get Z.eqb n (Channels.numbers c) = Some name') /\
  (forall n name,
      Channels.dict_get Z.eqb n (Channels.numbers c) = Some name ->
      exists n', Channels.dict_get String.eqb name (Channels.names c) = Some n').

(** A listing of one source with two channels. *)
Definition sample_source : json :=
  JArr [JObj [("DeviceID", JStr "TVE-DIRECTV");
              ("Channels", JArr [JObj [("GuideNumber", JStr "6002");
                                       ("GuideName", JStr "WABC")];
                                 JObj [("GuideNumber", JStr "6003");
                                       ("GuideName", JStr "WNBC")]])]].

(** A listing with two sources that carry the same channel number. *)
Definition sample_devices : json :=
  JArr [JObj [("DeviceID", JStr "TVE-DIRECTV");
              ("Channels", JArr [JObj [("GuideNumber", JStr "6002");
                                       ("GuideName", JStr "WABC")];
                                 JObj [("GuideNumber", JStr "6003");
                                       ("GuideName", JStr "WNBC")]])];
        JObj [("DeviceID", JStr "M3U-Pluto");
              ("Channels", JArr [JObj [("GuideNumber", JStr "6002");
                                       ("GuideName", JStr "Pluto Movies")]])]].

(** The month and the day [month_day] gives for the day number [n] are
    those of a year with, or without, a 29th of February. *)
Definition month_day_ok (leapyear : bool) (n : Z) : bool :=
  let '(m, d) := Gui.month_day leapyear n in
  ((1 <=? m) && (m <=? 12) && (1 <=? d)
   && (d <=? (if (m =? 2) && leapyear then 29
              else nth (Z.to_nat m) [-1; 31; 28; 31; 30; 31; 30; 31; 31; 30; 31; 30; 31] 0))
   && (nth (Z.to_nat m) [-1; 0; 31; 59; 90; 120; 151; 181; 212; 243; 273; 304; 334] 0
       + (if (2 <? m) && leapyear then 1 else 0) + d =? n + 1))%Z.

(** ** The scenarios of the specification *)

Import Sample.

Example init_dune : Program_init dune = Ok dune_program.
Proof. reflexivity. Qed.

Example init_finale : Program_init finale = Ok finale_program.
Proof. reflexivity. Qed.

Example init_untitled : Program_init untitled = Ok untitled_program.
Proof. reflexivity. Qed.

Example init_candidate : Program_init candidate = Ok candidate_program.
Proof. reflexivity. Qed.

Example init_both : Program_init both = Ok both_program.
Proof. reflexivity. Qed.

Example init_bare : Program_init bare = Ok bare_program.
Proof. reflexivity. Qed.

(** Scenario: Dune (1984, David Lynch) against a library holding it. *)
Example dune_in_library :
  is_movie_in_library (server []) dune_program (JArr [dune_raw]) = Ok true.
Proof. reflexivity. Qed.

(** ... and changing the candidate's year to 2021. *)
Example dune_2021_not_in_library :
  is_movie_in_library (server [])
    {| program := dune; director := JStr "David Lynch";
       episode_number := None_; episode_title := None_;
       release_year := JNum 2021; season_number := None_;
       title := JStr "Dune" |}
    (JArr [dune_raw]) = Ok false.
Proof. reflexivity. Qed.

(** Scenario: the library episode "Finale" against a candidate "FINALE";
    a candidate whose series title differs by case is not found. *)
Example finale_in_library `{L : Py.Lower} :
  is_episode_in_library (server []) candidate_program (JArr [finale]) = ([], Ok true).
Proof.
  cbv -[Py.lower_string].
  rewrite !Py.lower_string_ascii by reflexivity. reflexivity.
Qed.

Example title_comparison_is_case_sensitive `{L : Py.Lower} :
  is_episode_in_library (server [])
    {| program := candidate; director := None_;
       episode_number := JNum 5; episode_title := JStr "FINALE";
       release_year := None_; season_number := JNum 2;
       title := JStr "SHOW" |}
    (JArr [finale]) = ([], Ok false).
Proof. reflexivity. Qed.

(** Scenario: job list [{Skipped: true}, {Skipped: false}]. *)
Example non_skipped_scenario :
  get_non_skipped_scheduled_recordings
    {| dvr_jobs := Ok (JArr [JObj [("Skipped", JBool true)];
                             JObj [("Skipped", JBool false)]]);
       dvr_files := Ok (JArr []) |}
  = Ok [JObj [("Skipped", JBool false)]].
Proof. reflexivity. Qed.


(** ** Field lookups *)

Lemma get_obj (o : list (string * json)) (k : string) :
  Py.get (JObj o) k = Ok (field o k).
Proof. unfold Py.get, field. destruct (Py.lookup k o); reflexivity. Qed.

Lemma get_inv (x : json) (k : string) (v : json) :
  Py.get x k = Ok v -> exists o, x = JObj o /\ v = field o k.
Proof.
  destruct x; try (simpl; discriminate).
  rewrite get_obj. intros [= <-]. eauto.
Qed.

Lemma getitem_truthy_field (o : list (string * json)) (k : string) :
  Py.truthy (field o k) = true -> Py.getitem (JObj o) k = Ok (field o k).
Proof.
  unfold field, Py.getitem. destruct (Py.lookup k o); [reflexivity|discriminate].
Qed.

Lemma truthy_obj_lookup (o : list (string * json)) (k : string) (v : json) :
  Py.lookup k o = Some v -> Py.truthy (JObj o) = true.
Proof. destruct o; [discriminate|reflexivity]. Qed.

Lemma bind_ok_inv {A B : Type} (m : res A) (k : A -> res B) (b : B) :
  bind m k = Ok b -> exists a, m = Ok a /\ k a = Ok b.
Proof. destruct m; simpl; [eauto|discriminate]. Qed.

Ltac bind_inv H :=
  let a := fresh "v" in
  let H1 := fresh H in
  apply bind_ok_inv in H; destruct H as (a & H1 & H).

(** What the constructor stores, for a record whose airing block is
    [airing]. *)
Lemma Program_init_fields (j : json) (self : Program) (airing : list (string * json)) :
  Program_init j = Ok self ->
  Py.getitem j "Airing" = Ok (JObj airing) ->
  program self = j /\
  episode_number self = field airing "EpisodeNumber" /\
  episode_title self = field airing "EpisodeTitle" /\
  release_year self = field airing "ReleaseYear" /\
  season_number self = field airing "SeasonNumber" /\
  _get_director_from_json j = Ok (director self) /\
  _get_title j = Ok (title self).
Proof.
  intros H Ha. unfold Program_init in H.
  bind_inv H. bind_inv H. bind_inv H. bind_inv H. bind_inv H. bind_inv H.
  injection H as <-. simpl.
  unfold _get_episode_number_from_json, _get_episode_title_from_json,
    _get_release_year_from_json, _get_season_number_from_json in *.
  rewrite Ha in *. cbn [bind] in *. rewrite !get_obj in *.
  repeat split; congruence.
Qed.

Lemma Program_init_airing (j : json) (self : Program) :
  Program_init j = Ok self ->
  exists airing, Py.getitem j "Airing" = Ok (JObj airing).
Proof.
  intros H. unfold Program_init in H.
  bind_inv H. bind_inv H.
  unfold _get_episode_number_from_json in H1.
  bind_inv H1. apply get_inv in H1 as (o & -> & _). eauto.
Qed.

(** ** Title resolution *)

(** The series lookup of the library resolves titles as the constructor
    does. *)
Lemma library_series_title_get_title (s : json) :
  library_series_title s = _get_title s.
Proof.
  unfold library_series_title, _get_title.
  destruct (Py.getitem s "Airing") as [airing|e] eqn:Ha; cbn [bind]; [|reflexivity].
  destruct (Py.get airing "Raw") as [raw|e] eqn:Hr; cbn [bind]; [|reflexivity].
  apply get_inv in Hr as (o & -> & ->).
  destruct (Py.truthy (field o "Raw")) eqn:Ht; cbn [negb]; [|reflexivity].
  rewrite (getitem_truthy_field _ _ Ht). cbn [bind].
  destruct (Py.get (field o "Raw") "program"); reflexivity.
Qed.

(** C6: the resolved title is the [title] of the [program] object of the
    raw metadata when the record has raw metadata holding such an object;
    it is the record's own [Title] when the raw metadata has no [program]
    entry, and when the record has no raw metadata at all.  The series
    lookup of the library resolves titles the same way. *)
Theorem get_title_resolution (j : json) (airing : list (string * json)) :
  Py.getitem j "Airing" = Ok (JObj airing) ->
  (forall raw prog t,
      Py.lookup "Raw" airing = Some (JObj raw) ->
      Py.lookup "program" raw = Some (JObj prog) ->
      Py.lookup "title" prog = Some t ->
      _get_title j = Ok t) /\
  (forall raw,
      Py.lookup "Raw" airing = Some (JObj raw) ->
      Py.lookup "program" raw = None ->
      _get_title j = Py.getitem (JObj airing) "Title") /\
  (Py.lookup "Raw" airing = None ->
      _get_title j = Py.getitem (JObj airing) "Title") /\
  library_series_title j = _get_title j.
Proof.
  intros Ha.
  assert (Hstep : _get_title j =
                  (raw_info <- Ok (field airing "Raw") ;;
                   if negb (Py.truthy raw_info) then Py.getitem (JObj airing) "Title"
                   else
                     program_info <- Py.get raw_info "program" ;;
                     if negb (Py.truthy program_info)
                     then Py.getitem (JObj airing) "Title"
                     else Py.getitem program_info "title")).
  { unfold _get_title. rewrite Ha. cbn [bind]. rewrite get_obj. reflexivity. }
  split; [|split; [|split]].
  - intros raw prog t Hraw Hprog Ht. rewrite Hstep. cbn [bind]. unfold field.
    rewrite Hraw, (truthy_obj_lookup _ _ _ Hprog). cbn [negb].
    rewrite get_obj. cbn [bind]. unfold field.
    rewrite Hprog, (truthy_obj_lookup _ _ _ Ht). cbn [negb].
    unfold Py.getitem. rewrite Ht. reflexivity.
  - intros raw Hraw Hprog. rewrite Hstep. cbn [bind]. unfold field. rewrite Hraw.
    destruct (Py.truthy (JObj raw)); cbn [negb]; [|reflexivity].
    rewrite get_obj. cbn [bind]. unfold field. rewrite Hprog. reflexivity.
  - intros Hraw. rewrite Hstep. cbn [bind]. unfold field. rewrite Hraw. reflexivity.
  - apply library_series_title_get_title.
Qed.

Lemma get_title_resolution_witness :
  _get_title provider_titled = Ok (JStr "Show") /\
  _get_title dune_raw = Ok (JStr "Dune") /\
  _get_title finale = Ok (JStr "Show").
Proof.
  split; [|split].
  - apply (proj1 (get_title_resolution provider_titled
                    [("Title", JStr "Show (rerun)"); ("Categories", JArr [JStr "Series"]);
                     ("Raw", JObj [("program", JObj [("title", JStr "Show")])])]
                    eq_refl)
             [("program", JObj [("title", JStr "Show")])]
             [("title", JStr "Show")]);
      reflexivity.
  - apply (eq_trans
             (proj1 (proj2 (get_title_resolution dune_raw
                              [("Title", JStr "Dune"); ("Categories", JArr [JStr "Movie"]);
                               ("ReleaseYear", JNum 1984);
                               ("Directors", JArr [JStr "David Lynch"]);
                               ("Raw", JObj [("title", JStr "Dune")])]
                              eq_refl))
                [("title", JStr "Dune")] eq_refl eq_refl)).
    reflexivity.
  - apply (eq_trans
             (proj1 (proj2 (proj2 (get_title_resolution finale
                              [("Title", JStr "Show"); ("Categories", JArr [JStr "Series"]);
                               ("SeasonNumber", JNum 2); ("EpisodeNumber", JNum 5);
                               ("EpisodeTitle", JStr "Finale")]
                              eq_refl)))
                eq_refl)).
    reflexivity.
Defined.

(** ** Classification *)

Lemma contains_list (x : json) (l : list json) :
  Py.contains x (JArr l) = Ok (existsb (Py.eq x) l).
Proof. reflexivity. Qed.

(** Both tests read the categories of the airing block. *)
Lemma is_an_episode_unfold (j : json) (self : Program) (airing : list (string * json)) :
  Program_init j = Ok self ->
  Py.getitem j "Airing" = Ok (JObj airing) ->
  is_an_episode self =
  if Py.truthy (field airing "Categories") then
    is_ep <- Py.contains (JStr "Episode") (field airing "Categories") ;;
    if is_ep then Ok true
    else
      is_series <- Py.contains (JStr "Series") (field airing "Categories") ;;
      Ok (is_series && present (field airing "SeasonNumber")
                    && present (field airing "EpisodeNumber"))
  else Ok (Py.truthy (field airing "EpisodeTitle")).
Proof.
  intros Hinit Ha.
  destruct (Program_init_fields _ _ _ Hinit Ha) as (Hp & Hen & _ & _ & Hsn & _).
  unfold is_an_episode. rewrite Hp, Ha, Hen, Hsn. cbn [bind].
  rewrite !get_obj. reflexivity.
Qed.

Lemma is_a_movie_unfold (j : json) (self : Program) (airing : list (string * json)) :
  Program_init j = Ok self ->
  Py.getitem j "Airing" = Ok (JObj airing) ->
  is_a_movie self =
  if Py.truthy (field airing "Categories")
  then Py.contains (JStr "Movie") (field airing "Categories")
  else Ok false.
Proof.
  intros Hinit Ha.
  destruct (Program_init_fields _ _ _ Hinit Ha) as (Hp & _).
  unfold is_a_movie. rewrite Hp, Ha. cbn [bind]. rewrite get_obj. reflexivity.
Qed.

(** C7: on a record with categories (a non-empty list), [is_an_episode] is
    true exactly when they contain "Episode", or contain "Series" with
    both the season number and the episode number present; on a record
    without categories it is true exactly when the episode title is
    present.  So a record without categories and with an episode title is
    an episode and not a movie. *)
Theorem is_an_episode_spec (j : json) (self : Program) (airing : list (string * json)) :
  Program_init j = Ok self ->
  Py.getitem j "Airing" = Ok (JObj airing) ->
  (forall categories,
      field airing "Categories" = JArr categories -> categories <> [] ->
      is_an_episode self =
      Ok (existsb (Py.eq (JStr "Episode")) categories
          || (existsb (Py.eq (JStr "Series")) categories
              && present (field airing "SeasonNumber")
              && present (field airing "EpisodeNumber")))) /\
  (Py.truthy (field airing "Categories") = false ->
      is_an_episode self = Ok (Py.truthy (field airing "EpisodeTitle"))) /\
  (Py.truthy (field airing "Categories") = false ->
   Py.truthy (field airing "EpisodeTitle") = true ->
      is_an_episode self = Ok true /\ is_a_movie self = Ok false).
Proof.
  intros Hinit Ha.
  pose proof (is_an_episode_unfold _ _ _ Hinit Ha) as He.
  pose proof (is_a_movie_unfold _ _ _ Hinit Ha) as Hm.
  split; [|split].
  - intros categories Hc Hne. rewrite He, Hc.
    destruct categories as [|c cs]; [contradiction|].
    cbn [Py.truthy]. rewrite !contains_list. cbn [bind].
    destruct (existsb (Py.eq (JStr "Episode")) (c :: cs)); reflexivity.
  - intros Hc. rewrite He, Hc. reflexivity.
  - intros Hc Ht. rewrite He, Hm, Hc, Ht. split; reflexivity.
Qed.

Lemma is_an_episode_spec_witness :
  is_an_episode candidate_program = Ok true /\
  is_an_episode bare_program = Ok false /\
  (is_an_episode pilot_program = Ok true /\ is_a_movie pilot_program = Ok false).
Proof.
  split; [|split].
  - apply (proj1 (is_an_episode_spec candidate candidate_program
                    [("Title", JStr "Show"); ("Categories", JArr [JStr "Series"]);
                     ("SeasonNumber", JNum 2); ("EpisodeNumber", JNum 5);
                     ("EpisodeTitle", JStr "FINALE")] eq_refl eq_refl)
             [JStr "Series"] eq_refl).
    discriminate.
  - apply (proj1 (proj2 (is_an_episode_spec bare bare_program
                           [("Title", JStr "News")] eq_refl eq_refl)) eq_refl).
  - apply (proj2 (proj2 (is_an_episode_spec pilot pilot_program
                           [("Title", JStr "Show"); ("EpisodeTitle", JStr "Pilot")]
                           eq_refl eq_refl)) eq_refl eq_refl).
Defined.

(** C8: when both the episode test and the movie test hold, the type is
    "Movie" (the movie test is made last and overwrites); when only the
    episode test holds it is "Episode"; when neither holds it is [None]. *)
Theorem get_program_type_tie_break (self : Program) :
  (is_an_episode self = Ok true -> is_a_movie self = Ok true ->
     get_program_type self = Ok (JStr "Movie")) /\
  (is_an_episode self = Ok true -> is_a_movie self = Ok false ->
     get_program_type self = Ok (JStr "Episode")) /\
  (is_an_episode self = Ok false -> is_a_movie self = Ok false ->
     get_program_type self = Ok None_) /\
  (forall e, is_an_episode self = Raise e -> get_program_type self = Raise e).
Proof.
  unfold get_program_type.
  repeat split; intros; repeat match goal with H : _ = _ |- _ => rewrite H end;
    reflexivity.
Qed.

Lemma get_program_type_tie_break_witness :
  get_program_type both_program = Ok (JStr "Movie") /\
  get_program_type candidate_program = Ok (JStr "Episode") /\
  get_program_type bare_program = Ok None_ /\
  get_program_type broken_program = Raise TypeError.
Proof.
  split; [|split; [|split]].
  - apply (proj1 (get_program_type_tie_break both_program)); reflexivity.
  - apply (proj1 (proj2 (get_program_type_tie_break candidate_program))); reflexivity.
  - apply (proj1 (proj2 (proj2 (get_program_type_tie_break bare_program)))); reflexivity.
  - apply (proj2 (proj2 (proj2 (get_program_type_tie_break broken_program)))); reflexivity.
Defined.

(** ** Optional fields of the records *)

(** C3: [is_recording_in_progress] subscripts the record with "FileID"
    and the filter of the schedule subscripts each job with "Skipped":
    with the key they return the truth value of the field (the jobs whose
    "Skipped" is falsy, in order), without it they raise [KeyError].  The
    fields of the airing block are read with [dict.get]: a missing one is
    [None], and nothing is raised. *)
Theorem required_job_fields (self : Program) (o : list (string * json)) :
  program self = JObj o ->
  is_recording_in_progress self =
    match Py.lookup "FileID" o with
    | Some file_id => Ok (Py.truthy file_id)
    | None => Raise KeyError
    end /\
  (forall files jobs,
      Forall (fun job => exists o', job = JObj o' /\ Py.lookup "Skipped" o' <> None) jobs ->
      get_non_skipped_scheduled_recordings
        {| dvr_jobs := Ok (JArr jobs); dvr_files := files |}
      = Ok (filter (fun job =>
                      match job with
                      | JObj o' => negb (Py.truthy (field o' "Skipped"))
                      | _ => false
                      end) jobs)) /\
  (forall files jobs o' jobs',
      Forall (fun job => exists o', job = JObj o' /\ Py.lookup "Skipped" o' <> None) jobs ->
      Py.lookup "Skipped" o' = None ->
      get_non_skipped_scheduled_recordings
        {| dvr_jobs := Ok (JArr (jobs ++ JObj o' :: jobs')); dvr_files := files |}
      = Raise KeyError) /\
  (forall airing,
      Py.lookup "Airing" o = Some (JObj airing) ->
      _get_episode_number_from_json (program self) = Ok (field airing "EpisodeNumber") /\
      _get_episode_title_from_json (program self) = Ok (field airing "EpisodeTitle") /\
      _get_release_year_from_json (program self) = Ok (field airing "ReleaseYear") /\
      _get_season_number_from_json (program self) = Ok (field airing "SeasonNumber") /\
      (Py.lookup "Directors" airing = None ->
         _get_director_from_json (program self) = Ok None_)).
Proof.
  intros Hp. split; [|split; [|split]]; cycle 3.
  - intros airing Ha. rewrite Hp.
    unfold _get_episode_number_from_json, _get_episode_title_from_json,
      _get_release_year_from_json, _get_season_number_from_json,
      _get_director_from_json, Py.getitem.
    rewrite Ha. cbn [bind]. rewrite !get_obj. repeat split.
    intros Hd. cbn [bind]. unfold field. rewrite Hd. reflexivity.
  - unfold is_recording_in_progress. rewrite Hp. unfold Py.getitem.
    destruct (Py.lookup "FileID" o); reflexivity.
  - intros files jobs Hall. unfold get_non_skipped_scheduled_recordings.
    cbn [dvr_jobs bind Py.iter].
    induction Hall as [|job jobs (o' & -> & Hs) _ IH]; [reflexivity|].
    cbn [non_skipped_loop filter]. unfold Py.getitem at 1, field at 1.
    destruct (Py.lookup "Skipped" o') as [skipped|]; [|contradiction].
    cbn [bind]. rewrite IH. cbn [bind].
    destruct (Py.truthy skipped); reflexivity.
  - intros files jobs o' jobs' Hall Hnone. unfold get_non_skipped_scheduled_recordings.
    cbn [dvr_jobs bind Py.iter].
    induction Hall as [|job jobs (o'' & -> & Hs) _ IH].
    + cbn [app non_skipped_loop]. unfold Py.getitem. rewrite Hnone. reflexivity.
    + cbn [app non_skipped_loop]. unfold Py.getitem at 1.
      destruct (Py.lookup "Skipped" o'') as [skipped|]; [|contradiction].
      cbn [bind]. rewrite IH. reflexivity.
Qed.

Ltac all_have_skipped :=
  repeat first
    [ apply Forall_nil
    | apply Forall_cons; [eexists; split; [reflexivity|discriminate]|] ].

Lemma required_job_fields_witness :
  is_recording_in_progress running_program = Ok true /\
  get_non_skipped_scheduled_recordings
    {| dvr_jobs := Ok (JArr [running_job; pending_job]); dvr_files := Ok (JArr []) |}
  = Ok [pending_job] /\
  get_non_skipped_scheduled_recordings
    {| dvr_jobs := Ok (JArr [running_job; JObj [("ID", JStr "9")]; pending_job]);
       dvr_files := Ok (JArr []) |}
  = Raise KeyError /\
  _get_episode_title_from_json (program running_program) = Ok None_.
Proof.
  pose (o := [("ID", JStr "8"); ("FileID", JStr "1234"); ("Skipped", JBool true);
              ("Airing", JObj [("Title", JStr "News")])]).
  split; [|split; [|split]].
  - apply (proj1 (required_job_fields running_program o eq_refl)).
  - apply (proj1 (proj2 (required_job_fields running_program o eq_refl))
             (Ok (JArr [])) [running_job; pending_job]).
    all_have_skipped.
  - apply (proj1 (proj2 (proj2 (required_job_fields running_program o eq_refl)))
             (Ok (JArr [])) [running_job] [("ID", JStr "9")] [pending_job]).
    + all_have_skipped.
    + reflexivity.
  - exact (proj1 (proj2 (proj2 (proj2 (proj2 (required_job_fields running_program o
                                                 eq_refl)))
                            [("Title", JStr "News")] eq_refl))).
Defined.

(** C3, as stated, fails: a record without "FileID" and a job without
    "Skipped" make the two operations raise. *)
Lemma missing_job_fields_raise :
  is_recording_in_progress bare_program = Raise KeyError /\
  get_non_skipped_scheduled_recordings
    {| dvr_jobs := Ok (JArr [JObj [("ID", JStr "7")]]); dvr_files := Ok (JArr []) |}
  = Raise KeyError.
Proof. split; reflexivity. Qed.

(** ** The movie matcher *)

Lemma movies_loop_sound (fs movies : list json) :
  movies_loop fs = Ok movies ->
  forall m, In m movies ->
    In m fs /\
    exists airing, Py.getitem m "Airing" = Ok (JObj airing) /\
                   Py.truthy (field airing "Categories") = true /\
                   Py.contains (JStr "Movie") (field airing "Categories") = Ok true.
Proof.
  revert movies. induction fs as [|f fs IH]; intros movies H m Hin.
  - injection H as <-. contradiction.
  - cbn [movies_loop] in H.
    destruct (Py.getitem f "Airing") as [airing|] eqn:Ha; [|discriminate].
    cbn [bind] in H.
    destruct (Py.get airing "Categories") as [categories|] eqn:Hc; [|discriminate].
    apply get_inv in Hc as (o & -> & ->). cbn [bind] in H.
    destruct (Py.truthy (field o "Categories")) eqn:Ht; cbn [negb] in H.
    + destruct (Py.contains (JStr "Movie") (field o "Categories")) as [b|] eqn:Hb;
        [|discriminate].
      cbn [bind] in H.
      destruct (movies_loop fs) as [rest|] eqn:Hrest; [|discriminate].
      cbn [bind] in H. injection H as <-.
      destruct b.
      * destruct Hin as [<-|Hin].
        -- split; [left; reflexivity|]. exists o. auto.
        -- destruct (IH rest eq_refl m Hin) as (Hm & Hex). split; [right|]; assumption.
      * destruct (IH rest eq_refl m Hin) as (Hm & Hex). split; [right|]; assumption.
    + destruct (IH movies H m Hin) as (Hm & Hex). split; [right|]; assumption.
Qed.

Lemma one_movie_loop_sound (movie_title : json) (all_movies : list json) (m : json) :
  one_movie_loop movie_title all_movies = Ok m ->
  Py.truthy m = true ->
  In m all_movies /\
  exists t, library_movie_title m = Ok t /\ Py.eq t movie_title = true.
Proof.
  induction all_movies as [|m' ms IH]; intros H Ht.
  - injection H as <-. discriminate.
  - cbn [one_movie_loop] in H.
    destruct (library_movie_title m') as [t|] eqn:Hl; [|discriminate].
    cbn [bind] in H.
    destruct (Py.eq t movie_title) eqn:He.
    + injection H as <-. split; [left; reflexivity|]. eauto.
    + destruct (IH H Ht) as (Hin & Hex). split; [right|]; assumption.
Qed.

(** The movie lookup returns the first movie, in the order of the list,
    whose title as read by [library_movie_title] equals the requested
    one. *)
Lemma one_movie_loop_first (movie_title : json) (before after : list json)
    (m t : json) :
  Forall (fun m' => exists t', library_movie_title m' = Ok t' /\
                               Py.eq t' movie_title = false) before ->
  library_movie_title m = Ok t ->
  Py.eq t movie_title = true ->
  one_movie_loop movie_title (before ++ m :: after) = Ok m.
Proof.
  intros Hbefore Ht Heq.
  induction Hbefore as [|m' before (t' & Ht' & Hne) _ IH]; cbn [app one_movie_loop].
  - rewrite Ht. cbn [bind]. rewrite Heq. reflexivity.
  - rewrite Ht'. cbn [bind]. rewrite Hne. exact IH.
Qed.

(** The title the movie lookup compares is the [title] entry of the raw
    metadata itself, [None] when there is none: neither the [program]
    object of the raw metadata nor the record's [Title] is read. *)
Lemma library_movie_title_raw (m : json) (airing : list (string * json)) :
  Py.getitem m "Airing" = Ok (JObj airing) ->
  library_movie_title m =
  if Py.truthy (field airing "Raw") then Py.get (field airing "Raw") "title"
  else Ok None_.
Proof.
  intros Ha. unfold library_movie_title. rewrite Ha. cbn [bind].
  rewrite get_obj. cbn [bind].
  destruct (Py.truthy (field airing "Raw")) eqn:Ht; [|reflexivity].
  rewrite (getitem_truthy_field _ _ Ht). reflexivity.
Qed.

(** When the movie matcher answers [True], one movie of the snapshot has
    the candidate's title, its release year and, among its directors, the
    candidate's director. *)
Lemma is_movie_in_library_true (dvr : ChannelsDVRServer) (self : Program)
    (library_files : json) :
  is_movie_in_library dvr self library_files = Ok true ->
  exists files fs m airing t year directors,
    snapshot dvr library_files = Ok files /\
    Py.iter files = Ok fs /\
    In m fs /\
    Py.getitem m "Airing" = Ok (JObj airing) /\
    Py.contains (JStr "Movie") (field airing "Categories") = Ok true /\
    library_movie_title m = Ok t /\ Py.eq t (title self) = true /\
    Py.lookup "ReleaseYear" airing = Some year /\
    Py.eq year (release_year self) = true /\
    Py.lookup "Directors" airing = Some directors /\
    Py.contains (director self) directors = Ok true.
Proof.
  intros H. unfold is_movie_in_library in H.
  bind_inv H. rename v into m.
  unfold get_one_movie_from_library in H0. bind_inv H0. rename v into movies.
  unfold get_all_movies_from_library in H1. bind_inv H1. bind_inv H1.
  rename v into files, v0 into fs.
  destruct (Py.truthy m) eqn:Hm; [|discriminate].
  destruct (one_movie_loop_sound _ _ _ H0 Hm) as (Hin & t & Ht & Heq).
  destruct (movies_loop_sound _ _ H1 m Hin) as (Hfs & airing & Ha & _ & Hmovie).
  rewrite Ha in H. cbn [bind] in H.
  unfold Py.getitem in H.
  destruct (Py.lookup "ReleaseYear" airing) as [year|] eqn:Hy; [|discriminate].
  cbn [bind] in H.
  destruct (Py.lookup "Directors" airing) as [directors|] eqn:Hd; [|discriminate].
  cbn [bind] in H.
  destruct (Py.contains (director self) directors) as [b|] eqn:Hb; [|discriminate].
  cbn [bind] in H. injection H as H.
  apply andb_true_iff in H as (Hyear & ->).
  exists files, fs, m, airing, t, year, directors. repeat split; assumption.
Qed.

(** C1: a library movie that has the candidate's title and lacks its
    release year, or its directors, makes the movie matcher raise
    [KeyError] where it should answer [False]. *)
Theorem is_movie_in_library_missing_field_raises :
  is_movie_in_library (server []) dune_program (JArr [dune_raw_no_year])
  = Raise KeyError /\
  is_movie_in_library (server []) dune_program
    (JArr [record [("Title", JStr "Dune"); ("Categories", JArr [JStr "Movie"]);
                   ("ReleaseYear", JNum 1984);
                   ("Raw", JObj [("title", JStr "Dune")])]])
  = Raise KeyError.
Proof. split; reflexivity. Qed.

(** C4: a library movie whose title is its [Title], or the [title] of the
    [program] object of its raw metadata, is never selected: the movie
    lookup compares the candidate's resolved title with [None], and
    the matcher answers [False] on the movie itself. *)
Theorem get_one_movie_ignores_resolved_title :
  _get_title dune = Ok (JStr "Dune") /\
  library_movie_title dune = Ok None_ /\
  get_one_movie_from_library (server []) (JStr "Dune") (JArr [dune]) = Ok None_ /\
  is_movie_in_library (server []) dune_program (JArr [dune]) = Ok false /\
  let dune_provider :=
    record [("Title", JStr "Dune (1984)"); ("Categories", JArr [JStr "Movie"]);
            ("ReleaseYear", JNum 1984); ("Directors", JArr [JStr "David Lynch"]);
            ("Raw", JObj [("program", JObj [("title", JStr "Dune")])])] in
  _get_title dune_provider = Ok (JStr "Dune") /\
  get_one_movie_from_library (server []) (JStr "Dune") (JArr [dune_provider]) = Ok None_ /\
  is_movie_in_library (server []) dune_program (JArr [dune_provider]) = Ok false.
Proof. repeat split; reflexivity. Qed.

(** ** The episode matcher *)





(** What the matcher does once the lookup has found an episode. *)
Lemma is_episode_in_library_found `{L : Py.Lower} (dvr : ChannelsDVRServer) (self : Program)
    (library_files e : json) (library_episode : Program) :
  get_one_episode_of_one_series_from_library dvr
    (title self) (season_number self) (episode_number self) library_files = Ok e ->
  Py.truthy e = true ->
  Program_init e = Ok library_episode ->
  is_episode_in_library dvr self library_files =
  if Py.truthy (episode_title library_episode) then
    match same_episode_title library_episode self with
    | Ok has_same_episode_title => ([], Ok has_same_episode_title)
    | Raise _ =>
        ([title self; episode_title self; episode_title library_episode],
         Raise RuntimeError)
    end
  else ([], Ok false).
Proof.
  intros H Ht Hinit. unfold is_episode_in_library. rewrite H, Ht, Hinit. reflexivity.
Qed.

(** ** Presence in the library *)

Lemma get_program_type_None (self : Program) :
  get_program_type self = Ok None_ ->
  is_an_episode self = Ok false /\ is_a_movie self = Ok false.
Proof.
  unfold get_program_type.
  destruct (is_an_episode self) as [[|]|]; cbn [bind]; try discriminate;
    destruct (is_a_movie self) as [[|]|]; cbn [bind]; try discriminate; auto.
Qed.

(** C5: [is_in_library] asks the movie matcher when the movie test holds
    and the episode matcher when the episode test holds, and answers
    [True] when a matcher it asked does.  When at most one test holds this
    is the dispatch on [get_program_type]; when both hold the episode
    matcher is asked as well, after the movie matcher.  For an
    unclassified record, so for a record with neither categories nor an
    episode title, the answer is [False] whatever the snapshot and the
    server hold. *)
Theorem is_in_library_dispatch `{L : Py.Lower} (dvr : ChannelsDVRServer) (self : Program)
    (library_files : json) :
  (get_program_type self = Ok None_ ->
     is_in_library dvr self library_files = ([], Ok false)) /\
  (forall is_ep is_mv,
      is_an_episode self = Ok is_ep -> is_a_movie self = Ok is_mv ->
      is_ep && is_mv = false ->
      is_in_library dvr self library_files =
      is_in_library_by_classify dvr self library_files) /\
  (is_an_episode self = Ok true -> is_a_movie self = Ok true ->
     is_in_library dvr self library_files =
     io_bind (io_ret (is_movie_in_library dvr self library_files)) (fun in_library =>
     io_bind (is_episode_in_library dvr self library_files) (fun found =>
     io_ret (Ok (if found then true else in_library))))) /\
  (forall j airing,
      Program_init j = Ok self ->
      Py.getitem j "Airing" = Ok (JObj airing) ->
      Py.truthy (field airing "Categories") = false ->
      Py.truthy (field airing "EpisodeTitle") = false ->
      get_program_type self = Ok None_ /\
      is_in_library dvr self library_files = ([], Ok false)).
Proof.
  assert (Hnone : get_program_type self = Ok None_ ->
                  is_in_library dvr self library_files = ([], Ok false)).
  { intros H. apply get_program_type_None in H as (He & Hm).
    unfold is_in_library. rewrite He, Hm. reflexivity. }
  split; [exact Hnone|]. split; [|split].
  - intros is_ep is_mv He Hm Hboth.
    unfold is_in_library, is_in_library_by_classify, get_program_type.
    rewrite He, Hm. cbn [bind].
    destruct is_ep, is_mv; try discriminate.
    + cbn [io_bind io_ret].
      destruct (is_episode_in_library dvr self library_files) as [out [[|]|e]];
        cbn [io_bind io_ret app]; rewrite ?app_nil_r; reflexivity.
    + cbn [io_bind io_ret].
      destruct (is_movie_in_library dvr self library_files); reflexivity.
    + reflexivity.
  - intros He Hm. unfold is_in_library. rewrite He, Hm.
    cbn [io_bind io_ret app].
    destruct (is_movie_in_library dvr self library_files) as [in_library|];
      [|reflexivity].
    cbn [io_bind app].
    destruct (is_episode_in_library dvr self library_files) as [out [found|]];
      reflexivity.
  - intros j airing Hinit Ha Hc Ht.
    assert (Htype : get_program_type self = Ok None_).
    { unfold get_program_type.
      rewrite (is_an_episode_unfold _ _ _ Hinit Ha), (is_a_movie_unfold _ _ _ Hinit Ha).
      rewrite Hc, Ht. reflexivity. }
    split; [exact Htype|apply Hnone, Htype].
Qed.

Lemma is_in_library_dispatch_witness :
  is_in_library (server [finale]) bare_program (JArr [finale]) = ([], Ok false) /\
  is_in_library (server []) candidate_program (JArr [finale]) =
  is_in_library_by_classify (server []) candidate_program (JArr [finale]) /\
  is_in_library (server []) both_program (JArr [finale]) = ([], Ok true) /\
  get_program_type bare_program = Ok None_.
Proof.
  split; [|split; [|split]].
  - apply (proj1 (is_in_library_dispatch (server [finale]) bare_program (JArr [finale]))).
    reflexivity.
  - apply (proj1 (proj2 (is_in_library_dispatch (server []) candidate_program
                           (JArr [finale]))) true false);
      reflexivity.
  - apply (eq_trans
             (proj1 (proj2 (proj2 (is_in_library_dispatch (server []) both_program
                                     (JArr [finale]))))
                eq_refl eq_refl)).
    reflexivity.
  - apply (proj2 (proj2 (proj2 (is_in_library_dispatch (server []) bare_program
                                  (JArr [finale]))))
             bare [("Title", JStr "News")] eq_refl eq_refl eq_refl eq_refl).
Defined.

(** C5, as stated, fails: a record tagged both "Movie" and "Episode" is
    classified as a movie and no library movie matches it, yet
    [is_in_library] answers [True], from the episode matcher. *)
Lemma is_in_library_asks_both_matchers :
  get_program_type both_program = Ok (JStr "Movie") /\
  is_movie_in_library (server []) both_program (JArr [finale]) = Ok false /\
  is_in_library_by_classify (server []) both_program (JArr [finale]) = ([], Ok false) /\
  is_in_library (server []) both_program (JArr [finale]) = ([], Ok true).
Proof. repeat split; reflexivity. Qed.

(** ** Empty snapshots *)

(** C10: an empty list given as the snapshot is treated as no snapshot:
    the two library filters, and with them the lookups and the matchers,
    work on the listing requested from the server, so the matcher can
    answer [True] on an empty snapshot. *)
Theorem empty_snapshot_fetches_library `{L : Py.Lower} (dvr : ChannelsDVRServer) :
  snapshot dvr (JArr []) = get_all_programs_from_library dvr /\
  get_all_movies_from_library dvr (JArr []) = get_all_movies_from_library dvr None_ /\
  get_all_series_from_library dvr (JArr []) = get_all_series_from_library dvr None_ /\
  get_all_movies_from_library dvr (JArr []) =
    (library_files <- get_all_programs_from_library dvr ;;
     fs <- Py.iter library_files ;; movies_loop fs) /\
  get_all_series_from_library dvr (JArr []) =
    (library_files <- get_all_programs_from_library dvr ;;
     fs <- Py.iter library_files ;; series_loop fs) /\
  (forall self,
      is_movie_in_library dvr self (JArr []) = is_movie_in_library dvr self None_ /\
      is_episode_in_library dvr self (JArr []) = is_episode_in_library dvr self None_ /\
      is_in_library dvr self (JArr []) = is_in_library dvr self None_) /\
  is_movie_in_library (server [dune_raw]) dune_program (JArr []) = Ok true /\
  is_episode_in_library (server [finale]) candidate_program (JArr []) = ([], Ok true).
Proof.
  repeat split; try reflexivity.
  cbv -[Py.lower_string].
  rewrite !Py.lower_string_ascii by reflexivity. reflexivity.
Qed.

(** ** The library filters on well-shaped snapshots *)

Lemma is_library_file_inv (f : json) :
  is_library_file f = true ->
  exists airing,
    Py.getitem f "Airing" = Ok (JObj airing) /\
    (field airing "Categories" = JNull \/
     exists categories, field airing "Categories" = JArr categories) /\
    (field airing "Raw" = JNull \/ exists raw, field airing "Raw" = JObj raw).
Proof.
  unfold is_library_file.
  destruct (Py.getitem f "Airing") as [[| | | | |airing]|]; try discriminate.
  intros H. apply andb_true_iff in H as (Hc & Hr). exists airing.
  split; [reflexivity|]. split.
  - destruct (field airing "Categories"); try discriminate; eauto.
  - destruct (field airing "Raw"); try discriminate; eauto.
Qed.

Lemma has_listed_categories_inv (f : json) :
  has_listed_categories f = true ->
  exists airing,
    Py.getitem f "Airing" = Ok (JObj airing) /\
    (field airing "Categories" = JNull \/
     exists categories, field airing "Categories" = JArr categories).
Proof.
  unfold has_listed_categories.
  destruct (Py.getitem f "Airing") as [[| | | | |airing]|]; try discriminate.
  intros Hc. exists airing. split; [reflexivity|].
  destruct (field airing "Categories"); try discriminate; eauto.
Qed.

Lemma is_library_file_categories (fs : list json) :
  forallb is_library_file fs = true -> forallb has_listed_categories fs = true.
Proof.
  induction fs as [|f fs IH]; [reflexivity|].
  cbn [forallb]. intros H. apply andb_true_iff in H as (Hf & Hfs).
  rewrite (IH Hfs), andb_true_r.
  destruct (is_library_file_inv _ Hf) as (airing & Ha & Hc & _).
  unfold has_listed_categories. rewrite Ha.
  destruct Hc as [Hc|(categories & Hc)]; rewrite Hc; reflexivity.
Qed.

Lemma movies_loop_filter (fs : list json) :
  forallb has_listed_categories fs = true ->
  movies_loop fs = Ok (filter (has_category "Movie") fs).
Proof.
  induction fs as [|f fs IH]; [reflexivity|].
  cbn [forallb]. intros H. apply andb_true_iff in H as (Hf & Hfs).
  destruct (has_listed_categories_inv _ Hf) as (airing & Ha & Hc).
  cbn [movies_loop filter]. unfold has_category at 1.
  rewrite Ha. cbn [bind]. rewrite get_obj. cbn [bind].
  destruct Hc as [Hc|(categories & Hc)]; rewrite Hc.
  - cbn [Py.truthy negb]. apply IH, Hfs.
  - destruct categories as [|c cs].
    + cbn [Py.truthy negb existsb]. apply IH, Hfs.
    + cbn [Py.truthy negb]. rewrite contains_list. cbn [bind].
      rewrite (IH Hfs). reflexivity.
Qed.

Lemma series_loop_filter (fs : list json) :
  forallb has_listed_categories fs = true ->
  series_loop fs = Ok (filter (has_category "Series") fs).
Proof.
  induction fs as [|f fs IH]; [reflexivity|].
  cbn [forallb]. intros H. apply andb_true_iff in H as (Hf & Hfs).
  destruct (has_listed_categories_inv _ Hf) as (airing & Ha & Hc).
  cbn [series_loop filter]. unfold has_category at 1.
  rewrite Ha. cbn [bind]. rewrite get_obj. cbn [bind].
  destruct Hc as [Hc|(categories & Hc)].
  - rewrite Hc. cbn [Py.truthy negb]. apply IH, Hfs.
  - destruct categories as [|c cs].
    + rewrite Hc. cbn [Py.truthy negb existsb]. apply IH, Hfs.
    + assert (Ht : Py.truthy (field airing "Categories") = true) by (rewrite Hc; reflexivity).
      rewrite Ht, (getitem_truthy_field _ _ Ht), Hc. cbn [negb bind].
      rewrite contains_list. cbn [bind]. rewrite (IH Hfs). reflexivity.
Qed.

Lemma get_all_movies_on_files (dvr : ChannelsDVRServer) (fs : list json) :
  fs <> [] ->
  forallb is_library_file fs = true ->
  get_all_movies_from_library dvr (JArr fs) = Ok (filter (has_category "Movie") fs).
Proof.
  intros Hne Hfs. unfold get_all_movies_from_library, snapshot.
  destruct fs as [|f fs']; [contradiction|].
  cbn [Py.truthy negb bind Py.iter].
  apply movies_loop_filter, is_library_file_categories, Hfs.
Qed.

Lemma get_all_series_on_files (dvr : ChannelsDVRServer) (fs : list json) :
  fs <> [] ->
  forallb is_library_file fs = true ->
  get_all_series_from_library dvr (JArr fs) = Ok (filter (has_category "Series") fs).
Proof.
  intros Hne Hfs. unfold get_all_series_from_library, snapshot.
  destruct fs as [|f fs']; [contradiction|].
  cbn [Py.truthy negb bind Py.iter].
  apply series_loop_filter, is_library_file_categories, Hfs.
Qed.

Lemma app_cons_not_nil (before after : list json) (f : json) :
  (before ++ f :: after)%list <> [].
Proof. destruct before; discriminate. Qed.

(** X1: on a non-empty snapshot of files with an airing object whose
    categories are absent or a list, the two filters keep, in the order
    of the snapshot, exactly the files whose category list holds "Movie",
    respectively "Series", whatever the raw metadata of the files; a file
    tagged with both is kept by both. *)
Theorem library_filters_select (dvr : ChannelsDVRServer) (fs : list json) :
  fs <> [] ->
  forallb has_listed_categories fs = true ->
  get_all_movies_from_library dvr (JArr fs) = Ok (filter (has_category "Movie") fs) /\
  get_all_series_from_library dvr (JArr fs) = Ok (filter (has_category "Series") fs).
Proof.
  intros Hne Hfs. unfold get_all_movies_from_library, get_all_series_from_library, snapshot.
  destruct fs as [|f fs']; [contradiction|].
  cbn [Py.truthy negb bind Py.iter]. split.
  - apply movies_loop_filter, Hfs.
  - apply series_loop_filter, Hfs.
Qed.

Lemma library_filters_select_witness :
  get_all_movies_from_library (server [])
    (JArr [finale; dune;
           record [("Categories", JArr [JStr "Movie"]); ("Raw", JNum 0)]; both; bare])
  = Ok [dune; record [("Categories", JArr [JStr "Movie"]); ("Raw", JNum 0)]; both] /\
  get_all_series_from_library (server [])
    (JArr [finale; dune;
           record [("Categories", JArr [JStr "Movie"]); ("Raw", JNum 0)]; both; bare])
  = Ok [finale].
Proof.
  apply (library_filters_select (server [])
           [finale; dune;
            record [("Categories", JArr [JStr "Movie"]); ("Raw", JNum 0)]; both; bare]).
  - discriminate.
  - reflexivity.
Defined.





(** ** Which snapshot the matchers read *)

Lemma snapshot_supplied (dvr : ChannelsDVRServer) (library_files : json) :
  Py.truthy library_files = true -> snapshot dvr library_files = Ok library_files.
Proof. intros H. unfold snapshot. rewrite H. reflexivity. Qed.

Lemma snapshot_fetched (dvr : ChannelsDVRServer) (library_files : json) :
  Py.truthy library_files = false -> snapshot dvr library_files = dvr_files dvr.
Proof. intros H. unfold snapshot. rewrite H. reflexivity. Qed.

(** X3: with a non-empty snapshot supplied, no filter, lookup or matcher
    depends on the server: nothing is requested. *)
Theorem supplied_snapshot_is_used `{L : Py.Lower} (dvr dvr' : ChannelsDVRServer) (self : Program)
    (library_files : json) :
  Py.truthy library_files = true ->
  get_all_movies_from_library dvr library_files =
    get_all_movies_from_library dvr' library_files /\
  get_all_series_from_library dvr library_files =
    get_all_series_from_library dvr' library_files /\
  (forall t, get_one_movie_from_library dvr t library_files =
             get_one_movie_from_library dvr' t library_files) /\
  (forall t s n, get_one_episode_of_one_series_from_library dvr t s n library_files =
                 get_one_episode_of_one_series_from_library dvr' t s n library_files) /\
  is_movie_in_library dvr self library_files =
    is_movie_in_library dvr' self library_files /\
  is_episode_in_library dvr self library_files =
    is_episode_in_library dvr' self library_files /\
  is_in_library dvr self library_files = is_in_library dvr' self library_files.
Proof.
  intros H.
  assert (Hm : get_all_movies_from_library dvr library_files =
               get_all_movies_from_library dvr' library_files).
  { unfold get_all_movies_from_library. rewrite !(snapshot_supplied _ _ H). reflexivity. }
  assert (Hs : get_all_series_from_library dvr library_files =
               get_all_series_from_library dvr' library_files).
  { unfold get_all_series_from_library. rewrite !(snapshot_supplied _ _ H). reflexivity. }
  assert (Hom : forall t, get_one_movie_from_library dvr t library_files =
                          get_one_movie_from_library dvr' t library_files).
  { intros t. unfold get_one_movie_from_library. rewrite Hm. reflexivity. }
  assert (Hoe : forall t s n,
             get_one_episode_of_one_series_from_library dvr t s n library_files =
             get_one_episode_of_one_series_from_library dvr' t s n library_files).
  { intros t s n. unfold get_one_episode_of_one_series_from_library,
      get_all_episodes_of_one_series_from_library. rewrite Hs. reflexivity. }
  assert (Hmv : is_movie_in_library dvr self library_files =
                is_movie_in_library dvr' self library_files).
  { unfold is_movie_in_library. rewrite Hom. reflexivity. }
  assert (Hep : is_episode_in_library dvr self library_files =
                is_episode_in_library dvr' self library_files).
  { unfold is_episode_in_library. rewrite Hoe. reflexivity. }
  repeat split; try assumption.
  unfold is_in_library. rewrite Hmv, Hep. reflexivity.
Qed.

Lemma supplied_snapshot_is_used_witness :
  is_in_library (server [dune_raw]) candidate_program (JArr [finale]) =
  is_in_library {| dvr_jobs := Raise RequestException;
                   dvr_files := Raise RequestException |}
    candidate_program (JArr [finale]).
Proof.
  apply (supplied_snapshot_is_used (server [dune_raw])
           {| dvr_jobs := Raise RequestException; dvr_files := Raise RequestException |}
           candidate_program (JArr [finale]) eq_refl).
Defined.

(** X4: without a snapshot (none, or an empty one) a failed request for
    the library listing is raised unchanged by the filters, the lookups
    and the matchers; the episode matcher prints nothing and does not turn
    it into its [RuntimeError].  [is_in_library] raises it for a program
    that is a movie or an episode. *)
Theorem failed_request_is_raised `{L : Py.Lower} (dvr : ChannelsDVRServer) (self : Program)
    (library_files : json) (e : exn) :
  Py.truthy library_files = false ->
  dvr_files dvr = Raise e ->
  get_all_movies_from_library dvr library_files = Raise e /\
  get_all_series_from_library dvr library_files = Raise e /\
  (forall t, get_one_movie_from_library dvr t library_files = Raise e) /\
  (forall t s n,
      get_one_episode_of_one_series_from_library dvr t s n library_files = Raise e) /\
  is_movie_in_library dvr self library_files = Raise e /\
  is_episode_in_library dvr self library_files = ([], Raise e) /\
  (is_a_movie self = Ok true -> is_in_library dvr self library_files = ([], Raise e)) /\
  (is_a_movie self = Ok false -> is_an_episode self = Ok true ->
     is_in_library dvr self library_files = ([], Raise e)).
Proof.
  intros H He.
  assert (Hm : get_all_movies_from_library dvr library_files = Raise e).
  { unfold get_all_movies_from_library. rewrite (snapshot_fetched _ _ H), He. reflexivity. }
  assert (Hs : get_all_series_from_library dvr library_files = Raise e).
  { unfold get_all_series_from_library. rewrite (snapshot_fetched _ _ H), He. reflexivity. }
  assert (Hmv : is_movie_in_library dvr self library_files = Raise e).
  { unfold is_movie_in_library, get_one_movie_from_library. rewrite Hm. reflexivity. }
  assert (Hep : is_episode_in_library dvr self library_files = ([], Raise e)).
  { unfold is_episode_in_library, get_one_episode_of_one_series_from_library,
      get_all_episodes_of_one_series_from_library. rewrite Hs. reflexivity. }
  repeat split; try assumption.
  - intros t. unfold get_one_movie_from_library. rewrite Hm. reflexivity.
  - intros t s n. unfold get_one_episode_of_one_series_from_library,
      get_all_episodes_of_one_series_from_library. rewrite Hs. reflexivity.
  - intros Hmovie. unfold is_in_library. rewrite Hmovie, Hmv. reflexivity.
  - intros Hmovie Hepisode. unfold is_in_library. rewrite Hmovie, Hepisode, Hep.
    reflexivity.
Qed.

Lemma failed_request_is_raised_witness :
  is_in_library {| dvr_jobs := Ok (JArr []); dvr_files := Raise RequestException |}
    candidate_program (JArr []) = ([], Raise RequestException).
Proof.
  apply (proj2 (proj2 (proj2 (proj2 (proj2 (proj2 (proj2
           (failed_request_is_raised
              {| dvr_jobs := Ok (JArr []); dvr_files := Raise RequestException |}
              candidate_program (JArr []) RequestException eq_refl eq_refl))))))));
    reflexivity.
Defined.

(** ** Which library movie is compared *)

Lemma library_movie_title_ok (f : json) :
  is_library_file f = true -> exists t, library_movie_title f = Ok t.
Proof.
  intros Hf. destruct (is_library_file_inv _ Hf) as (airing & Ha & _ & Hr).
  rewrite (library_movie_title_raw _ _ Ha).
  destruct Hr as [Hr|(raw & Hr)]; rewrite Hr.
  - eexists. reflexivity.
  - destruct (Py.truthy (JObj raw)); [rewrite get_obj|]; eexists; reflexivity.
Qed.

Lemma library_file_truthy (f : json) (airing : json) :
  Py.getitem f "Airing" = Ok airing -> Py.truthy f = true.
Proof.
  destruct f as [| | | | |o]; try discriminate.
  destruct o; [discriminate|reflexivity].
Qed.

Lemma one_movie_loop_filter_first (t m : json) (before after : list json) :
  forallb is_library_file before = true ->
  forallb (fun f => negb (is_movie_titled t f)) before = true ->
  is_movie_titled t m = true ->
  one_movie_loop t (filter (has_category "Movie") (before ++ m :: after)) = Ok m.
Proof.
  intros Hfiles Hnot Hm.
  unfold is_movie_titled in Hm. apply andb_true_iff in Hm as (Hcat & Htitle).
  induction before as [|b before IH]; cbn [app filter].
  - rewrite Hcat. cbn [one_movie_loop].
    destruct (library_movie_title m) as [t'|]; [|discriminate].
    cbn [bind]. rewrite Htitle. reflexivity.
  - cbn [forallb] in Hfiles, Hnot.
    apply andb_true_iff in Hfiles as (Hb & Hfiles).
    apply andb_true_iff in Hnot as (Hnb & Hnot).
    destruct (has_category "Movie" b) eqn:Hcb; [|apply IH; assumption].
    cbn [one_movie_loop].
    destruct (library_movie_title_ok _ Hb) as (t' & Ht').
    unfold is_movie_titled in Hnb. rewrite Hcb, Ht' in Hnb. cbn [andb] in Hnb.
    apply negb_true_iff in Hnb.
    rewrite Ht'. cbn [bind]. rewrite Hnb. apply IH; assumption.
Qed.

Lemma first_titled_movie_found (dvr : ChannelsDVRServer) (t : json)
    (before after : list json) (m : json) :
  forallb is_library_file (before ++ m :: after) = true ->
  forallb (fun f => negb (is_movie_titled t f)) before = true ->
  is_movie_titled t m = true ->
  get_one_movie_from_library dvr t (JArr (before ++ m :: after)) = Ok m.
Proof.
  intros Hfiles Hnot Hm. unfold get_one_movie_from_library.
  rewrite (get_all_movies_on_files dvr _ (app_cons_not_nil _ _ _) Hfiles).
  cbn [bind].
  rewrite forallb_app in Hfiles. apply andb_true_iff in Hfiles as (Hb & _).
  apply one_movie_loop_filter_first; assumption.
Qed.

(** X5: on a snapshot of well-shaped library files the movie lookup
    returns the first file, in snapshot order, that is a movie with the
    requested title, and the movie matcher compares the release year and
    the director with that file alone: the files after it play no part,
    whether or not one of them matches in full. *)
Theorem first_titled_movie_decides (dvr : ChannelsDVRServer) (self : Program)
    (before after : list json) (m : json)
    (airing : list (string * json)) (year : json) (directors : list json) :
  forallb is_library_file (before ++ m :: after) = true ->
  forallb (fun f => negb (is_movie_titled (title self) f)) before = true ->
  is_movie_titled (title self) m = true ->
  Py.getitem m "Airing" = Ok (JObj airing) ->
  Py.lookup "ReleaseYear" airing = Some year ->
  Py.lookup "Directors" airing = Some (JArr directors) ->
  get_one_movie_from_library dvr (title self) (JArr (before ++ m :: after)) = Ok m /\
  is_movie_in_library dvr self (JArr (before ++ m :: after)) =
  Ok (Py.eq year (release_year self) && existsb (Py.eq (director self)) directors).
Proof.
  intros Hfiles Hnot Hm Ha Hy Hd.
  pose proof (first_titled_movie_found dvr _ _ _ _ Hfiles Hnot Hm) as Hone.
  split; [exact Hone|].
  unfold is_movie_in_library. rewrite Hone. cbn [bind].
  rewrite (library_file_truthy _ _ Ha), Ha. cbn [bind].
  unfold Py.getitem. rewrite Hy, Hd. reflexivity.
Qed.

Lemma first_titled_movie_decides_witness :
  is_movie_in_library (server []) dune_program
    (JArr [finale;
           record [("Title", JStr "Dune"); ("Categories", JArr [JStr "Movie"]);
                   ("ReleaseYear", JNum 2021);
                   ("Directors", JArr [JStr "Denis Villeneuve"]);
                   ("Raw", JObj [("title", JStr "Dune")])];
           dune_raw]) = Ok false.
Proof.
  apply (proj2 (first_titled_movie_decides (server []) dune_program
                  [finale] [dune_raw]
                  (record [("Title", JStr "Dune"); ("Categories", JArr [JStr "Movie"]);
                           ("ReleaseYear", JNum 2021);
                           ("Directors", JArr [JStr "Denis Villeneuve"]);
                           ("Raw", JObj [("title", JStr "Dune")])])
                  [("Title", JStr "Dune"); ("Categories", JArr [JStr "Movie"]);
                   ("ReleaseYear", JNum 2021);
                   ("Directors", JArr [JStr "Denis Villeneuve"]);
                   ("Raw", JObj [("title", JStr "Dune")])]
                  (JNum 2021) [JStr "Denis Villeneuve"]
                  eq_refl eq_refl eq_refl eq_refl eq_refl eq_refl)).
Defined.

(** For the movie lookup, the title of a well-shaped library movie is
    [None] exactly when its raw metadata is absent or holds no title. *)
Lemma is_movie_titled_None (f : json) :
  is_library_file f = true ->
  is_movie_titled None_ f = has_category "Movie" f && lacks_raw_title f.
Proof.
  intros Hf. destruct (is_library_file_inv _ Hf) as (airing & Ha & _ & Hr).
  unfold is_movie_titled, lacks_raw_title.
  rewrite (library_movie_title_raw _ _ Ha), Ha.
  destruct (has_category "Movie" f); [|reflexivity]. cbn [andb].
  destruct Hr as [Hr|(raw & Hr)]; rewrite Hr; [reflexivity|].
  destruct raw as [|kv raw]; [reflexivity|].
  cbn [Py.truthy]. rewrite get_obj.
  destruct (field (kv :: raw) "title"); reflexivity.
Qed.

(** X6: a requested title of [None] (a null title in the candidate's
    record) is matched, on a snapshot of well-shaped library files, with
    the first movie, in snapshot order, whose raw metadata is absent or
    holds no title (no "title" key, or a null one): for such a movie the
    lookup reads the title [None], and [None == None].  The movie may
    well have raw metadata, with the title of the program in it. *)
Theorem null_title_selects_untitled_movie (dvr : ChannelsDVRServer)
    (before after : list json) (m : json) :
  forallb is_library_file (before ++ m :: after) = true ->
  forallb (fun f => negb (has_category "Movie" f && lacks_raw_title f)) before = true ->
  has_category "Movie" m = true ->
  lacks_raw_title m = true ->
  get_one_movie_from_library dvr None_ (JArr (before ++ m :: after)) = Ok m.
Proof.
  intros Hfiles Hnot Hcat Hraw.
  unfold get_one_movie_from_library.
  rewrite (get_all_movies_on_files dvr _ (app_cons_not_nil _ _ _) Hfiles).
  cbn [bind].
  rewrite forallb_app in Hfiles. apply andb_true_iff in Hfiles as (Hb & Hm).
  cbn [forallb] in Hm. apply andb_true_iff in Hm as (Hm & _).
  apply one_movie_loop_filter_first; try assumption.
  - clear Hm. induction before as [|b before IH]; [reflexivity|].
    cbn [forallb] in Hb, Hnot |- *.
    apply andb_true_iff in Hb as (Hb & Hbs).
    apply andb_true_iff in Hnot as (Hnb & Hnot).
    rewrite (is_movie_titled_None _ Hb), Hnb. apply IH; assumption.
  - rewrite (is_movie_titled_None _ Hm), Hcat, Hraw. reflexivity.
Qed.

Lemma null_title_selects_untitled_movie_witness :
  get_one_movie_from_library (server []) None_ (JArr [dune_raw; dune_provider; dune])
  = Ok dune_provider.
Proof.
  apply (null_title_selects_untitled_movie (server []) [dune_raw] [dune] dune_provider);
    reflexivity.
Defined.

(** ** Which library episode is compared *)

Lemma episodes_loop_filter (t : json) (ss : list json) :
  forallb has_title ss = true ->
  episodes_loop t ss = Ok (filter (has_series_title t) ss).
Proof.
  induction ss as [|s ss IH]; [reflexivity|].
  cbn [forallb]. intros H. apply andb_true_iff in H as (Hs & Hss).
  cbn [episodes_loop filter]. unfold has_title in Hs. unfold has_series_title at 1.
  destruct (library_series_title s) as [t'|]; [|discriminate].
  cbn [bind]. rewrite (IH Hss). reflexivity.
Qed.

Lemma forallb_filter {A : Type} (p q : A -> bool) (l : list A) :
  forallb p l = true -> forallb p (filter q l) = true.
Proof.
  induction l as [|x l IH]; [reflexivity|].
  cbn [forallb filter]. intros H. apply andb_true_iff in H as (Hx & Hl).
  destruct (q x); [cbn [forallb]; rewrite Hx|]; auto.
Qed.

Lemma get_all_episodes_on_files (dvr : ChannelsDVRServer) (t : json) (fs : list json) :
  fs <> [] ->
  forallb is_library_file fs = true ->
  forallb has_title fs = true ->
  get_all_episodes_of_one_series_from_library dvr t (JArr fs) =
  Ok (filter (has_series_title t) (filter (has_category "Series") fs)).
Proof.
  intros Hne Hfiles Htitles. unfold get_all_episodes_of_one_series_from_library.
  rewrite (get_all_series_on_files dvr fs Hne Hfiles). cbn [bind].
  apply episodes_loop_filter, forallb_filter, Htitles.
Qed.

Lemma one_episode_loop_filter_first (t season episode e : json)
    (before after : list json) :
  forallb is_library_file before = true ->
  forallb (fun f => negb (is_episode_numbered t season episode f)) before = true ->
  is_library_file e = true ->
  is_episode_numbered t season episode e = true ->
  one_episode_loop season episode
    (filter (has_series_title t)
       (filter (has_category "Series") (before ++ e :: after))) = Ok e.
Proof.
  intros Hfiles Hnot He Hnum.
  assert (Hstep : forall f es,
             is_library_file f = true ->
             has_category "Series" f = true ->
             has_series_title t f = true ->
             one_episode_loop season episode (f :: es) =
             if is_episode_numbered t season episode f then Ok f
             else one_episode_loop season episode es).
  { intros f es Hf Hc Ht.
    destruct (is_library_file_inv _ Hf) as (airing & Ha & _).
    unfold is_episode_numbered, has_series_title in *.
    unfold _get_season_number_from_json, _get_episode_number_from_json.
    cbn [one_episode_loop]. rewrite Hc, Ha. cbn [bind]. rewrite !get_obj. cbn [bind].
    destruct (library_series_title f) as [t'|]; [|discriminate]. rewrite Ht.
    cbn [andb].
    destruct (Py.eq (field airing "SeasonNumber") season); [|reflexivity].
    cbn [andb].
    destruct (Py.eq (field airing "EpisodeNumber") episode); reflexivity. }
  induction before as [|b before IH]; cbn [app filter].
  - pose proof Hnum as Hnum'. unfold is_episode_numbered in Hnum'.
    apply andb_true_iff in Hnum' as (Hnum' & _).
    apply andb_true_iff in Hnum' as (Hnum' & _).
    apply andb_true_iff in Hnum' as (Hc & Ht).
    rewrite Hc. cbn [filter]. fold (has_series_title t e) in Ht. rewrite Ht.
    rewrite (Hstep _ _ He Hc Ht), Hnum. reflexivity.
  - cbn [forallb] in Hfiles, Hnot.
    apply andb_true_iff in Hfiles as (Hb & Hfiles).
    apply andb_true_iff in Hnot as (Hnb & Hnot).
    apply negb_true_iff in Hnb.
    destruct (has_category "Series" b) eqn:Hc; [|apply IH; assumption].
    cbn [filter].
    destruct (has_series_title t b) eqn:Ht; [|apply IH; assumption].
    rewrite (Hstep _ _ Hb Hc Ht), Hnb. apply IH; assumption.
Qed.

Lemma first_numbered_episode_found (dvr : ChannelsDVRServer) (t season episode : json)
    (before after : list json) (e : json) :
  forallb is_library_file (before ++ e :: after) = true ->
  forallb has_title (before ++ e :: after) = true ->
  forallb (fun f => negb (is_episode_numbered t season episode f)) before = true ->
  is_episode_numbered t season episode e = true ->
  get_one_episode_of_one_series_from_library dvr t season episode
    (JArr (before ++ e :: after)) = Ok e.
Proof.
  intros Hfiles Htitles Hnot Hnum.
  unfold get_one_episode_of_one_series_from_library.
  rewrite (get_all_episodes_on_files dvr _ _ (app_cons_not_nil _ _ _) Hfiles Htitles).
  cbn [bind].
  rewrite forallb_app in Hfiles. apply andb_true_iff in Hfiles as (Hbf & He).
  cbn [forallb] in He. apply andb_true_iff in He as (He & _).
  apply one_episode_loop_filter_first; assumption.
Qed.

(** X7: on a snapshot of well-shaped, titled library files the episode
    lookup returns the first file, in snapshot order, that is a series
    entry with the candidate's title, season number and episode number,
    and the episode matcher compares the episode title with that file
    alone: a later file with the same numbers is not looked at, whatever
    its episode title. *)
Theorem first_numbered_episode_decides `{L : Py.Lower} (dvr : ChannelsDVRServer) (self : Program)
    (before after : list json) (e : json) (library_episode : Program) (a b : string) :
  forallb is_library_file (before ++ e :: after) = true ->
  forallb has_title (before ++ e :: after) = true ->
  forallb (fun f => negb (is_episode_numbered (title self) (season_number self)
                            (episode_number self) f)) before = true ->
  is_episode_numbered (title self) (season_number self) (episode_number self) e = true ->
  Program_init e = Ok library_episode ->
  episode_title library_episode = JStr a -> Py.truthy (JStr a) = true ->
  episode_title self = JStr b ->
  get_one_episode_of_one_series_from_library dvr (title self) (season_number self)
    (episode_number self) (JArr (before ++ e :: after)) = Ok e /\
  is_episode_in_library dvr self (JArr (before ++ e :: after)) =
  ([], Ok (String.eqb (Py.lower_string a) (Py.lower_string b))).
Proof.
  intros Hfiles Htitles Hnot Hnum Hinit Ha Hpresent Hb.
  pose proof (first_numbered_episode_found dvr _ _ _ _ _ _ Hfiles Htitles Hnot Hnum)
    as Hone.
  split; [exact Hone|].
  destruct (Program_init_airing _ _ Hinit) as (airing & Hairing).
  rewrite (is_episode_in_library_found _ _ _ _ _ Hone
             (library_file_truthy _ _ Hairing) Hinit).
  unfold same_episode_title. rewrite Ha, Hb, Hpresent. reflexivity.
Qed.

Lemma first_numbered_episode_decides_witness :
  is_episode_in_library (server []) candidate_program
    (JArr [dune;
           record [("Title", JStr "Show"); ("Categories", JArr [JStr "Series"]);
                   ("SeasonNumber", JNum 2); ("EpisodeNumber", JNum 5);
                   ("EpisodeTitle", JStr "Premiere")];
           finale]) = ([], Ok false).
Proof.
  exact (proj2 (first_numbered_episode_decides (server []) candidate_program
                  [dune] [finale]
                  (record [("Title", JStr "Show"); ("Categories", JArr [JStr "Series"]);
                           ("SeasonNumber", JNum 2); ("EpisodeNumber", JNum 5);
                           ("EpisodeTitle", JStr "Premiere")])
                  {| program :=
                       record [("Title", JStr "Show");
                               ("Categories", JArr [JStr "Series"]);
                               ("SeasonNumber", JNum 2); ("EpisodeNumber", JNum 5);
                               ("EpisodeTitle", JStr "Premiere")];
                     director := None_; episode_number := JNum 5;
                     episode_title := JStr "Premiere"; release_year := None_;
                     season_number := JNum 2; title := JStr "Show" |}
                  "Premiere" "FINALE"
                  eq_refl eq_refl eq_refl eq_refl eq_refl eq_refl eq_refl eq_refl)).
Defined.

(** ** Episode titles *)







(** ... and so it is with every lowering, the titles being ASCII. *)
Example earlier_episode_hides_match_any_lowering `{L : Py.Lower} :
  Py.lower_string "Finale" = Py.lower_string "FINALE" /\
  is_episode_in_library (server []) candidate_program (JArr [premiere; finale])
  = ([], Ok false).
Proof.
  split.
  - rewrite !Py.lower_string_ascii by reflexivity. reflexivity.
  - cbv -[Py.lower_string].
    rewrite !Py.lower_string_ascii by reflexivity. reflexivity.
Qed.

(** ** A program against its own library file *)

(** X8: a movie whose raw metadata carries its title, with a numeric
    release year and a list of directors that starts with a name, is
    found by the movie matcher in a snapshot of well-shaped library files
    (each with an airing object, categories absent or a list, raw
    metadata absent or an object) where its own file is the first movie
    of that title; [is_in_library] then answers [True] when the program
    is not an episode as well. *)
Theorem movie_found_in_own_library `{L : Py.Lower} (dvr : ChannelsDVRServer) (j : json) (self : Program)
    (before after : list json) (airing : list (string * json))
    (y : Z) (d : string) (ds : list json) :
  Program_init j = Ok self ->
  Py.getitem j "Airing" = Ok (JObj airing) ->
  forallb is_library_file (before ++ j :: after) = true ->
  forallb (fun f => negb (is_movie_titled (title self) f)) before = true ->
  is_movie_titled (title self) j = true ->
  Py.lookup "ReleaseYear" airing = Some (JNum y) ->
  Py.lookup "Directors" airing = Some (JArr (JStr d :: ds)) ->
  is_movie_in_library dvr self (JArr (before ++ j :: after)) = Ok true /\
  (is_an_episode self = Ok false ->
     is_in_library dvr self (JArr (before ++ j :: after)) = ([], Ok true)).
Proof.
  intros Hinit Ha Hfiles Hnot Htitled Hy Hd.
  destruct (Program_init_fields _ _ _ Hinit Ha) as (Hp & _ & _ & Hyear & _ & Hdir & _).
  assert (Hmovie : is_movie_in_library dvr self (JArr (before ++ j :: after)) = Ok true).
  { unfold is_movie_in_library.
    rewrite (first_titled_movie_found dvr _ _ _ _ Hfiles Hnot Htitled). cbn [bind].
    rewrite (library_file_truthy _ _ Ha), Ha. cbn [bind].
    unfold Py.getitem. rewrite Hy, Hd. cbn [bind Py.contains].
    rewrite Hyear. unfold field at 1. rewrite Hy.
    unfold _get_director_from_json in Hdir. rewrite Ha in Hdir. cbn [bind] in Hdir.
    rewrite get_obj in Hdir. unfold field in Hdir. rewrite Hd in Hdir.
    cbn in Hdir. injection Hdir as <-.
    cbn [existsb]. change (Py.eq (JNum y) (JNum y)) with (Z.eqb y y).
    change (Py.eq (JStr d) (JStr d)) with (String.eqb d d).
    rewrite Z.eqb_refl, String.eqb_refl. reflexivity. }
  split; [exact Hmovie|].
  intros Hep. unfold is_in_library. rewrite Hep, Hmovie.
  assert (Hmv : is_a_movie self = Ok true).
  { rewrite (is_a_movie_unfold _ _ _ Hinit Ha).
    unfold is_movie_titled in Htitled. apply andb_true_iff in Htitled as (Hcat & _).
    unfold has_category in Hcat. rewrite Ha in Hcat.
    destruct (field airing "Categories") as [| | | |[|c cs]|]; try discriminate.
    cbn [Py.truthy]. rewrite contains_list, Hcat. reflexivity. }
  rewrite Hmv. reflexivity.
Qed.

Lemma movie_found_in_own_library_witness :
  is_in_library (server []) 
    {| program := dune_raw; director := JStr "David Lynch";
       episode_number := None_; episode_title := None_;
       release_year := JNum 1984; season_number := None_;
       title := JStr "Dune" |}
    (JArr [finale; dune_raw]) = ([], Ok true).
Proof.
  apply (proj2 (movie_found_in_own_library (server []) dune_raw _ [finale] []
                  [("Title", JStr "Dune"); ("Categories", JArr [JStr "Movie"]);
                   ("ReleaseYear", JNum 1984); ("Directors", JArr [JStr "David Lynch"]);
                   ("Raw", JObj [("title", JStr "Dune")])]
                  1984%Z "David Lynch" []
                  eq_refl eq_refl eq_refl eq_refl eq_refl eq_refl eq_refl)).
  reflexivity.
Defined.

(** X9: a series entry with a title, a season number, an episode number
    and a non-empty episode title is found by the episode matcher in a
    snapshot of well-shaped library files (each with an airing object,
    categories absent or a list, raw metadata absent or an object), each
    with a title the series lookup can read, where its own file is the
    first entry with that title and those numbers; [is_in_library] then
    answers [True] when the program is not a movie as well. *)
Theorem episode_found_in_own_library `{L : Py.Lower} (dvr : ChannelsDVRServer) (j : json) (self : Program)
    (before after : list json) (t a : string) (s n : Z) :
  Program_init j = Ok self ->
  forallb is_library_file (before ++ j :: after) = true ->
  forallb has_title (before ++ j :: after) = true ->
  forallb (fun f => negb (is_episode_numbered (title self) (season_number self)
                            (episode_number self) f)) before = true ->
  has_category "Series" j = true ->
  title self = JStr t ->
  season_number self = JNum s ->
  episode_number self = JNum n ->
  episode_title self = JStr a -> Py.truthy (JStr a) = true ->
  is_episode_in_library dvr self (JArr (before ++ j :: after)) = ([], Ok true) /\
  (is_a_movie self = Ok false ->
     is_in_library dvr self (JArr (before ++ j :: after)) = ([], Ok true)).
Proof.
  intros Hinit Hfiles Htitles Hnot Hcat Ht Hs Hn Ha Hpresent.
  destruct (Program_init_airing _ _ Hinit) as (airing & Hairing).
  destruct (Program_init_fields _ _ _ Hinit Hairing)
    as (Hp & Hen & _ & _ & Hsn & _ & Htitle).
  assert (Hnum : is_episode_numbered (title self) (season_number self)
                   (episode_number self) j = true).
  { unfold is_episode_numbered. rewrite Hcat, library_series_title_get_title, Htitle.
    unfold _get_season_number_from_json, _get_episode_number_from_json.
    rewrite Hairing. cbn [bind]. rewrite !get_obj, <- Hsn, <- Hen, Ht, Hs, Hn.
    change (Py.eq (JStr t) (JStr t)) with (String.eqb t t).
    change (Py.eq (JNum s) (JNum s)) with (Z.eqb s s).
    change (Py.eq (JNum n) (JNum n)) with (Z.eqb n n).
    rewrite String.eqb_refl, !Z.eqb_refl. reflexivity. }
  assert (Hep : is_episode_in_library dvr self (JArr (before ++ j :: after))
                = ([], Ok true)).
  { rewrite (is_episode_in_library_found _ _ _ _ _
               (first_numbered_episode_found dvr _ _ _ _ _ _ Hfiles Htitles Hnot Hnum)
               (library_file_truthy _ _ Hairing) Hinit).
    unfold same_episode_title. rewrite Ha, Hpresent. cbn [Py.lower bind].
    change (Py.eq (JStr (Py.lower_string a)) (JStr (Py.lower_string a)))
      with (String.eqb (Py.lower_string a) (Py.lower_string a)).
    rewrite String.eqb_refl. reflexivity. }
  split; [exact Hep|].
  intros Hmv. unfold is_in_library. rewrite Hmv.
  assert (Hisep : is_an_episode self = Ok true).
  { rewrite (is_an_episode_unfold _ _ _ Hinit Hairing).
    unfold has_category in Hcat. rewrite Hairing in Hcat.
    destruct (field airing "Categories") as [| | | |[|c cs]|]; try discriminate.
    cbn [Py.truthy]. rewrite !contains_list, Hcat. cbn [bind].
    rewrite <- Hsn, <- Hen, Hs, Hn.
    destruct (existsb (Py.eq (JStr "Episode")) (c :: cs)); reflexivity. }
  cbn [io_bind io_ret]. rewrite Hisep, Hep. reflexivity.
Qed.

Lemma episode_found_in_own_library_witness :
  is_in_library (server []) finale_program (JArr [dune; finale; untitled]) = ([], Ok true).
Proof.
  apply (proj2 (episode_found_in_own_library (server []) finale finale_program
                  [dune] [untitled] "Show" "Finale" 2%Z 5%Z
                  eq_refl eq_refl eq_refl eq_refl eq_refl eq_refl eq_refl eq_refl
                  eq_refl eq_refl)).
  reflexivity.
Defined.

(** ** Manual recordings *)

Lemma prefix_occurs (sub s : string) :
  String.prefix sub s = true <-> exists after, s = sub ++ after.
Proof.
  revert s. induction sub as [|c sub IH]; intros s.
  - split; [intros _; exists s; reflexivity|intros _; destruct s; reflexivity].
  - destruct s as [|c' s]; cbn [String.prefix].
    + split; [discriminate|intros (after & H); discriminate].
    + destruct (Ascii.ascii_dec c c') as [<-|Hne].
      * rewrite IH. split.
        -- intros (after & ->). exists after. reflexivity.
        -- intros (after & H). injection H as ->. exists after. reflexivity.
      * split; [discriminate|].
        intros (after & H). injection H as -> _. contradiction.
Qed.

(** The model of [in] on strings finds exactly the occurrences. *)
Lemma substring_occurs (sub s : string) :
  Py.substring sub s = true <-> occurs sub s.
Proof.
  unfold occurs. induction s as [|c s IH]; cbn [Py.substring].
  - rewrite orb_false_r, prefix_occurs. split.
    + intros (after & H). exists "", after. exact H.
    + intros (before & after & H). exists after.
      destruct before; [exact H|discriminate].
  - rewrite orb_true_iff, prefix_occurs, IH. split.
    + intros [(after & H)|(before & after & H)].
      * exists "", after. exact H.
      * exists (String c before), after. cbn. rewrite H. reflexivity.
    + intros (before & after & H). destruct before as [|c' before].
      * left. exists after. exact H.
      * right. cbn in H. injection H as _ ->. exists before, after. reflexivity.
Qed.

(** X10: for a record whose "ID" is a string and whose "JobID" is a
    string or missing, [is_a_manual_recording] does not raise and answers
    [True] exactly when "-ch" occurs in the "ID" or in the "JobID"; a
    record without "ID" raises [KeyError], whatever its "JobID". *)
Theorem is_a_manual_recording_spec (self : Program) (o : list (string * json)) :
  program self = JObj o ->
  (forall id,
      Py.lookup "ID" o = Some (JStr id) ->
      (field o "JobID" = JNull \/ exists job_id, field o "JobID" = JStr job_id) ->
      exists answer,
        is_a_manual_recording self = Ok answer /\
        (answer = true <->
         occurs "-ch" id \/
         exists job_id, field o "JobID" = JStr job_id /\ occurs "-ch" job_id)) /\
  (Py.lookup "ID" o = None -> is_a_manual_recording self = Raise KeyError).
Proof.
  intros Hp. unfold is_a_manual_recording. rewrite Hp. split.
  - intros id Hid Hjob. unfold Py.getitem. rewrite Hid. cbn [bind Py.contains].
    destruct (Py.substring "-ch" id) eqn:Hsub; cbn [negb].
    + exists true. split; [reflexivity|].
      split; [|reflexivity]. intros _. left. apply substring_occurs, Hsub.
    + assert (Hno : ~ occurs "-ch" id).
      { intros H. apply substring_occurs in H. congruence. }
      rewrite get_obj. cbn [bind].
      destruct Hjob as [Hjob|(job_id & Hjob)]; rewrite Hjob.
      * exists false. split; [reflexivity|]. split; [discriminate|].
        intros [H|(job_id & H & _)]; [contradiction|discriminate].
      * destruct (Py.truthy (JStr job_id)) eqn:Htruthy.
        -- exists (Py.substring "-ch" job_id). split; [reflexivity|].
           rewrite substring_occurs. split.
           ++ intros H. right. exists job_id. auto.
           ++ intros [H|(job_id' & [= <-] & H)]; [contradiction|exact H].
        -- exists false. split; [reflexivity|]. split; [discriminate|].
           intros [H|(job_id' & [= <-] & (before & after & H))]; [contradiction|].
           cbn [Py.truthy] in Htruthy. apply negb_false_iff, String.eqb_eq in Htruthy.
           subst job_id. destruct before; discriminate.
  - intros Hid. unfold Py.getitem. rewrite Hid. reflexivity.
Qed.

Lemma is_a_manual_recording_spec_witness :
  exists answer,
    is_a_manual_recording
      {| program := JObj [("ID", JStr "617"); ("JobID", JStr "1693345200-ch6002")];
         director := None_; episode_number := None_; episode_title := None_;
         release_year := None_; season_number := None_; title := None_ |}
    = Ok answer /\
    (answer = true <->
     occurs "-ch" "617" \/
     exists job_id,
       field [("ID", JStr "617"); ("JobID", JStr "1693345200-ch6002")] "JobID"
       = JStr job_id /\ occurs "-ch" job_id).
Proof.
  apply (proj1 (is_a_manual_recording_spec
                  {| program := JObj [("ID", JStr "617");
                                      ("JobID", JStr "1693345200-ch6002")];
                     director := None_; episode_number := None_;
                     episode_title := None_; release_year := None_;
                     season_number := None_; title := None_ |}
                  [("ID", JStr "617"); ("JobID", JStr "1693345200-ch6002")] eq_refl)
           "617" eq_refl).
  right. exists "1693345200-ch6002". reflexivity.
Defined.

(** ** File names of library programs *)

(** X11: [get_file_name] raises [KeyError] for a program without "ID"
    before any request is made; when the media information has no
    "format" entry it prints the media information and returns the empty
    name; when it has one it returns its "filename" and prints nothing. *)
Theorem get_file_name_cases (mediainfo : json -> res json) (library_program : json) :
  (Py.getitem library_program "ID" = Raise KeyError ->
     get_file_name mediainfo library_program = ([], Raise KeyError)) /\
  (forall file_id info,
      Py.getitem library_program "ID" = Ok file_id ->
      mediainfo file_id = Ok (JObj info) ->
      Py.lookup "format" info = None ->
      get_file_name mediainfo library_program = ([JObj info], Ok (JStr ""))) /\
  (forall file_id info format file_name,
      Py.getitem library_program "ID" = Ok file_id ->
      mediainfo file_id = Ok (JObj info) ->
      Py.lookup "format" info = Some (JObj format) ->
      Py.lookup "filename" format = Some file_name ->
      get_file_name mediainfo library_program = ([], Ok file_name)) /\
  (forall file_id e,
      Py.getitem library_program "ID" = Ok file_id ->
      mediainfo file_id = Raise e ->
      get_file_name mediainfo library_program = ([], Raise e)).
Proof.
  unfold get_file_name, get_media_info. repeat split.
  - intros H. rewrite H. reflexivity.
  - intros file_id info Hid Hinfo Hformat. rewrite Hid. cbn [bind].
    rewrite Hinfo, get_obj. unfold field. rewrite Hformat. reflexivity.
  - intros file_id info format file_name Hid Hinfo Hformat Hname. rewrite Hid.
    cbn [bind]. rewrite Hinfo, get_obj. unfold field. rewrite Hformat.
    rewrite (truthy_obj_lookup _ _ _ Hname). unfold Py.getitem.
    rewrite Hformat. cbn [bind]. rewrite Hname. reflexivity.
  - intros file_id e Hid He. rewrite Hid. cbn [bind]. rewrite He. reflexivity.
Qed.

Lemma get_file_name_cases_witness :
  get_file_name
    (fun _ => Ok (JObj [("format", JObj [("filename", JStr "/dvr/Movies/Dune.mpg")])]))
    dune = ([], Ok (JStr "/dvr/Movies/Dune.mpg")) /\
  get_file_name (fun _ => Ok (JObj [("error", JStr "not found")])) dune
  = ([JObj [("error", JStr "not found")]], Ok (JStr "")) /\
  get_file_name (fun _ => Raise RequestException) (JObj [])
  = ([], Raise KeyError).
Proof.
  split; [|split].
  - apply (proj1 (proj2 (proj2 (get_file_name_cases _ dune))) (JStr "42")
             [("format", JObj [("filename", JStr "/dvr/Movies/Dune.mpg")])]
             [("filename", JStr "/dvr/Movies/Dune.mpg")]);
      reflexivity.
  - apply (proj1 (proj2 (get_file_name_cases _ dune)) (JStr "42")
             [("error", JStr "not found")]);
      reflexivity.
  - apply (proj1 (get_file_name_cases _ (JObj []))). reflexivity.
Defined.

(** ** The address of the server *)

Lemma length_append (s t : string) :
  String.length (s ++ t) = String.length s + String.length t.
Proof. induction s as [|c s IH]; cbn; [reflexivity|rewrite IH; reflexivity]. Qed.

Lemma append_assoc (s t u : string) : (s ++ t) ++ u = s ++ t ++ u.
Proof. induction s as [|c s IH]; cbn; [reflexivity|rewrite IH; reflexivity]. Qed.

Lemma append_cancel_l (s t u : string) : s ++ t = s ++ u -> t = u.
Proof. induction s as [|c s IH]; cbn; [auto|]. intros [= H]. auto. Qed.

Lemma append_cancel_r (s t u : string) : s ++ u = t ++ u -> s = t.
Proof.
  revert t. induction s as [|c s IH]; intros [|c' t] H; cbn in H.
  - reflexivity.
  - apply (f_equal String.length) in H. cbn in H. rewrite length_append in H. lia.
  - apply (f_equal String.length) in H. cbn in H. rewrite length_append in H. lia.
  - injection H as -> H. rewrite (IH _ H). reflexivity.
Qed.

(** X12: the URL of a server object is built once, by the constructor.
    [set_ip_address] and [set_port_number] leave it as it is, so after
    them the requests built on the URL (jobs, files) still go to the old
    address while the channel listing, built on the two attributes, goes
    to the new one; the object stays consistent only when the value set
    is the one it had. *)
Theorem setters_leave_url (self : Address.t) (ip port : string) :
  Address.consistent self ->
  Address.get_url (Address.set_ip_address self ip) = Address.get_url self /\
  Address.get_url (Address.set_port_number self port) = Address.get_url self /\
  Address.url_jobs (Address.set_ip_address self ip) =
    "http://" ++ Address.ip_address self ++ ":" ++ Address.port_number self ++ "/dvr/jobs" /\
  Address.url_files (Address.set_ip_address self ip) =
    "http://" ++ Address.ip_address self ++ ":" ++ Address.port_number self ++ "/dvr/files" /\
  Address.url_devices (Address.set_ip_address self ip) =
    "http://" ++ ip ++ ":" ++ Address.port_number self ++ "/devices" /\
  (Address.consistent (Address.set_ip_address self ip) <-> ip = Address.ip_address self) /\
  (Address.consistent (Address.set_port_number self port) <->
   port = Address.port_number self).
Proof.
  unfold Address.consistent. intros H.
  repeat split; try reflexivity.
  - unfold Address.url_jobs. cbn [Address.set_ip_address Address.url]. rewrite H.
    cbn. rewrite !append_assoc. reflexivity.
  - unfold Address.url_files. cbn [Address.set_ip_address Address.url]. rewrite H.
    cbn. rewrite !append_assoc. reflexivity.
  - cbn [Address.set_ip_address Address.url Address.ip_address Address.port_number].
    rewrite H. intros Heq. apply (append_cancel_l "http://") in Heq.
    apply append_cancel_r in Heq. auto.
  - intros ->. cbn [Address.set_ip_address Address.url Address.ip_address
                      Address.port_number]. exact H.
  - cbn [Address.set_port_number Address.url Address.ip_address Address.port_number].
    rewrite H. intros Heq. apply (append_cancel_l "http://") in Heq.
    apply append_cancel_l in Heq. injection Heq as Heq. auto.
  - intros ->. cbn [Address.set_port_number Address.url Address.ip_address
                      Address.port_number]. exact H.
Qed.

Lemma setters_leave_url_witness :
  Address.url_jobs
    (Address.set_ip_address
       (Address.init Address.LOOPBACK_ADDRESS Address.DEFAULT_PORT_NUMBER)
       "192.168.1.20")
  = "http://127.0.0.1:8089/dvr/jobs" /\
  Address.url_devices
    (Address.set_ip_address
       (Address.init Address.LOOPBACK_ADDRESS Address.DEFAULT_PORT_NUMBER)
       "192.168.1.20")
  = "http://192.168.1.20:8089/devices".
Proof.
  split.
  - exact (proj1 (proj2 (proj2
             (setters_leave_url
                (Address.init Address.LOOPBACK_ADDRESS Address.DEFAULT_PORT_NUMBER)
                "192.168.1.20" "8089" eq_refl)))).
  - exact (proj1 (proj2 (proj2 (proj2 (proj2
             (setters_leave_url
                (Address.init Address.LOOPBACK_ADDRESS Address.DEFAULT_PORT_NUMBER)
                "192.168.1.20" "8089" eq_refl)))))).
Defined.

(** ** The saved server settings *)

Lemma split_free (c : ascii) (s : string) :
  Settings.free_of c s = true -> Settings.split c s = [s].
Proof.
  induction s as [|c' s IH]; [reflexivity|].
  cbn [Settings.free_of Settings.split]. intros H.
  apply andb_true_iff in H as (Hc & Hs). apply negb_true_iff in Hc.
  rewrite Hc, (IH Hs). reflexivity.
Qed.

Lemma split_append (c : ascii) (s t : string) :
  Settings.free_of c s = true ->
  Settings.split c (s ++ String c t) = s :: Settings.split c t.
Proof.
  induction s as [|c' s IH]; cbn [append Settings.free_of Settings.split].
  - intros _. rewrite Ascii.eqb_refl. reflexivity.
  - intros H. apply andb_true_iff in H as (Hc & Hs). apply negb_true_iff in Hc.
    rewrite Hc, (IH Hs). reflexivity.
Qed.

(** No part of a split text holds the separator, nor a character the
    text does not hold. *)
Lemma split_parts_free (c d : ascii) (s : string) :
  Settings.free_of d s = true \/ d = c ->
  Forall (fun part => Settings.free_of d part = true) (Settings.split c s).
Proof.
  induction s as [|c' s IH]; cbn [Settings.split]; intros H.
  - repeat constructor.
  - assert (Hs : Settings.free_of d s = true \/ d = c).
    { destruct H as [H | H]; [left | right; exact H].
      cbn [Settings.free_of] in H. apply andb_true_iff in H as (_ & H). exact H. }
    specialize (IH Hs).
    destruct (Ascii.eqb c' c) eqn:Hc.
    + constructor; [reflexivity | exact IH].
    + assert (Hd : Ascii.eqb c' d = false).
      { destruct H as [H | ->]; [|exact Hc].
        cbn [Settings.free_of] in H. apply andb_true_iff in H as (H & _).
        apply negb_true_iff in H. exact H. }
      destruct (Settings.split c s) as [|part parts].
      * constructor; [|constructor]. cbn [Settings.free_of]. rewrite Hd. reflexivity.
      * inversion IH as [|? ? Hpart Hparts]; subst.
        constructor; [|exact Hparts].
        cbn [Settings.free_of]. rewrite Hd, Hpart. reflexivity.
Qed.

Lemma free_of_append (c : ascii) (s t : string) :
  Settings.free_of c (s ++ t) = Settings.free_of c s && Settings.free_of c t.
Proof.
  induction s as [|c' s IH]; cbn [append Settings.free_of]; [reflexivity|].
  rewrite IH, andb_assoc. reflexivity.
Qed.

(** *** Text mode *)

(** A file without a carriage return is read as it is. *)
Lemma read_text_without_return (file : string) :
  Settings.free_of Settings.CR file = true -> Settings.read_text file = file.
Proof.
  induction file as [|c file IH]; [reflexivity|].
  cbn [Settings.free_of Settings.read_text]. intros H.
  apply andb_true_iff in H as (Hc & Hs). apply negb_true_iff in Hc.
  rewrite Hc, (IH Hs). reflexivity.
Qed.

(** Reading brings in no character but the line feed, and leaves no
    carriage return. *)
Lemma read_text_free_bounded (d : ascii) :
  Ascii.eqb Settings.LF d = false ->
  forall (n : nat) (file : string),
    String.length file <= n ->
    Settings.free_of d file = true \/ d = Settings.CR ->
    Settings.free_of d (Settings.read_text file) = true.
Proof.
  intros Hlf. induction n as [|n IH]; intros file Hlen H.
  - destruct file; [reflexivity | cbn [String.length] in Hlen; lia].
  - destruct file as [|c file]; [reflexivity|].
    cbn [String.length] in Hlen.
    assert (Hfile : Settings.free_of d file = true \/ d = Settings.CR).
    { destruct H as [H | H]; [left | right; exact H].
      cbn [Settings.free_of] in H. apply andb_true_iff in H as (_ & H). exact H. }
    cbn [Settings.read_text]. destruct (Ascii.eqb c Settings.CR) eqn:Hc.
    + cbn [Settings.free_of]. rewrite Hlf. cbn [negb andb].
      destruct file as [|c' file']; [reflexivity|].
      destruct (Ascii.eqb c' Settings.LF).
      * apply IH; [cbn [String.length] in Hlen; lia|].
        destruct Hfile as [Hfile | Hfile]; [left | right; exact Hfile].
        cbn [Settings.free_of] in Hfile. apply andb_true_iff in Hfile as (_ & Hfile).
        exact Hfile.
      * apply IH; [lia | exact Hfile].
    + cbn [Settings.free_of].
      assert (Hd : Ascii.eqb c d = false).
      { destruct H as [H | ->]; [|exact Hc].
        cbn [Settings.free_of] in H. apply andb_true_iff in H as (H & _).
        apply negb_true_iff in H. exact H. }
      rewrite Hd. cbn [negb andb]. apply IH; [lia | exact Hfile].
Qed.

Lemma read_text_free (d : ascii) (file : string) :
  Ascii.eqb Settings.LF d = false ->
  Settings.free_of d file = true \/ d = Settings.CR ->
  Settings.free_of d (Settings.read_text file) = true.
Proof.
  intros Hlf H. apply (read_text_free_bounded d Hlf (String.length file)); [lia | exact H].
Qed.

(** A text without a carriage return is read back as it was written,
    whatever the line separator of the platform. *)
Lemma read_text_write_text (p : Settings.platform) (text : string) :
  Settings.free_of Settings.CR text = true ->
  Settings.read_text (Settings.write_text p text) = text.
Proof.
  induction text as [|c text IH]; [reflexivity|].
  cbn [Settings.free_of Settings.write_text]. intros H.
  apply andb_true_iff in H as (Hc & Hs). apply negb_true_iff in Hc.
  specialize (IH Hs).
  destruct (Ascii.eqb c Settings.LF) eqn:Hlf.
  - apply Ascii.eqb_eq in Hlf. subst c.
    destruct p; cbn [Settings.linesep append Settings.read_text];
      change (Ascii.eqb Settings.LF Settings.CR) with false;
      change (Ascii.eqb Settings.CR Settings.CR) with true;
      change (Ascii.eqb Settings.LF Settings.LF) with true;
      cbn iota; rewrite IH; reflexivity.
  - cbn [Settings.read_text]. rewrite Hc, IH. reflexivity.
Qed.

(** X13: settings saved and read back, the file being opened in text
    mode on either platform, give the ASCII address and port that were
    saved exactly when neither holds a colon or a carriage return: an
    address with a colon in it (an IPv6 address) comes back cut at its
    first colon, and a carriage return comes back as a line feed. *)
Theorem settings_round_trip (p : Settings.platform) (s : Settings.state)
    (ip port : string) :
  Py.is_ascii ip = true -> Py.is_ascii port = true ->
  let saved := Settings.save_default_server_settings_to_file p s ip port in
  let read := Settings.read_default_server_settings_from_file saved in
  (Settings.free_of ":" ip = true -> Settings.free_of ":" port = true ->
   Settings.free_of Settings.CR ip = true -> Settings.free_of Settings.CR port = true ->
     read = ({| Settings.server_ip_address := Some ip;
                Settings.server_port_number := Some port;
                Settings.settings_file :=
                  Some (Settings.write_text p (ip ++ ":" ++ port)) |}, Ok tt)) /\
  (Settings.server_ip_address (fst read) = Some ip ->
   Settings.server_port_number (fst read) = Some port ->
   snd read = Ok tt ->
     Settings.free_of ":" ip = true /\ Settings.free_of ":" port = true /\
     Settings.free_of Settings.CR ip = true /\ Settings.free_of Settings.CR port = true).
Proof.
  intros _ _. cbn zeta. unfold Settings.read_default_server_settings_from_file,
    Settings.save_default_server_settings_to_file.
  cbn [Settings.settings_file Settings.server_port_number Settings.server_ip_address].
  cbn zeta. split.
  - intros Hip Hport Hip' Hport'.
    rewrite read_text_write_text
      by (rewrite !free_of_append, Hip', Hport'; reflexivity).
    change (ip ++ ":" ++ port) with (ip ++ String ":" port).
    rewrite (split_append _ _ _ Hip), (split_free _ _ Hport). reflexivity.
  - set (default := Settings.read_text (Settings.write_text p (ip ++ ":" ++ port))).
    pose proof (split_parts_free ":" ":" default (or_intror eq_refl)) as Hcolon.
    pose proof (split_parts_free ":" Settings.CR default
                  (or_introl (read_text_free Settings.CR _ eq_refl (or_intror eq_refl))))
      as Hreturn.
    destruct (Settings.split ":" default) as [|part [|part' parts]];
      cbn [Settings.item nth_error fst snd Settings.server_ip_address
           Settings.server_port_number];
      [intros _ _ [=] | intros _ _ [=] |].
    intros [= ->] [= ->] _.
    inversion Hcolon as [|? ? Hc1 Hc2]; subst. inversion Hc2 as [|? ? Hc3 _]; subst.
    inversion Hreturn as [|? ? Hr1 Hr2]; subst. inversion Hr2 as [|? ? Hr3 _]; subst.
    auto.
Qed.

Lemma settings_round_trip_witness :
  Settings.read_default_server_settings_from_file
    (Settings.save_default_server_settings_to_file Settings.Windows
       {| Settings.server_ip_address := None; Settings.server_port_number := None;
          Settings.settings_file := None |} "192.168.1.20" "8089")
  = ({| Settings.server_ip_address := Some "192.168.1.20";
        Settings.server_port_number := Some "8089";
        Settings.settings_file := Some "192.168.1.20:8089" |}, Ok tt).
Proof.
  apply (proj1 (settings_round_trip Settings.Windows
                  {| Settings.server_ip_address := None;
                     Settings.server_port_number := None;
                     Settings.settings_file := None |} "192.168.1.20" "8089"
                  eq_refl eq_refl));
    reflexivity.
Defined.

(** X14: a settings file without a colon makes the reading raise
    [IndexError] after the address variable has been overwritten with the
    whole text read from the file (the file itself when it holds no
    carriage return), the port variable being left as it was; without a
    settings file nothing changes. *)
Theorem settings_without_colon (s : Settings.state) :
  (forall text,
      Settings.settings_file s = Some text ->
      Settings.free_of ":" text = true ->
      Settings.read_default_server_settings_from_file s =
      ({| Settings.server_ip_address := Some (Settings.read_text text);
          Settings.server_port_number := Settings.server_port_number s;
          Settings.settings_file := Some text |}, Raise IndexError) /\
      (Settings.free_of Settings.CR text = true -> Settings.read_text text = text)) /\
  (Settings.settings_file s = None ->
     Settings.read_default_server_settings_from_file s = (s, Ok tt)).
Proof.
  unfold Settings.read_default_server_settings_from_file. split.
  - intros text Hfile Hfree. split; [|apply read_text_without_return].
    rewrite Hfile. cbn zeta.
    rewrite (split_free _ _ (read_text_free ":" text eq_refl (or_introl Hfree))).
    reflexivity.
  - intros ->. reflexivity.
Qed.

Lemma settings_without_colon_witness :
  Settings.read_default_server_settings_from_file
    {| Settings.server_ip_address := None; Settings.server_port_number := Some "8089";
       Settings.settings_file := Some "localhost" |}
  = ({| Settings.server_ip_address := Some "localhost";
        Settings.server_port_number := Some "8089";
        Settings.settings_file := Some "localhost" |}, Raise IndexError).
Proof.
  exact (proj1 (proj1 (settings_without_colon
                  {| Settings.server_ip_address := None;
                     Settings.server_port_number := Some "8089";
                     Settings.settings_file := Some "localhost" |})
           "localhost" eq_refl eq_refl)).
Defined.

(** ** Durations of the form *)

Lemma hms_of_day (seconds : Z) :
  (0 <= seconds < 86400)%Z ->
  let '(h, m, s) := Gui.convert_seconds_to_hms seconds in
  (seconds = h * 3600 + m * 60 + s /\
   0 <= h <= 23 /\ 0 <= m <= 59 /\ 0 <= s <= 59)%Z.
Proof.
  intros Hday. unfold Gui.convert_seconds_to_hms. cbn zeta.
  pose proof (Z.div_mod seconds 3600 ltac:(lia)) as H1.
  pose proof (Z.mod_pos_bound seconds 3600 ltac:(lia)) as H2.
  pose proof (Z.div_mod (seconds mod 3600) 60 ltac:(lia)) as H3.
  pose proof (Z.mod_pos_bound (seconds mod 3600) 60 ltac:(lia)) as H4.
  repeat split; try lia.
Qed.

(** X15: [convert_seconds_to_hms] splits any number of seconds, negative
    ones included, into hours, minutes and seconds that add up to it, with
    the minutes and the seconds between 0 and 59; the hours are between 0
    and 23 exactly when the duration is a part of one day. *)
Theorem convert_seconds_to_hms_spec (seconds : Z) :
  let '(h, m, s) := Gui.convert_seconds_to_hms seconds in
  (seconds = h * 3600 + m * 60 + s /\
   0 <= m <= 59 /\ 0 <= s <= 59 /\
   (0 <= h <= 23 <-> 0 <= seconds < 86400))%Z.
Proof.
  unfold Gui.convert_seconds_to_hms. cbn zeta.
  pose proof (Z.div_mod seconds 3600 ltac:(lia)) as H1.
  pose proof (Z.mod_pos_bound seconds 3600 ltac:(lia)) as H2.
  pose proof (Z.div_mod (seconds mod 3600) 60 ltac:(lia)) as H3.
  pose proof (Z.mod_pos_bound (seconds mod 3600) 60 ltac:(lia)) as H4.
  assert (H5 : ((seconds mod 3600) / 60 <= 59)%Z).
  { apply Z.lt_succ_r. apply Z.div_lt_upper_bound; lia. }
  assert (H6 : (0 <= (seconds mod 3600) / 60)%Z) by (apply Z.div_pos; lia).
  repeat split; try lia.
Qed.

Ltac month_table :=
  cbv [nth Z.to_nat Pos.to_nat Pos.iter_op Init.Nat.add] in *.

Lemma valid_time_bounds (t : Gui.time) :
  Gui.valid_time t = true ->
  (0 <= Gui.seconds_of_day t < 86400)%Z.
Proof.
  unfold Gui.valid_time, Gui.seconds_of_day. intros H.
  repeat (apply andb_true_iff in H as (H & ?)).
  lia.
Qed.

Lemma datetime_valid (d : Gui.date) (t : Gui.time) :
  Gui.valid_date d = true -> Gui.valid_time t = true ->
  Gui.datetime_ d t = Gui.Returns {| Gui.on := d; Gui.at_ := t |}.
Proof.
  intros Hd Ht. unfold Gui.datetime_. rewrite Hd, Ht.
  assert (Hc : forallb Gui.is_c_int
                 [Gui.year d; Gui.month d; Gui.day d;
                  Gui.hour t; Gui.minutes t; Gui.seconds t] = true).
  { unfold Gui.valid_date, Gui.valid_time, Gui.MINYEAR, Gui.MAXYEAR in *.
    repeat (apply andb_true_iff in Hd as (Hd & ?)).
    repeat (apply andb_true_iff in Ht as (Ht & ?)).
    assert (Gui.days_in_month (Gui.year d) (Gui.month d) <= 31)%Z.
    { unfold Gui.days_in_month.
      destruct ((Gui.month d =? 2)%Z && Gui.is_leap (Gui.year d)); [lia|].
      assert (Hm : (Gui.month d = 1 \/ Gui.month d = 2 \/ Gui.month d = 3 \/
                    Gui.month d = 4 \/ Gui.month d = 5 \/ Gui.month d = 6 \/
                    Gui.month d = 7 \/ Gui.month d = 8 \/ Gui.month d = 9 \/
                    Gui.month d = 10 \/ Gui.month d = 11 \/ Gui.month d = 12)%Z) by lia.
      repeat (destruct Hm as [->|Hm]; [month_table; lia|]).
      rewrite Hm. month_table. lia. }
    cbn [forallb]. unfold Gui.is_c_int.
    repeat (apply andb_true_iff; split); lia. }
  rewrite Hc. reflexivity.
Qed.

Lemma ymd2ord_bounds (d : Gui.date) :
  Gui.valid_date d = true ->
  (1 <= Gui.ymd2ord (Gui.year d) (Gui.month d) (Gui.day d) <= 4000000)%Z.
Proof.
  unfold Gui.valid_date, Gui.MINYEAR, Gui.MAXYEAR. intros H.
  repeat (apply andb_true_iff in H as (H & ?)).
  unfold Gui.ymd2ord, Gui.days_before_year, Gui.days_before_month, Gui.days_in_month in *.
  assert (Hm : (Gui.month d = 1 \/ Gui.month d = 2 \/ Gui.month d = 3 \/
                Gui.month d = 4 \/ Gui.month d = 5 \/ Gui.month d = 6 \/
                Gui.month d = 7 \/ Gui.month d = 8 \/ Gui.month d = 9 \/
                Gui.month d = 10 \/ Gui.month d = 11 \/ Gui.month d = 12)%Z) by lia.
  pose proof (Z.div_mod (Gui.year d - 1) 4 ltac:(lia)).
  pose proof (Z.mod_pos_bound (Gui.year d - 1) 4 ltac:(lia)).
  pose proof (Z.div_mod (Gui.year d - 1) 100 ltac:(lia)).
  pose proof (Z.mod_pos_bound (Gui.year d - 1) 100 ltac:(lia)).
  pose proof (Z.div_mod (Gui.year d - 1) 400 ltac:(lia)).
  pose proof (Z.mod_pos_bound (Gui.year d - 1) 400 ltac:(lia)).
  destruct (Gui.is_leap (Gui.year d));
    repeat (destruct Hm as [Hm|Hm];
            [rewrite Hm in *; cbn [Z.eqb Z.ltb Pos.eqb Z.compare Pos.compare
                                     Pos.compare_cont andb] in *;
             month_table; lia|]);
    rewrite Hm in *;
    cbn [Z.eqb Z.ltb Pos.eqb Z.compare Pos.compare Pos.compare_cont andb] in *;
    month_table; lia.
Qed.

Lemma datetime_sub_seconds (d1 d2 : Gui.date) (t1 t2 : Gui.time) :
  Gui.valid_date d1 = true -> Gui.valid_time t1 = true ->
  Gui.valid_date d2 = true -> Gui.valid_time t2 = true ->
  exists days,
    Gui.datetime_sub {| Gui.on := d2; Gui.at_ := t2 |} {| Gui.on := d1; Gui.at_ := t1 |} =
    Gui.Returns
      {| Gui.td_days := days;
         Gui.td_seconds :=
           ((Gui.seconds_of_day t2 - Gui.seconds_of_day t1) mod 86400)%Z |}.
Proof.
  intros Hd1 Ht1 Hd2 Ht2.
  unfold Gui.datetime_sub, Gui.timedelta_, Gui.toordinal. cbn [Gui.on Gui.at_].
  pose proof (ymd2ord_bounds _ Hd1) as Ho1.
  pose proof (ymd2ord_bounds _ Hd2) as Ho2.
  pose proof (valid_time_bounds _ Ht1) as Hs1.
  pose proof (valid_time_bounds _ Ht2) as Hs2.
  set (o1 := Gui.ymd2ord (Gui.year d1) (Gui.month d1) (Gui.day d1)) in *.
  set (o2 := Gui.ymd2ord (Gui.year d2) (Gui.month d2) (Gui.day d2)) in *.
  set (diff := (Gui.seconds_of_day t2 - Gui.seconds_of_day t1)%Z) in *.
  assert (Hq : (-1 <= diff / 86400 <= 0)%Z).
  { split.
    - apply Z.div_le_lower_bound; lia.
    - apply Z.lt_succ_r. apply Z.div_lt_upper_bound; lia. }
  assert (Hov : (999999999 <? Z.abs (o2 - o1 + diff / 86400))%Z = false).
  { apply Z.ltb_ge. lia. }
  rewrite Hov. eexists. reflexivity.
Qed.

(** X16: when the start and the stop of the form are valid dates and
    times, [get_duration_in_seconds] returns the difference of the two
    times of day, brought between 0 and 86399: the two dates play no
    part, so a stop on a later day, or before the start, gives the time
    from the start's clock time to the stop's. *)
Theorem duration_ignores_dates (w : Gui.widgets) (d1 d2 : Gui.date) (t1 t2 : Gui.time) :
  Gui.start_date w = Some d1 -> Gui.start_time w = Some t1 ->
  Gui.stop_date w = Some d2 -> Gui.stop_time w = Some t2 ->
  Gui.valid_date d1 = true -> Gui.valid_time t1 = true ->
  Gui.valid_date d2 = true -> Gui.valid_time t2 = true ->
  Gui.get_duration_in_seconds w =
    Gui.Returns ((Gui.seconds_of_day t2 - Gui.seconds_of_day t1) mod 86400)%Z /\
  (0 <= (Gui.seconds_of_day t2 - Gui.seconds_of_day t1) mod 86400 < 86400)%Z.
Proof.
  intros Hsd Hst Hpd Hpt Hd1 Ht1 Hd2 Ht2.
  split; [|apply Z.mod_pos_bound; lia].
  unfold Gui.get_duration_in_seconds, Gui.get_start_dt, Gui.get_stop_dt,
    Gui.get_start_info, Gui.get_stop_info.
  rewrite Hsd, Hst, Hpd, Hpt. cbn [Gui.widget Gui.and_then fst snd].
  rewrite (datetime_valid _ _ Hd1 Ht1), (datetime_valid _ _ Hd2 Ht2).
  cbn [Gui.and_then].
  destruct (datetime_sub_seconds d1 d2 t1 t2 Hd1 Ht1 Hd2 Ht2) as (days & ->).
  reflexivity.
Qed.

Lemma duration_ignores_dates_witness :
  Gui.get_duration_in_seconds
    {| Gui.start_date := Some {| Gui.year := 2023; Gui.month := 12; Gui.day := 31 |};
       Gui.start_time := Some {| Gui.hour := 23; Gui.minutes := 0; Gui.seconds := 0 |};
       Gui.duration := None;
       Gui.stop_date := Some {| Gui.year := 2024; Gui.month := 1; Gui.day := 2 |};
       Gui.stop_time := Some {| Gui.hour := 0; Gui.minutes := 30; Gui.seconds := 0 |} |}
  = Gui.Returns 5400%Z.
Proof.
  match goal with |- Gui.get_duration_in_seconds ?x = _ => set (w := x) end.
  apply (proj1 (duration_ignores_dates w
                  {| Gui.year := 2023; Gui.month := 12; Gui.day := 31 |}
                  {| Gui.year := 2024; Gui.month := 1; Gui.day := 2 |}
                  {| Gui.hour := 23; Gui.minutes := 0; Gui.seconds := 0 |}
                  {| Gui.hour := 0; Gui.minutes := 30; Gui.seconds := 0 |}
                  eq_refl eq_refl eq_refl eq_refl eq_refl eq_refl eq_refl eq_refl)).
Defined.

(** X17: with valid start and stop dates and times and a duration widget
    in place, [update_duration] changes the duration widget alone and
    sets it to hours, minutes and seconds that lie in the ranges of its
    drop-down lists (0 to 23, 0 to 59, 0 to 59) and add up to the duration
    computed; without a duration widget it raises [KeyError]. *)
Theorem update_duration_in_range (w : Gui.widgets) (d1 d2 : Gui.date)
    (t1 t2 : Gui.time) :
  Gui.start_date w = Some d1 -> Gui.start_time w = Some t1 ->
  Gui.stop_date w = Some d2 -> Gui.stop_time w = Some t2 ->
  Gui.valid_date d1 = true -> Gui.valid_time t1 = true ->
  Gui.valid_date d2 = true -> Gui.valid_time t2 = true ->
  (Gui.duration w <> None ->
   exists h m s,
     Gui.update_duration w =
     Gui.Returns {| Gui.start_date := Some d1; Gui.start_time := Some t1;
                    Gui.duration := Some {| Gui.hour := h; Gui.minutes := m;
                                            Gui.seconds := s |};
                    Gui.stop_date := Some d2; Gui.stop_time := Some t2 |} /\
     (0 <= h <= 23 /\ 0 <= m <= 59 /\ 0 <= s <= 59)%Z /\
     Gui.get_duration_in_seconds w = Gui.Returns (h * 3600 + m * 60 + s)%Z) /\
  (Gui.duration w = None -> Gui.update_duration w = Gui.Raises Gui.KeyError).
Proof.
  intros Hsd Hst Hpd Hpt Hd1 Ht1 Hd2 Ht2.
  assert (Hdur : Gui.get_duration_in_seconds w =
                 Gui.Returns ((Gui.seconds_of_day t2 - Gui.seconds_of_day t1)
                              mod 86400)%Z).
  { unfold Gui.get_duration_in_seconds, Gui.get_start_dt, Gui.get_stop_dt,
      Gui.get_start_info, Gui.get_stop_info.
    rewrite Hsd, Hst, Hpd, Hpt. cbn [Gui.widget Gui.and_then fst snd].
    rewrite (datetime_valid _ _ Hd1 Ht1), (datetime_valid _ _ Hd2 Ht2).
    cbn [Gui.and_then].
    destruct (datetime_sub_seconds d1 d2 t1 t2 Hd1 Ht1 Hd2 Ht2) as (days & ->).
    reflexivity. }
  pose proof (hms_of_day
                ((Gui.seconds_of_day t2 - Gui.seconds_of_day t1) mod 86400)
                (Z.mod_pos_bound _ 86400 ltac:(lia))) as Hhms.
  unfold Gui.update_duration. rewrite Hdur. cbn [Gui.and_then].
  destruct (Gui.convert_seconds_to_hms
              ((Gui.seconds_of_day t2 - Gui.seconds_of_day t1) mod 86400))
    as [[h m] s].
  destruct Hhms as (Hsum & Hh & Hm & Hs).
  split.
  - intros Hw. destruct (Gui.duration w) as [old|]; [|contradiction].
    exists h, m, s. cbn [Gui.widget Gui.and_then].
    rewrite Hsd, Hst, Hpd, Hpt. split; [reflexivity|].
    split; [|rewrite <- Hsum; reflexivity].
    repeat split; lia.
  - intros ->. reflexivity.
Qed.

Lemma update_duration_in_range_witness :
  exists h m s,
    Gui.update_duration
      {| Gui.start_date := Some {| Gui.year := 2023; Gui.month := 12; Gui.day := 31 |};
         Gui.start_time := Some {| Gui.hour := 23; Gui.minutes := 0; Gui.seconds := 0 |};
         Gui.duration := Some {| Gui.hour := 0; Gui.minutes := 30; Gui.seconds := 0 |};
         Gui.stop_date := Some {| Gui.year := 2024; Gui.month := 1; Gui.day := 2 |};
         Gui.stop_time := Some {| Gui.hour := 0; Gui.minutes := 30; Gui.seconds := 0 |} |}
    = Gui.Returns
        {| Gui.start_date := Some {| Gui.year := 2023; Gui.month := 12; Gui.day := 31 |};
           Gui.start_time := Some {| Gui.hour := 23; Gui.minutes := 0; Gui.seconds := 0 |};
           Gui.duration := Some {| Gui.hour := h; Gui.minutes := m; Gui.seconds := s |};
           Gui.stop_date := Some {| Gui.year := 2024; Gui.month := 1; Gui.day := 2 |};
           Gui.stop_time := Some {| Gui.hour := 0; Gui.minutes := 30;
                                    Gui.seconds := 0 |} |} /\
    (0 <= h <= 23 /\ 0 <= m <= 59 /\ 0 <= s <= 59)%Z /\
    Gui.get_duration_in_seconds
      {| Gui.start_date := Some {| Gui.year := 2023; Gui.month := 12; Gui.day := 31 |};
         Gui.start_time := Some {| Gui.hour := 23; Gui.minutes := 0; Gui.seconds := 0 |};
         Gui.duration := Some {| Gui.hour := 0; Gui.minutes := 30; Gui.seconds := 0 |};
         Gui.stop_date := Some {| Gui.year := 2024; Gui.month := 1; Gui.day := 2 |};
         Gui.stop_time := Some {| Gui.hour := 0; Gui.minutes := 30; Gui.seconds := 0 |} |}
    = Gui.Returns (h * 3600 + m * 60 + s)%Z.
Proof.
  apply (proj1 (update_duration_in_range
                  {| Gui.start_date :=
                       Some {| Gui.year := 2023; Gui.month := 12; Gui.day := 31 |};
                     Gui.start_time :=
                       Some {| Gui.hour := 23; Gui.minutes := 0; Gui.seconds := 0 |};
                     Gui.duration :=
                       Some {| Gui.hour := 0; Gui.minutes := 30; Gui.seconds := 0 |};
                     Gui.stop_date :=
                       Some {| Gui.year := 2024; Gui.month := 1; Gui.day := 2 |};
                     Gui.stop_time :=
                       Some {| Gui.hour := 0; Gui.minutes := 30; Gui.seconds := 0 |} |}
                  {| Gui.year := 2023; Gui.month := 12; Gui.day := 31 |}
                  {| Gui.year := 2024; Gui.month := 1; Gui.day := 2 |}
                  {| Gui.hour := 23; Gui.minutes := 0; Gui.seconds := 0 |}
                  {| Gui.hour := 0; Gui.minutes := 30; Gui.seconds := 0 |}
                  eq_refl eq_refl eq_refl eq_refl eq_refl eq_refl eq_refl eq_refl)).
  discriminate.
Defined.

(** ** The name of the payload file *)

Lemma none_of_append (p : ascii -> bool) (s t : string) :
  Py.none_of p (s ++ t) = Py.none_of p s && Py.none_of p t.
Proof.
  induction s as [|c s IH]; cbn [append Py.none_of]; [reflexivity|].
  rewrite IH, andb_assoc. reflexivity.
Qed.

Lemma replace_spaces_no_space (s : string) :
  Py.none_of Gui.is_space (Gui.replace_spaces s) = true.
Proof.
  induction s as [|c s IH]; [reflexivity|].
  cbn [Gui.replace_spaces Py.none_of]. rewrite IH, andb_true_r.
  unfold Gui.is_space. destruct (Ascii.eqb c " ") eqn:Hc; [reflexivity|].
  rewrite Hc. reflexivity.
Qed.

Lemma replace_spaces_no_upper (s : string) :
  Py.none_of Py.is_upper s = true ->
  Py.none_of Py.is_upper (Gui.replace_spaces s) = true.
Proof.
  induction s as [|c s IH]; [reflexivity|].
  cbn [Gui.replace_spaces Py.none_of]. intros H.
  apply andb_true_iff in H as (Hc & Hs). rewrite (IH Hs), andb_true_r.
  destruct (Ascii.eqb c " "); [reflexivity | exact Hc].
Qed.

Lemma replace_spaces_length (s : string) :
  String.length (Gui.replace_spaces s) = String.length s.
Proof.
  induction s as [|c s IH]; [reflexivity|].
  cbn [Gui.replace_spaces String.length]. rewrite IH. reflexivity.
Qed.

Lemma lower_ascii_string_length (s : string) :
  String.length (Py.lower_ascii_string s) = String.length s.
Proof.
  induction s as [|c s IH]; [reflexivity|].
  cbn [Py.lower_ascii_string String.length]. rewrite IH. reflexivity.
Qed.

(** X18: the name of the payload file never holds a space or an ASCII
    capital letter, whatever the program and episode names typed in, and
    it ends in ".json"; for ASCII names it is six characters longer than
    the two names together (lowering other text may change its
    length). *)
Theorem payload_file_name_shape `{L : Py.Lower} (program_name episode_name : string) :
  Py.none_of Gui.is_space (Gui.payload_file_name program_name episode_name) = true /\
  Py.none_of Py.is_upper (Gui.payload_file_name program_name episode_name) = true /\
  (exists stem, Gui.payload_file_name program_name episode_name = stem ++ ".json") /\
  (Py.is_ascii program_name = true -> Py.is_ascii episode_name = true ->
   String.length (Gui.payload_file_name program_name episode_name) =
   String.length program_name + String.length episode_name + 6).
Proof.
  unfold Gui.payload_file_name. cbn zeta.
  rewrite !none_of_append, !replace_spaces_no_space.
  rewrite !(replace_spaces_no_upper _ (Py.lower_string_no_upper _)).
  repeat split.
  - exists (Gui.replace_spaces (Py.lower_string program_name) ++ "_" ++
            Gui.replace_spaces (Py.lower_string episode_name)).
    rewrite !append_assoc. reflexivity.
  - intros Hprogram Hepisode.
    rewrite !length_append, !replace_spaces_length.
    rewrite (Py.lower_string_ascii _ Hprogram), (Py.lower_string_ascii _ Hepisode).
    rewrite !lower_ascii_string_length. cbn [String.length]. lia.
Qed.

Lemma payload_file_name_shape_witness :
  String.length (Gui.payload_file_name "Evening News" "Part 1") = 12 + 6 + 6.
Proof.
  exact (proj2 (proj2 (proj2 (payload_file_name_shape "Evening News" "Part 1")))
           eq_refl eq_refl).
Defined.

(** ** The channel listing *)

Section ChannelIndexes.

Variable int_ : json -> option Z.
Variable str_ : json -> string.

Lemma channels_loop_fold (source : json) (channels : list json)
    (acc : Channels.all_channels) :
  Channels.channels_loop int_ str_ source channels acc =
  option_map (fun l => fold_left Channels.add_channel l acc)
             (Channels.channels_of int_ str_ source channels).
Proof.
  revert acc. induction channels as [|channel channels IH]; intros acc; [reflexivity|].
  cbn [Channels.channels_loop Channels.channels_of].
  destruct (Channels.ok (Py.getitem channel "GuideNumber")) as [g|]; [|reflexivity].
  cbn [Channels.then_].
  destruct (int_ g) as [n|]; [|reflexivity]. cbn [Channels.then_].
  destruct (Channels.ok (Py.getitem channel "GuideName")) as [name|]; [|reflexivity].
  cbn [Channels.then_]. rewrite IH.
  destruct (Channels.channels_of int_ str_ source channels); reflexivity.
Qed.

Lemma providers_loop_fold (devices : list json) (acc : Channels.all_channels) :
  Channels.providers_loop int_ str_ devices acc =
  option_map (fun l => fold_left Channels.add_channel l acc)
             (Channels.channels_of_providers int_ str_ devices).
Proof.
  revert acc. induction devices as [|provider devices IH]; intros acc; [reflexivity|].
  cbn [Channels.providers_loop Channels.channels_of_providers].
  destruct (Channels.ok (Py.getitem provider "DeviceID")) as [source|]; [|reflexivity].
  cbn [Channels.then_].
  destruct (Channels.ok (Py.getitem provider "Channels")) as [channels|]; [|reflexivity].
  cbn [Channels.then_].
  destruct (Channels.ok (Py.iter channels)) as [cs|]; [|reflexivity].
  cbn [Channels.then_]. rewrite channels_loop_fold.
  destruct (Channels.channels_of int_ str_ source cs) as [here|]; [|reflexivity].
  cbn [option_map Channels.then_]. rewrite IH.
  destruct (Channels.channels_of_providers int_ str_ devices) as [rest|]; [|reflexivity].
  cbn [option_map Channels.then_]. rewrite fold_left_app. reflexivity.
Qed.

(** [get_channels] indexes the channels of the listing, in their order. *)
Lemma get_channels_index (devices : res json) :
  Channels.get_channels int_ str_ devices =
  option_map Channels.index (Channels.channel_list int_ str_ devices).
Proof.
  unfold Channels.get_channels, Channels.channel_list.
  destruct (Channels.ok devices) as [ds|]; [|reflexivity]. cbn [Channels.then_].
  destruct (Channels.ok (Py.iter ds)) as [l|]; [|reflexivity]. cbn [Channels.then_].
  apply providers_loop_fold.
Qed.

End ChannelIndexes.

Section DictLemmas.

Context {K V : Type} (eqb : K -> K -> bool).
Hypothesis eqb_eq : forall a b, eqb a b = true <-> a = b.

Lemma dict_get_set_same (k : K) (v : V) (d : list (K * V)) :
  Channels.dict_get eqb k (Channels.dict_set eqb k v d) = Some v.
Proof.
  induction d as [|[k' v'] d IH]; cbn [Channels.dict_set Channels.dict_get].
  - rewrite (proj2 (eqb_eq k k) eq_refl). reflexivity.
  - destruct (eqb k k') eqn:He; cbn [Channels.dict_get]; rewrite He; auto.
Qed.

Lemma dict_get_set_other (k k' : K) (v : V) (d : list (K * V)) :
  k <> k' ->
  Channels.dict_get eqb k' (Channels.dict_set eqb k v d) = Channels.dict_get eqb k' d.
Proof.
  intros Hne. induction d as [|[k0 v0] d IH]; cbn [Channels.dict_set Channels.dict_get].
  - destruct (eqb k' k) eqn:He; [|reflexivity].
    apply eqb_eq in He. congruence.
  - destruct (eqb k k0) eqn:He; cbn [Channels.dict_get].
    + apply eqb_eq in He. subst k0.
      destruct (eqb k' k) eqn:He'; [|reflexivity].
      apply eqb_eq in He'. congruence.
    + rewrite IH. reflexivity.
Qed.

End DictLemmas.

Lemma numbers_add_same (acc : Channels.all_channels) (n : Z) (name : string) :
  Channels.dict_get Z.eqb n (Channels.numbers (Channels.add_channel acc (n, name)))
  = Some name.
Proof. apply (dict_get_set_same Z.eqb Z.eqb_eq). Qed.

Lemma numbers_add_other (acc : Channels.all_channels) (n n' : Z) (name : string) :
  n <> n' ->
  Channels.dict_get Z.eqb n' (Channels.numbers (Channels.add_channel acc (n, name)))
  = Channels.dict_get Z.eqb n' (Channels.numbers acc).
Proof. apply (dict_get_set_other Z.eqb Z.eqb_eq). Qed.

Lemma names_add_same (acc : Channels.all_channels) (n : Z) (name : string) :
  Channels.dict_get String.eqb name (Channels.names (Channels.add_channel acc (n, name)))
  = Some n.
Proof. apply (dict_get_set_same String.eqb String.eqb_eq). Qed.

Lemma names_add_other (acc : Channels.all_channels) (n : Z) (name name' : string) :
  name <> name' ->
  Channels.dict_get String.eqb name' (Channels.names (Channels.add_channel acc (n, name)))
  = Channels.dict_get String.eqb name' (Channels.names acc).
Proof. apply (dict_get_set_other String.eqb String.eqb_eq). Qed.

Lemma add_channel_cross_referenced (acc : Channels.all_channels) (channel : Z * string) :
  cross_referenced acc -> cross_referenced (Channels.add_channel acc channel).
Proof.
  destruct channel as [n name]. intros (Hnames & Hnumbers). split.
  - intros name0 n0 H.
    destruct (String.eqb_spec name name0) as [<-|Hne].
    + rewrite names_add_same in H. injection H as <-.
      exists name. apply numbers_add_same.
    + rewrite (names_add_other _ _ _ _ Hne) in H.
      destruct (Hnames _ _ H) as (name' & Hname').
      destruct (Z.eq_dec n n0) as [<-|Hn].
      * exists name. apply numbers_add_same.
      * exists name'. rewrite (numbers_add_other _ _ _ _ Hn). exact Hname'.
  - intros n0 name0 H.
    destruct (Z.eq_dec n n0) as [<-|Hn].
    + rewrite numbers_add_same in H. injection H as <-.
      exists n. apply names_add_same.
    + rewrite (numbers_add_other _ _ _ _ Hn) in H.
      destruct (Hnumbers _ _ H) as (n' & Hn').
      destruct (String.eqb_spec name name0) as [<-|Hne].
      * exists n. apply names_add_same.
      * exists n'. rewrite (names_add_other _ _ _ _ Hne). exact Hn'.
Qed.

Lemma fold_cross_referenced (l : list (Z * string)) (acc : Channels.all_channels) :
  cross_referenced acc -> cross_referenced (fold_left Channels.add_channel l acc).
Proof.
  revert acc. induction l as [|channel l IH]; intros acc H; [exact H|].
  cbn [fold_left]. apply IH, add_channel_cross_referenced, H.
Qed.

(** X19: when the listing is read without an exception, the two indexes
    [get_channels] returns refer to each other: every number found under
    a name is a key of the index by numbers, and every name found under a
    number is a key of the index by names. *)
Theorem channel_indexes_cross_referenced (int_ : json -> option Z) (str_ : json -> string)
    (devices : res json) (c : Channels.all_channels) :
  Channels.get_channels int_ str_ devices = Some c ->
  (forall name n,
      Channels.dict_get String.eqb name (Channels.names c) = Some n ->
      exists name', Channels.dict_get Z.eqb n (Channels.numbers c) = Some name') /\
  (forall n name,
      Channels.dict_get Z.eqb n (Channels.numbers c) = Some name ->
      exists n', Channels.dict_get String.eqb name (Channels.names c) = Some n').
Proof.
  rewrite get_channels_index.
  destruct (Channels.channel_list int_ str_ devices) as [l|]; [|discriminate].
  intros [= <-]. apply fold_cross_referenced.
  split; intros ? ? H; discriminate.
Qed.

Lemma channel_indexes_cross_referenced_witness :
  exists name',
    Channels.dict_get Z.eqb 6002%Z
      (Channels.numbers
         {| Channels.numbers := [(6002%Z, "Pluto Movies (M3U-Pluto)");
                                 (6003%Z, "WNBC (TVE-DIRECTV)")];
            Channels.names := [("WABC (TVE-DIRECTV)", 6002%Z);
                               ("WNBC (TVE-DIRECTV)", 6003%Z);
                               ("Pluto Movies (M3U-Pluto)", 6002%Z)] |})
    = Some name'.
Proof.
  apply (proj1 (channel_indexes_cross_referenced
                  Channels.int_of_digits Channels.text_of (Ok sample_devices) _ eq_refl)
           "WABC (TVE-DIRECTV)" 6002%Z).
  reflexivity.
Defined.

Lemma fold_numbers_kept (l : list (Z * string)) (acc : Channels.all_channels)
    (n : Z) (name : string) :
  ~ In n (map fst l) ->
  Channels.dict_get Z.eqb n (Channels.numbers acc) = Some name ->
  Channels.dict_get Z.eqb n (Channels.numbers (fold_left Channels.add_channel l acc))
  = Some name.
Proof.
  revert acc. induction l as [|[n' name'] l IH]; intros acc Hnot H; [exact H|].
  cbn [fold_left]. cbn [map fst In] in Hnot. apply IH; [tauto|].
  rewrite numbers_add_other; [exact H|]. intros ->. tauto.
Qed.

Lemma fold_names_kept (l : list (Z * string)) (acc : Channels.all_channels)
    (n : Z) (name : string) :
  ~ In name (map snd l) ->
  Channels.dict_get String.eqb name (Channels.names acc) = Some n ->
  Channels.dict_get String.eqb name (Channels.names (fold_left Channels.add_channel l acc))
  = Some n.
Proof.
  revert acc. induction l as [|[n' name'] l IH]; intros acc Hnot H; [exact H|].
  cbn [fold_left]. cbn [map snd In] in Hnot. apply IH; [tauto|].
  rewrite names_add_other; [exact H|]. intros ->. tauto.
Qed.

(** X20: [get_channels] raises exactly when reading the listing does;
    otherwise, for each channel of the listing, the index by numbers gives
    its name unless a later channel has the same number, and the index by
    names gives its number unless a later channel has the same name: of
    two sources that carry one channel number, the later one is the one
    found under that number. *)
Theorem later_channel_overwrites (int_ : json -> option Z) (str_ : json -> string)
    (devices : res json) :
  (Channels.channel_list int_ str_ devices = None ->
     Channels.get_channels int_ str_ devices = None) /\
  (forall (before after : list (Z * string)) (n : Z) (name : string),
      Channels.channel_list int_ str_ devices
      = Some (before ++ (n, name) :: after)%list ->
      exists c,
        Channels.get_channels int_ str_ devices = Some c /\
        (~ In n (map fst after) ->
           Channels.dict_get Z.eqb n (Channels.numbers c) = Some name) /\
        (~ In name (map snd after) ->
           Channels.dict_get String.eqb name (Channels.names c) = Some n)).
Proof.
  rewrite get_channels_index. split.
  - intros ->. reflexivity.
  - intros before after n name ->. eexists. split; [reflexivity|].
    unfold Channels.index. rewrite fold_left_app. cbn [fold_left]. split.
    + intros Hnot. apply fold_numbers_kept; [exact Hnot|apply numbers_add_same].
    + intros Hnot. apply fold_names_kept; [exact Hnot|apply names_add_same].
Qed.

Lemma later_channel_overwrites_witness :
  exists c,
    Channels.get_channels Channels.int_of_digits Channels.text_of (Ok sample_devices)
    = Some c /\
    (~ In 6002%Z (map fst (@nil (Z * string))) ->
       Channels.dict_get Z.eqb 6002%Z (Channels.numbers c)
       = Some "Pluto Movies (M3U-Pluto)") /\
    (~ In "Pluto Movies (M3U-Pluto)" (map snd (@nil (Z * string))) ->
       Channels.dict_get String.eqb "Pluto Movies (M3U-Pluto)" (Channels.names c)
       = Some 6002%Z).
Proof.
  apply (proj2 (later_channel_overwrites Channels.int_of_digits Channels.text_of
                  (Ok sample_devices))
           [(6002%Z, "WABC (TVE-DIRECTV)"); (6003%Z, "WNBC (TVE-DIRECTV)")] []
           6002%Z "Pluto Movies (M3U-Pluto)").
  reflexivity.
Defined.

Lemma fold_numbers_from (l : list (Z * string)) (acc : Channels.all_channels)
    (n : Z) (name : string) :
  Channels.dict_get Z.eqb n (Channels.numbers (fold_left Channels.add_channel l acc))
  = Some name ->
  In (n, name) l \/ Channels.dict_get Z.eqb n (Channels.numbers acc) = Some name.
Proof.
  revert acc. induction l as [|[n' name'] l IH]; intros acc H; [right; exact H|].
  cbn [fold_left] in H. destruct (IH _ H) as [Hin|Hacc].
  - left. right. exact Hin.
  - destruct (Z.eq_dec n' n) as [->|Hne].
    + rewrite numbers_add_same in Hacc. injection Hacc as ->. left. left. reflexivity.
    + rewrite (numbers_add_other _ _ _ _ Hne) in Hacc. right. exact Hacc.
Qed.

Lemma fold_names_from (l : list (Z * string)) (acc : Channels.all_channels)
    (n : Z) (name : string) :
  Channels.dict_get String.eqb name (Channels.names (fold_left Channels.add_channel l acc))
  = Some n ->
  In (n, name) l \/ Channels.dict_get String.eqb name (Channels.names acc) = Some n.
Proof.
  revert acc. induction l as [|[n' name'] l IH]; intros acc H; [right; exact H|].
  cbn [fold_left] in H. destruct (IH _ H) as [Hin|Hacc].
  - left. right. exact Hin.
  - destruct (String.eqb_spec name' name) as [->|Hne].
    + rewrite names_add_same in Hacc. injection Hacc as ->. left. left. reflexivity.
    + rewrite (names_add_other _ _ _ _ Hne) in Hacc. right. exact Hacc.
Qed.

Lemma NoDup_map_split {A B : Type} (f : A -> B) (before after : list A) (x : A) :
  NoDup (map f (before ++ x :: after)) -> ~ In (f x) (map f after).
Proof.
  rewrite map_app. cbn [map]. intros H. apply NoDup_remove_2 in H.
  intros Hin. apply H, in_or_app. right. exact Hin.
Qed.

(** X21: when the channels of the listing have distinct numbers and
    distinct names, the two indexes are inverse of each other and hold
    the channels of the listing and nothing else: a number leads to a name
    exactly when the name leads to the number, exactly when the listing
    has that channel. *)
Theorem distinct_channels_round_trip (int_ : json -> option Z) (str_ : json -> string)
    (devices : res json) (l : list (Z * string)) :
  Channels.channel_list int_ str_ devices = Some l ->
  NoDup (map fst l) -> NoDup (map snd l) ->
  exists c,
    Channels.get_channels int_ str_ devices = Some c /\
    forall n name,
      (In (n, name) l <-> Channels.dict_get Z.eqb n (Channels.numbers c) = Some name) /\
      (In (n, name) l <-> Channels.dict_get String.eqb name (Channels.names c) = Some n).
Proof.
  intros Hl Hnumbers Hnames. rewrite get_channels_index, Hl.
  eexists. split; [reflexivity|]. intros n name. unfold Channels.index. split; split.
  - intros Hin. apply in_split in Hin as (before & after & ->).
    rewrite fold_left_app. cbn [fold_left].
    apply fold_numbers_kept; [|apply numbers_add_same].
    apply (NoDup_map_split fst before after (n, name) Hnumbers).
  - intros H. apply fold_numbers_from in H as [H|H]; [exact H|discriminate].
  - intros Hin. apply in_split in Hin as (before & after & ->).
    rewrite fold_left_app. cbn [fold_left].
    apply fold_names_kept; [|apply names_add_same].
    apply (NoDup_map_split snd before after (n, name) Hnames).
  - intros H. apply fold_names_from in H as [H|H]; [exact H|discriminate].
Qed.

Lemma distinct_channels_round_trip_witness :
  exists c,
    Channels.get_channels Channels.int_of_digits Channels.text_of (Ok sample_source)
    = Some c /\
    forall n name,
      (In (n, name) [(6002%Z, "WABC (TVE-DIRECTV)"); (6003%Z, "WNBC (TVE-DIRECTV)")] <->
       Channels.dict_get Z.eqb n (Channels.numbers c) = Some name) /\
      (In (n, name) [(6002%Z, "WABC (TVE-DIRECTV)"); (6003%Z, "WNBC (TVE-DIRECTV)")] <->
       Channels.dict_get String.eqb name (Channels.names c) = Some n).
Proof.
  apply (distinct_channels_round_trip Channels.int_of_digits Channels.text_of
           (Ok sample_source)
           [(6002%Z, "WABC (TVE-DIRECTV)"); (6003%Z, "WNBC (TVE-DIRECTV)")] eq_refl).
  - repeat constructor; cbn; intuition discriminate.
  - repeat constructor; cbn; intuition discriminate.
Defined.

(** ** Dates of the form *)

Lemma month_day_table :
  forallb (fun k => month_day_ok true (Z.of_nat k)) (seq 0 366) &&
  forallb (fun k => month_day_ok false (Z.of_nat k)) (seq 0 365) = true.
Proof. vm_compute. reflexivity. Qed.

Lemma month_day_checked (leapyear : bool) (n : Z) :
  (0 <= n < 365)%Z -> month_day_ok leapyear n = true.
Proof.
  intros Hn. pose proof month_day_table as H.
  apply andb_true_iff in H as (Hleap & Hcommon).
  rewrite forallb_forall in Hleap, Hcommon.
  replace n with (Z.of_nat (Z.to_nat n)) by lia.
  destruct leapyear; [apply Hleap|apply Hcommon]; apply in_seq; lia.
Qed.

Lemma is_leap_decomposed (n400 n100 n4 n1 : Z) :
  (0 <= n400 -> 0 <= n100 <= 3 -> 0 <= n4 <= 24 -> 0 <= n1 <= 3 ->
   Gui.is_leap (n400 * 400 + 1 + n100 * 100 + n4 * 4 + n1) =
   (n1 =? 3) && (negb (n4 =? 24) || (n100 =? 3)))%Z.
Proof.
  intros H400 H100 H4 H1. unfold Gui.is_leap.
  set (y := (n400 * 400 + 1 + n100 * 100 + n4 * 4 + n1)%Z).
  assert (Hy4 : (y mod 4 = (n1 + 1) mod 4)%Z).
  { unfold y. replace (n400 * 400 + 1 + n100 * 100 + n4 * 4 + n1)%Z
      with ((n1 + 1) + (n400 * 100 + n100 * 25 + n4) * 4)%Z by lia.
    apply Z.mod_add. lia. }
  assert (Hy100 : (y mod 100 = n4 * 4 + n1 + 1 \/
                   (n4 = 24 /\ n1 = 3 /\ y mod 100 = 0))%Z).
  { destruct (Z.eq_dec (n4 * 4 + n1 + 1) 100) as [He|Hne].
    - right. repeat split; try lia. unfold y.
      replace (n400 * 400 + 1 + n100 * 100 + n4 * 4 + n1)%Z
        with (0 + (n400 * 4 + n100 + 1) * 100)%Z by lia.
      rewrite Z.mod_add by lia. reflexivity.
    - left. unfold y.
      replace (n400 * 400 + 1 + n100 * 100 + n4 * 4 + n1)%Z
        with ((n4 * 4 + n1 + 1) + (n400 * 4 + n100) * 100)%Z by lia.
      rewrite Z.mod_add by lia. apply Z.mod_small. lia. }
  assert (Hy400 : (y mod 400 = n100 * 100 + n4 * 4 + n1 + 1 \/
                   (n100 = 3 /\ n4 = 24 /\ n1 = 3 /\ y mod 400 = 0))%Z).
  { destruct (Z.eq_dec (n100 * 100 + n4 * 4 + n1 + 1) 400) as [He|Hne].
    - right. repeat split; try lia. unfold y.
      replace (n400 * 400 + 1 + n100 * 100 + n4 * 4 + n1)%Z
        with (0 + (n400 + 1) * 400)%Z by lia.
      rewrite Z.mod_add by lia. reflexivity.
    - left. unfold y.
      replace (n400 * 400 + 1 + n100 * 100 + n4 * 4 + n1)%Z
        with ((n100 * 100 + n4 * 4 + n1 + 1) + n400 * 400)%Z by lia.
      rewrite Z.mod_add by lia. apply Z.mod_small. lia. }
  assert (H14 : ((n1 + 1) mod 4 = 0 <-> n1 = 3)%Z).
  { split.
    - intros H. assert (n1 = 0 \/ n1 = 1 \/ n1 = 2 \/ n1 = 3)%Z as [-> | [-> | [-> | ->]]] by lia;
        cbn in H; lia.
    - intros ->. reflexivity. }
  rewrite Hy4.
  destruct (Z.eqb_spec ((n1 + 1) mod 4) 0) as [E4|E4];
    destruct (Z.eqb_spec n1 3) as [E1|E1]; try (apply H14 in E4; lia);
    try (exfalso; apply E4, H14, E1); cbn [andb]; [|reflexivity].
  pose proof (Z.mod_pos_bound y 100 ltac:(lia)) as B100.
  pose proof (Z.mod_pos_bound y 400 ltac:(lia)) as B400.
  destruct (Z.eqb_spec (y mod 100) 0) as [E100|E100];
    destruct (Z.eqb_spec n4 24) as [E24|E24]; cbn [negb orb];
    try reflexivity; try (exfalso; lia).
  destruct (Z.eqb_spec (y mod 400) 0) as [E400|E400];
    destruct (Z.eqb_spec n100 3) as [E3|E3]; try reflexivity; exfalso; lia.
Qed.

Lemma days_before_year_decomposed (n400 n100 n4 n1 : Z) :
  (0 <= n400 -> 0 <= n100 <= 3 -> 0 <= n4 <= 24 -> 0 <= n1 <= 3 ->
   Gui.days_before_year (n400 * 400 + 1 + n100 * 100 + n4 * 4 + n1) =
   n400 * 146097 + n100 * 36524 + n4 * 1461 + n1 * 365)%Z.
Proof.
  intros H400 H100 H4 H1. unfold Gui.days_before_year. cbn zeta.
  replace (n400 * 400 + 1 + n100 * 100 + n4 * 4 + n1 - 1)%Z
    with (n400 * 400 + n100 * 100 + n4 * 4 + n1)%Z by lia.
  set (z := (n400 * 400 + n100 * 100 + n4 * 4 + n1)%Z).
  assert (Hq4 : (z / 4 = n400 * 100 + n100 * 25 + n4)%Z).
  { symmetry. apply (Z.div_unique z 4 _ n1); unfold z; lia. }
  assert (Hq100 : (z / 100 = n400 * 4 + n100)%Z).
  { symmetry. apply (Z.div_unique z 100 _ (n4 * 4 + n1)); unfold z; lia. }
  assert (Hq400 : (z / 400 = n400)%Z).
  { symmetry. apply (Z.div_unique z 400 _ (n100 * 100 + n4 * 4 + n1)); unfold z; lia. }
  rewrite Hq4, Hq100, Hq400. unfold z. lia.
Qed.

(** [ord2ymd] gives a valid date, and [ymd2ord] leads back from it. *)
Lemma ord2ymd_spec (n : Z) :
  (1 <= n <= 3652059)%Z ->
  Gui.valid_date (Gui.ord2ymd n) = true /\
  Gui.ymd2ord (Gui.year (Gui.ord2ymd n)) (Gui.month (Gui.ord2ymd n))
    (Gui.day (Gui.ord2ymd n)) = n.
Proof.
  intros Hn. unfold Gui.ord2ymd. cbn zeta.
  pose proof (Z.div_mod (n - 1) 146097 ltac:(lia)) as E400.
  pose proof (Z.mod_pos_bound (n - 1) 146097 ltac:(lia)) as B400.
  set (q400 := ((n - 1) / 146097)%Z) in *.
  set (r400 := ((n - 1) mod 146097)%Z) in *.
  pose proof (Z.div_mod r400 36524 ltac:(lia)) as E100.
  pose proof (Z.mod_pos_bound r400 36524 ltac:(lia)) as B100.
  set (q100 := (r400 / 36524)%Z) in *.
  set (r100 := (r400 mod 36524)%Z) in *.
  pose proof (Z.div_mod r100 1461 ltac:(lia)) as E4.
  pose proof (Z.mod_pos_bound r100 1461 ltac:(lia)) as B4.
  set (q4 := (r100 / 1461)%Z) in *.
  set (r4 := (r100 mod 1461)%Z) in *.
  pose proof (Z.div_mod r4 365 ltac:(lia)) as E1.
  pose proof (Z.mod_pos_bound r4 365 ltac:(lia)) as B1.
  set (q1 := (r4 / 365)%Z) in *.
  set (r1 := (r4 mod 365)%Z) in *.
  assert (R400 : (0 <= q400 <= 24)%Z) by lia.
  assert (R100 : (0 <= q100 <= 4)%Z) by lia.
  assert (R4 : (0 <= q4 <= 24)%Z) by lia.
  assert (R1 : (0 <= q1 <= 4)%Z) by lia.
  destruct ((q1 =? 4)%Z || (q100 =? 4)%Z) eqn:Hlast.
  - (* the last day of a leap year *)
    assert (Hyear : exists n100 n4,
               (0 <= n100 <= 3 /\ 0 <= n4 <= 24 /\
                (n4 <> 24 \/ n100 = 3) /\
                q400 * 400 + 1 + q100 * 100 + q4 * 4 + q1 - 1 =
                q400 * 400 + 1 + n100 * 100 + n4 * 4 + 3 /\
                n - 366 = q400 * 146097 + n100 * 36524 + n4 * 1461 + 3 * 365)%Z).
    { apply orb_true_iff in Hlast as [H|H]; apply Z.eqb_eq in H.
      - exists q100, q4. lia.
      - exists 3%Z, 24%Z. lia. }
    destruct Hyear as (n100 & n4 & H100 & H4 & Hleap & -> & Hdays).
    cbn [Gui.year Gui.month Gui.day].
    assert (Hisleap : Gui.is_leap (q400 * 400 + 1 + n100 * 100 + n4 * 4 + 3) = true).
    { rewrite is_leap_decomposed by lia. cbn [Z.eqb Pos.eqb andb].
      destruct Hleap as [Hne| ->].
      - apply Z.eqb_neq in Hne. rewrite Hne. reflexivity.
      - rewrite orb_true_r. reflexivity. }
    split.
    + unfold Gui.valid_date, Gui.days_in_month, Gui.MINYEAR, Gui.MAXYEAR.
      cbn [Gui.year Gui.month Gui.day]. month_table.
      repeat (apply andb_true_iff; split); try reflexivity; apply Z.leb_le; lia.
    + unfold Gui.ymd2ord, Gui.days_before_month.
      rewrite Hisleap, days_before_year_decomposed by lia. month_table.
      cbn [Z.ltb Z.compare Pos.compare Pos.compare_cont andb]. lia.
  - (* any other day *)
    apply orb_false_iff in Hlast as (H1 & H100).
    apply Z.eqb_neq in H1, H100.
    pose proof (month_day_checked
                  ((q1 =? 3)%Z && (negb (q4 =? 24)%Z || (q100 =? 3)%Z)) r1 B1) as Hmd.
    unfold month_day_ok in Hmd.
    rewrite <- (is_leap_decomposed q400 q100 q4 q1) in * by lia.
    set (y := (q400 * 400 + 1 + q100 * 100 + q4 * 4 + q1)%Z) in *.
    destruct (Gui.month_day (Gui.is_leap y) r1) as [m d].
    cbn [Gui.year Gui.month Gui.day].
    repeat (apply andb_true_iff in Hmd as (Hmd & ?)).
    split.
    + unfold Gui.valid_date, Gui.days_in_month, Gui.MINYEAR, Gui.MAXYEAR.
      cbn [Gui.year Gui.month Gui.day].
      repeat (apply andb_true_iff; split); try assumption; apply Z.leb_le; unfold y; lia.
    + unfold Gui.ymd2ord, Gui.days_before_month. unfold y at 1.
      rewrite days_before_year_decomposed by lia. fold y. lia.
Qed.

Lemma ymd2ord_before_last_year (d : Gui.date) :
  Gui.valid_date d = true -> (Gui.year d <= 9998)%Z ->
  (1 <= Gui.ymd2ord (Gui.year d) (Gui.month d) (Gui.day d) <= 3652058)%Z.
Proof.
  unfold Gui.valid_date, Gui.MINYEAR, Gui.MAXYEAR. intros H Hy.
  repeat (apply andb_true_iff in H as (H & ?)).
  unfold Gui.ymd2ord, Gui.days_before_year, Gui.days_before_month, Gui.days_in_month in *.
  assert (Hm : (Gui.month d = 1 \/ Gui.month d = 2 \/ Gui.month d = 3 \/
                Gui.month d = 4 \/ Gui.month d = 5 \/ Gui.month d = 6 \/
                Gui.month d = 7 \/ Gui.month d = 8 \/ Gui.month d = 9 \/
                Gui.month d = 10 \/ Gui.month d = 11 \/ Gui.month d = 12)%Z) by lia.
  pose proof (Z.div_mod (Gui.year d - 1) 4 ltac:(lia)).
  pose proof (Z.mod_pos_bound (Gui.year d - 1) 4 ltac:(lia)).
  pose proof (Z.div_mod (Gui.year d - 1) 100 ltac:(lia)).
  pose proof (Z.mod_pos_bound (Gui.year d - 1) 100 ltac:(lia)).
  pose proof (Z.div_mod (Gui.year d - 1) 400 ltac:(lia)).
  pose proof (Z.mod_pos_bound (Gui.year d - 1) 400 ltac:(lia)).
  destruct (Gui.is_leap (Gui.year d));
    repeat (destruct Hm as [Hm|Hm];
            [rewrite Hm in *; cbn [Z.eqb Z.ltb Pos.eqb Z.compare Pos.compare
                                     Pos.compare_cont andb] in *;
             month_table; lia|]);
    rewrite Hm in *;
    cbn [Z.eqb Z.ltb Pos.eqb Z.compare Pos.compare Pos.compare_cont andb] in *;
    month_table; lia.
Qed.

Lemma timedelta_normalized (days seconds : Z) :
  (Z.abs (days + seconds / 86400) <= 999999999)%Z ->
  Gui.timedelta_ days seconds =
  Gui.Returns {| Gui.td_days := (days + seconds / 86400)%Z;
                 Gui.td_seconds := (seconds mod 86400)%Z |}.
Proof.
  intros H. unfold Gui.timedelta_. cbn zeta.
  destruct (Z.ltb_spec 999999999 (Z.abs (days + seconds / 86400))); [lia|reflexivity].
Qed.

(** The time of day made of a number of seconds of one day. *)
Lemma time_of_seconds (s : Z) :
  (0 <= s < 86400)%Z ->
  Gui.valid_time {| Gui.hour := (s / 3600)%Z;
                    Gui.minutes := (s mod 3600 / 60)%Z;
                    Gui.seconds := (s mod 3600 mod 60)%Z |} = true /\
  Gui.seconds_of_day {| Gui.hour := (s / 3600)%Z;
                        Gui.minutes := (s mod 3600 / 60)%Z;
                        Gui.seconds := (s mod 3600 mod 60)%Z |} = s.
Proof.
  intros Hs.
  pose proof (hms_of_day s Hs) as H. unfold Gui.convert_seconds_to_hms in H.
  cbn zeta in H. destruct H as (Hsum & Hh & Hm & Hsec).
  unfold Gui.valid_time, Gui.seconds_of_day.
  cbn [Gui.hour Gui.minutes Gui.seconds]. split; [|lia].
  repeat (apply andb_true_iff; split); apply Z.leb_le; lia.
Qed.

(** The hours, minutes and seconds of a valid time are those of its
    number of seconds. *)
Lemma hms_of_valid_time (t : Gui.time) :
  Gui.valid_time t = true ->
  Gui.convert_seconds_to_hms (Gui.seconds_of_day t) =
  (Gui.hour t, Gui.minutes t, Gui.seconds t).
Proof.
  unfold Gui.valid_time, Gui.seconds_of_day, Gui.convert_seconds_to_hms. intros H.
  repeat (apply andb_true_iff in H as (H & ?)). cbn zeta.
  set (s := (Gui.seconds t + Gui.minutes t * 60 + Gui.hour t * 3600)%Z).
  assert (Hq : (s / 3600 = Gui.hour t)%Z).
  { symmetry. apply (Z.div_unique s 3600 _ (Gui.seconds t + Gui.minutes t * 60));
      unfold s; lia. }
  assert (Hr : (s mod 3600 = Gui.seconds t + Gui.minutes t * 60)%Z).
  { symmetry. apply (Z.mod_unique s 3600 (Gui.hour t)); unfold s; lia. }
  rewrite Hq, Hr.
  assert (Hq' : ((Gui.seconds t + Gui.minutes t * 60) / 60 = Gui.minutes t)%Z).
  { symmetry. apply (Z.div_unique _ 60 _ (Gui.seconds t)); lia. }
  assert (Hr' : ((Gui.seconds t + Gui.minutes t * 60) mod 60 = Gui.seconds t)%Z).
  { symmetry. apply (Z.mod_unique _ 60 (Gui.minutes t)); lia. }
  rewrite Hq', Hr'. reflexivity.
Qed.

(** What [update_stop_date_and_time] computes from a valid start and a
    duration of less than a day. *)
Lemma stop_of_start (d1 : Gui.date) (t1 dur : Gui.time) :
  Gui.valid_date d1 = true -> Gui.valid_time t1 = true -> Gui.valid_time dur = true ->
  (Gui.year d1 <= 9998)%Z ->
  exists d2 t2,
    Gui.and_then (Gui.datetime_ d1 t1) (fun start_dt =>
    Gui.and_then (Gui.timedelta_of dur) (fun duration_dt =>
    Gui.datetime_add start_dt duration_dt))
    = Gui.Returns {| Gui.on := d2; Gui.at_ := t2 |} /\
    Gui.valid_date d2 = true /\ Gui.valid_time t2 = true /\
    (Gui.ymd2ord (Gui.year d2) (Gui.month d2) (Gui.day d2) * 86400
     + Gui.seconds_of_day t2 =
     Gui.ymd2ord (Gui.year d1) (Gui.month d1) (Gui.day d1) * 86400
     + Gui.seconds_of_day t1 + Gui.seconds_of_day dur)%Z.
Proof.
  intros Hd1 Ht1 Hdur Hy.
  pose proof (ymd2ord_before_last_year _ Hd1 Hy) as Ho.
  pose proof (valid_time_bounds _ Ht1) as Hs1.
  pose proof (valid_time_bounds _ Hdur) as Hsd.
  rewrite (datetime_valid _ _ Hd1 Ht1). cbn [Gui.and_then].
  unfold Gui.timedelta_of, Gui.datetime_add, Gui.toordinal. cbn [Gui.on Gui.at_].
  set (o1 := Gui.ymd2ord (Gui.year d1) (Gui.month d1) (Gui.day d1)) in *.
  set (s1 := Gui.seconds_of_day t1) in *.
  replace (Gui.hour dur * 3600 + Gui.minutes dur * 60 + Gui.seconds dur)%Z
    with (Gui.seconds_of_day dur) by (unfold Gui.seconds_of_day; lia).
  set (D := Gui.seconds_of_day dur) in *.
  assert (HD0 : (D / 86400 = 0)%Z) by (apply Z.div_small; lia).
  assert (HDm : (D mod 86400 = D)%Z) by (apply Z.mod_small; lia).
  assert (Hs0 : (s1 / 86400 = 0)%Z) by (apply Z.div_small; lia).
  assert (Hsm : (s1 mod 86400 = s1)%Z) by (apply Z.mod_small; lia).
  rewrite (timedelta_normalized 0 D) by (rewrite HD0; lia).
  cbn [Gui.and_then].
  rewrite (timedelta_normalized o1 s1) by (rewrite Hs0; lia).
  cbn [Gui.and_then Gui.td_days Gui.td_seconds].
  rewrite HD0, HDm, Hs0, Hsm.
  pose proof (Z.div_mod (s1 + D) 86400 ltac:(lia)) as Esum.
  pose proof (Z.mod_pos_bound (s1 + D) 86400 ltac:(lia)) as Bsum.
  assert (Hq : (0 <= (s1 + D) / 86400 <= 1)%Z) by lia.
  match goal with
  | |- context [Gui.timedelta_ ?a ?b] =>
      replace a with o1 by lia; replace b with (s1 + D)%Z by lia
  end.
  rewrite (timedelta_normalized o1 (s1 + D)) by lia.
  cbn [Gui.and_then Gui.td_days Gui.td_seconds].
  set (o2 := (o1 + (s1 + D) / 86400)%Z) in *.
  set (s2 := ((s1 + D) mod 86400)%Z) in *.
  assert (Hrange : (0 <? o2)%Z && (o2 <=? Gui.MAXORDINAL)%Z = true).
  { unfold Gui.MAXORDINAL. apply andb_true_iff. split;
      [apply Z.ltb_lt|apply Z.leb_le]; unfold o2; lia. }
  rewrite Hrange.
  destruct (ord2ymd_spec o2 ltac:(unfold o2; lia)) as (Hvalid & Hback).
  destruct (time_of_seconds s2 Bsum) as (Htime & Hsec).
  eexists _, _. split; [reflexivity|].
  split; [exact Hvalid|]. split; [exact Htime|].
  rewrite Hback, Hsec. unfold o2, s2. lia.
Qed.

(** X22: with the five widgets in place, a valid start before the year
    9999 and a duration within the ranges of its drop-down lists,
    [update_stop_date_and_time] changes the stop widgets alone and sets
    them to a valid date and time that lie the duration after the start;
    [get_duration_in_seconds] then returns the duration entered and
    [update_duration] leaves every widget as it is. *)
Theorem stop_follows_duration (w : Gui.widgets) (d1 old_date : Gui.date)
    (t1 dur old_time : Gui.time) :
  Gui.start_date w = Some d1 -> Gui.start_time w = Some t1 ->
  Gui.duration w = Some dur ->
  Gui.stop_date w = Some old_date -> Gui.stop_time w = Some old_time ->
  Gui.valid_date d1 = true -> Gui.valid_time t1 = true -> Gui.valid_time dur = true ->
  (Gui.year d1 <= 9998)%Z ->
  exists d2 t2,
    let w' := {| Gui.start_date := Some d1; Gui.start_time := Some t1;
                 Gui.duration := Some dur;
                 Gui.stop_date := Some d2; Gui.stop_time := Some t2 |} in
    Gui.update_stop_date_and_time w = Gui.Returns w' /\
    Gui.valid_date d2 = true /\ Gui.valid_time t2 = true /\
    (Gui.ymd2ord (Gui.year d2) (Gui.month d2) (Gui.day d2) * 86400
     + Gui.seconds_of_day t2 =
     Gui.ymd2ord (Gui.year d1) (Gui.month d1) (Gui.day d1) * 86400
     + Gui.seconds_of_day t1 + Gui.seconds_of_day dur)%Z /\
    Gui.get_duration_in_seconds w' = Gui.Returns (Gui.seconds_of_day dur) /\
    Gui.update_duration w' = Gui.Returns w'.
Proof.
  intros Hsd Hst Hdw Hpd Hpt Hd1 Ht1 Hdur Hy.
  destruct (stop_of_start d1 t1 dur Hd1 Ht1 Hdur Hy)
    as (d2 & t2 & Hstop & Hd2 & Ht2 & Hline).
  exists d2, t2. cbn zeta.
  pose proof (valid_time_bounds _ Ht1) as Hs1.
  pose proof (valid_time_bounds _ Ht2) as Hs2.
  pose proof (valid_time_bounds _ Hdur) as Hsdur.
  assert (Hduration :
            Gui.get_duration_in_seconds
              {| Gui.start_date := Some d1; Gui.start_time := Some t1;
                 Gui.duration := Some dur;
                 Gui.stop_date := Some d2; Gui.stop_time := Some t2 |}
            = Gui.Returns (Gui.seconds_of_day dur)).
  { unfold Gui.get_duration_in_seconds, Gui.get_start_dt, Gui.get_stop_dt,
      Gui.get_start_info, Gui.get_stop_info.
    cbn [Gui.start_date Gui.start_time Gui.stop_date Gui.stop_time
         Gui.widget Gui.and_then fst snd].
    rewrite (datetime_valid _ _ Hd1 Ht1), (datetime_valid _ _ Hd2 Ht2).
    cbn [Gui.and_then].
    destruct (datetime_sub_seconds d1 d2 t1 t2 Hd1 Ht1 Hd2 Ht2) as (days & ->).
    cbn [Gui.and_then Gui.td_seconds]. f_equal.
    symmetry.
    apply (Z.mod_unique _ 86400
             (Gui.ymd2ord (Gui.year d1) (Gui.month d1) (Gui.day d1)
              - Gui.ymd2ord (Gui.year d2) (Gui.month d2) (Gui.day d2))); lia. }
  repeat split; try assumption.
  - unfold Gui.update_stop_date_and_time. rewrite Hsd, Hst, Hdw, Hpd, Hpt.
    destruct (Gui.datetime_ d1 t1) as [start_dt|e]; [|discriminate].
    cbn [Gui.and_then] in *.
    destruct (Gui.timedelta_of dur) as [duration_dt|e]; [|discriminate].
    cbn [Gui.and_then] in *. rewrite Hstop. reflexivity.
  - unfold Gui.update_duration. rewrite Hduration. cbn [Gui.and_then].
    rewrite (hms_of_valid_time _ Hdur). cbn [Gui.duration Gui.widget Gui.and_then
      Gui.start_date Gui.start_time Gui.stop_date Gui.stop_time].
    destruct dur. reflexivity.
Qed.

Lemma stop_follows_duration_witness :
  exists d2 t2,
    let w' :=
      {| Gui.start_date := Some {| Gui.year := 2023; Gui.month := 12; Gui.day := 31 |};
         Gui.start_time := Some {| Gui.hour := 23; Gui.minutes := 45; Gui.seconds := 0 |};
         Gui.duration := Some {| Gui.hour := 0; Gui.minutes := 30; Gui.seconds := 0 |};
         Gui.stop_date := Some d2; Gui.stop_time := Some t2 |} in
    Gui.update_stop_date_and_time
      {| Gui.start_date := Some {| Gui.year := 2023; Gui.month := 12; Gui.day := 31 |};
         Gui.start_time := Some {| Gui.hour := 23; Gui.minutes := 45; Gui.seconds := 0 |};
         Gui.duration := Some {| Gui.hour := 0; Gui.minutes := 30; Gui.seconds := 0 |};
         Gui.stop_date := Some {| Gui.year := 2023; Gui.month := 12; Gui.day := 31 |};
         Gui.stop_time := Some {| Gui.hour := 23; Gui.minutes := 30; Gui.seconds := 0 |} |}
    = Gui.Returns w' /\
    Gui.valid_date d2 = true /\ Gui.valid_time t2 = true /\
    (Gui.ymd2ord (Gui.year d2) (Gui.month d2) (Gui.day d2) * 86400
     + Gui.seconds_of_day t2 =
     Gui.ymd2ord 2023 12 31 * 86400
     + Gui.seconds_of_day {| Gui.hour := 23; Gui.minutes := 45; Gui.seconds := 0 |}
     + Gui.seconds_of_day {| Gui.hour := 0; Gui.minutes := 30; Gui.seconds := 0 |})%Z /\
    Gui.get_duration_in_seconds w'
    = Gui.Returns
        (Gui.seconds_of_day {| Gui.hour := 0; Gui.minutes := 30; Gui.seconds := 0 |}) /\
    Gui.update_duration w' = Gui.Returns w'.
Proof.
  apply (stop_follows_duration
           {| Gui.start_date :=
                Some {| Gui.year := 2023; Gui.month := 12; Gui.day := 31 |};
              Gui.start_time :=
                Some {| Gui.hour := 23; Gui.minutes := 45; Gui.seconds := 0 |};
              Gui.duration :=
                Some {| Gui.hour := 0; Gui.minutes := 30; Gui.seconds := 0 |};
              Gui.stop_date :=
                Some {| Gui.year := 2023; Gui.month := 12; Gui.day := 31 |};
              Gui.stop_time :=
                Some {| Gui.hour := 23; Gui.minutes := 30; Gui.seconds := 0 |} |}
           {| Gui.year := 2023; Gui.month := 12; Gui.day := 31 |}
           {| Gui.year := 2023; Gui.month := 12; Gui.day := 31 |}
           {| Gui.hour := 23; Gui.minutes := 45; Gui.seconds := 0 |}
           {| Gui.hour := 0; Gui.minutes := 30; Gui.seconds := 0 |}
           {| Gui.hour := 23; Gui.minutes := 30; Gui.seconds := 0 |}
           eq_refl eq_refl eq_refl eq_refl eq_refl eq_refl eq_refl eq_refl).
  cbn. lia.
Defined.

(** X23: a start date that is no date of the calendar, such as the 31st
    of February that the drop-down lists allow, makes
    [update_stop_date_and_time], [get_duration_in_seconds] and
    [update_duration] raise [ValueError]; when one of the five widgets is
    missing, [update_stop_date_and_time] does nothing. *)
Theorem invalid_start_date_raises (w : Gui.widgets) :
  (forall d1 t1 dur old_date old_time,
      Gui.start_date w = Some d1 -> Gui.start_time w = Some t1 ->
      Gui.duration w = Some dur ->
      Gui.stop_date w = Some old_date -> Gui.stop_time w = Some old_time ->
      Gui.valid_time t1 = true ->
      (1 <= Gui.year d1 <= 9999 /\ 1 <= Gui.month d1 <= 12 /\ 1 <= Gui.day d1 <= 31)%Z ->
      Gui.valid_date d1 = false ->
      Gui.update_stop_date_and_time w = Gui.Raises Gui.ValueError /\
      Gui.get_duration_in_seconds w = Gui.Raises Gui.ValueError /\
      Gui.update_duration w = Gui.Raises Gui.ValueError) /\
  (Gui.start_date w = None \/ Gui.start_time w = None \/ Gui.duration w = None \/
   Gui.stop_date w = None \/ Gui.stop_time w = None ->
   Gui.update_stop_date_and_time w = Gui.Returns w).
Proof.
  split.
  - intros d1 t1 dur old_date old_time Hsd Hst Hdw Hpd Hpt Ht1 Hrange Hd1.
    assert (Hdt : Gui.datetime_ d1 t1 = Gui.Raises Gui.ValueError).
    { unfold Gui.datetime_. rewrite Hd1. cbn [andb].
      assert (Hc : forallb Gui.is_c_int
                     [Gui.year d1; Gui.month d1; Gui.day d1;
                      Gui.hour t1; Gui.minutes t1; Gui.seconds t1] = true).
      { unfold Gui.valid_time in Ht1.
        repeat (apply andb_true_iff in Ht1 as (Ht1 & ?)).
        cbn [forallb]. unfold Gui.is_c_int.
        repeat (apply andb_true_iff; split); try reflexivity; apply Z.leb_le; lia. }
      rewrite Hc. reflexivity. }
    assert (Hdur : Gui.get_duration_in_seconds w = Gui.Raises Gui.ValueError).
    { unfold Gui.get_duration_in_seconds, Gui.get_start_dt, Gui.get_start_info.
      rewrite Hsd, Hst. cbn [Gui.widget Gui.and_then fst snd]. rewrite Hdt. reflexivity. }
    repeat split.
    + unfold Gui.update_stop_date_and_time. rewrite Hsd, Hst, Hdw, Hpd, Hpt, Hdt.
      reflexivity.
    + exact Hdur.
    + unfold Gui.update_duration. rewrite Hdur. reflexivity.
  - unfold Gui.update_stop_date_and_time.
    intros [H|[H|[H|[H|H]]]]; rewrite H;
      repeat match goal with
             | |- context [match ?x with Some _ => _ | None => _ end] => destruct x
             end; reflexivity.
Qed.

Lemma invalid_start_date_raises_witness :
  Gui.update_stop_date_and_time
    {| Gui.start_date := Some {| Gui.year := 2024; Gui.month := 2; Gui.day := 31 |};
       Gui.start_time := Some {| Gui.hour := 20; Gui.minutes := 0; Gui.seconds := 0 |};
       Gui.duration := Some {| Gui.hour := 0; Gui.minutes := 30; Gui.seconds := 0 |};
       Gui.stop_date := Some {| Gui.year := 2024; Gui.month := 3; Gui.day := 1 |};
       Gui.stop_time := Some {| Gui.hour := 20; Gui.minutes := 30; Gui.seconds := 0 |} |}
  = Gui.Raises Gui.ValueError.
Proof.
  match goal with |- Gui.update_stop_date_and_time ?x = _ => set (w := x) end.
  apply (proj1 (proj1 (invalid_start_date_raises w)
                  {| Gui.year := 2024; Gui.month := 2; Gui.day := 31 |}
                  {| Gui.hour := 20; Gui.minutes := 0; Gui.seconds := 0 |}
                  {| Gui.hour := 0; Gui.minutes := 30; Gui.seconds := 0 |}
                  {| Gui.year := 2024; Gui.month := 3; Gui.day := 1 |}
                  {| Gui.hour := 20; Gui.minutes := 30; Gui.seconds := 0 |}
                  eq_refl eq_refl eq_refl eq_refl eq_refl eq_refl
                  ltac:(cbn; lia) eq_refl)).
Defined.
